(** * DashTrack: the shift calculator, the weekly summary and the backup merge

    A shallow embedding of [app.js] of DashTrack, a shift tracker for
    delivery drivers, and the properties of its calculation core: times of
    day and durations, the derived fields of a shift record, the week
    buckets of the summary, and the merge of a backup into the collection;
    then those of the code around it: the formatter of the time inputs, the
    week numbers and the dates of the table, the CSV export, the editing of
    a record, and the service worker.

    The sources hold [app.js] in three variants.  The first one keeps its
    records in localStorage; the second one, on IndexedDB, has the
    calculations of the first word for word and adds the backup; the third
    one, on Supabase, reads times in 12-hour text, uses another MPG constant
    and another week, and can edit a record.  The second and the third are
    embedded as the modules [Idb] and [Supa]; what they share (the
    JavaScript built-ins, the calendar, the records, the CSV export) comes
    first, and the service worker of the application comes last, as the
    module [ServiceWorker].

    Conventions of the embedding.
    - A JavaScript string is a [string].  The text of an input is taken in
      code units below 256: no character above that range is a digit, a
      colon or one of the letters A, M, P, also after upper-casing, so none
      can take part in a time that parses.
    - Minute counts are integers ([Z]) where the program computes them from
      parsed times of day; the IndexedDB variant, which reads them with
      [Number], has them as numbers.
    - Numbers (money, miles, gallons) are exact rationals ([Q]), and [NaN]
      is [None] in [option Q].  IEEE rounding, signed zero, infinities and
      the exponent notation of [toFixed] from 1e21 on are outside the model;
      the program never divides by zero, so on inputs of ordinary size it
      computes with finite values only.
    - The page is a record of the values of its inputs and of the content
      of its computed elements; an event handler is a function on it.
    - The storage backend is a parameter where the control flow depends on
      it (the loop of the restore); elsewhere saving is left out.  Writing
      records as JSON and reading them back is the identity.
    - Local time is UTC plus a fixed offset. *)

From stdpp Require Import gmap strings list.
From Stdlib Require Import String Ascii ZArith QArith Qround Qabs List Lia Lqa Bool.
From Stdlib Require Import DecimalString DecimalN DecimalPos.
Import ListNotations.

Open Scope string_scope.
Open Scope Z_scope.

(** ** JavaScript strings *)

Module JS.

(** White space as [String.prototype.trim] and the regular expression class
    [\s] take it: TAB, LF, VT, FF, CR, SPACE, and NBSP. *)
Definition isSpace (c : ascii) : bool :=
  let n := Z.of_nat (nat_of_ascii c) in
  ((9 <=? n) && (n <=? 13)) || (n =? 32) || (n =? 160).

(** The class [\d]: the ten ASCII digits. *)
Definition isDigit (c : ascii) : bool :=
  let n := Z.of_nat (nat_of_ascii c) in
  (48 <=? n) && (n <=? 57).

Definition digitValue (c : ascii) : Z := Z.of_nat (nat_of_ascii c) - 48.

(** [!s] for a string: only the empty string is falsy. *)
Definition falsy (s : string) : bool :=
  match s with
  | EmptyString => true
  | String _ _ => false
  end.

Fixpoint trimStart (s : string) : string :=
  match s with
  | EmptyString => EmptyString
  | String c rest => if isSpace c then trimStart rest else s
  end.

Fixpoint trimEnd (s : string) : string :=
  match s with
  | EmptyString => EmptyString
  | String c rest =>
      match trimEnd rest with
      | EmptyString => if isSpace c then EmptyString else String c EmptyString
      | kept => String c kept
      end
  end.

(** [s.trim()] *)
Definition trim (s : string) : string := trimEnd (trimStart s).

Definition upperChar (c : ascii) : ascii :=
  let n := nat_of_ascii c in
  if (97 <=? n)%nat && (n <=? 122)%nat then ascii_of_nat (n - 32) else c.

(** [s.toUpperCase()], on the letters a to z. *)
Fixpoint toUpperCase (s : string) : string :=
  match s with
  | EmptyString => EmptyString
  | String c rest => String (upperChar c) (toUpperCase rest)
  end.

(** [s.replace(c, '')] with a one-character pattern: the first occurrence
    goes. *)
Fixpoint removeFirst (c : ascii) (s : string) : string :=
  match s with
  | EmptyString => EmptyString
  | String d rest => if Ascii.eqb c d then rest else String d (removeFirst c rest)
  end.

(** [s.replace(/c/g, '')]: every occurrence goes. *)
Fixpoint removeAll (c : ascii) (s : string) : string :=
  match s with
  | EmptyString => EmptyString
  | String d rest => if Ascii.eqb c d then removeAll c rest else String d (removeAll c rest)
  end.

(** The value of a run of decimal digits read left to right, [acc] being the
    value of the digits before it. *)
Fixpoint digitsValue (acc : Z) (s : string) : Z :=
  match s with
  | EmptyString => acc
  | String c rest => digitsValue (10 * acc + digitValue c) rest
  end.

(** [parseInt(s, 10)] on a string of decimal digits, which is all a group
    [(\d{1,2})] or [(\d{2})] captures. *)
Definition parseInt (s : string) : Z := digitsValue 0 s.

Definition allDigits (s : string) : bool :=
  forallb isDigit (list_ascii_of_string s).

Definition allSpaces (s : string) : bool :=
  forallb isSpace (list_ascii_of_string s).

(** The longest prefix of decimal digits, and what follows it. *)
Fixpoint spanDigits (s : string) : string * string :=
  match s with
  | EmptyString => (EmptyString, EmptyString)
  | String c rest =>
      if isDigit c
      then let (ds, tl) := spanDigits rest in (String c ds, tl)
      else (EmptyString, s)
  end.

(** [s.padStart(n, '0')] *)
Definition padStart0 (n : nat) (s : string) : string :=
  string_of_list_ascii (repeat "0"%char (n - String.length s)) ++ s.

(** The first [n] characters of [s], and the rest. *)
Fixpoint splitAt (n : nat) (s : string) : string * string :=
  match n, s with
  | O, _ => (EmptyString, s)
  | S _, EmptyString => (EmptyString, EmptyString)
  | S n', String c rest => let (a, b) := splitAt n' rest in (String c a, b)
  end.

(** The decimal numeral of an integer that is not negative, as
    [Number.prototype.toString] writes it: no leading zero, ["0"] for zero. *)
Definition decimal (n : Z) : string :=
  DecimalString.NilZero.string_of_uint (N.to_uint (Z.to_N n)).

(** ** JavaScript numbers *)

(** 10 to the power [k]. *)
Fixpoint tenTo (k : nat) : positive :=
  match k with
  | O => 1%positive
  | S k' => (10 * tenTo k')%positive
  end.

(** [x || 0] on a number: [NaN] and zero give 0, anything else is kept. *)
Definition orZero (x : option Q) : Q :=
  match x with
  | Some q => q
  | None => 0%Q
  end.

(** An optional sign at the head of [s]: whether it is a minus, and what
    follows it. *)
Definition readSign (s : string) : bool * string :=
  match s with
  | String "-"%char r => (true, r)
  | String "+"%char r => (false, r)
  | _ => (false, s)
  end.

(** The exponent part ([e] or [E], an optional sign, digits) at the head of
    [s] and what follows it; exponent 0 and [s] itself when [s] does not
    start with one. *)
Definition exponentPart (s : string) : Z * string :=
  match s with
  | String c rest =>
      if Ascii.eqb c "e"%char || Ascii.eqb c "E"%char then
        let (neg, body) := readSign rest in
        let (ds, tl) := spanDigits body in
        if falsy ds then (0, s)
        else (if neg then - digitsValue 0 ds else digitsValue 0 ds, tl)
      else (0, s)
  | EmptyString => (0, s)
  end.

(** The longest decimal literal (sign, digits, fraction, exponent) at the
    head of [s]: its value and what follows it; [None] when [s] does not
    start with one.  The literal [Infinity] has no value in this model and
    is not read. *)
Definition decimalLiteral (s : string) : option (Q * string) :=
  let (neg, s1) := readSign s in
  let (ip, s2) := spanDigits s1 in
  let (fp, s3) :=
    match s2 with
    | String "."%char r => spanDigits r
    | _ => (EmptyString, s2)
    end in
  if falsy ip && falsy fp then None
  else
    let m := digitsValue (digitsValue 0 ip) fp in
    let (e, s4) := exponentPart s3 in
    let q := ((m # tenTo (String.length fp)) * Qpower 10 e)%Q in
    Some (if neg then (- q)%Q else q, s4).

(** [parseFloat(s)]: leading white space is skipped and the longest prefix
    that is a decimal literal is read; [NaN] when there is none. *)
Definition parseFloat (s : string) : option Q :=
  option_map fst (decimalLiteral (trimStart s)).

(** [Number(s)] for a string: 0 for white space only, the value of a decimal
    literal that is all of the trimmed string, [NaN] otherwise (literals in
    other bases are not read in this model). *)
Definition Number_ (s : string) : option Q :=
  let t := trim s in
  if falsy t then Some 0%Q
  else
    match decimalLiteral t with
    | Some (q, EmptyString) => Some q
    | _ => None
    end.

(** [s.split(c)] for a one-character separator. *)
Fixpoint split (c : ascii) (s : string) : list string :=
  match s with
  | EmptyString => [EmptyString]
  | String d rest =>
      if Ascii.eqb c d then EmptyString :: split c rest
      else
        match split c rest with
        | piece :: pieces => String d piece :: pieces
        | [] => [String d EmptyString]
        end
  end.

(** Arithmetic and comparison on numbers that may be [NaN]. *)
Definition lift2 (op : Q -> Q -> Q) (x y : option Q) : option Q :=
  match x, y with
  | Some a, Some b => Some (op a b)
  | _, _ => None
  end.

Definition ltb (x y : option Q) : bool :=
  match x, y with
  | Some a, Some b => if Qlt_le_dec a b then true else false
  | _, _ => false
  end.

(** [x.toFixed(f)]: the sign, then the integer [n] nearest to [|x| * 10^f]
    (the larger one on a tie) written with at least [f + 1] digits and a
    point before the last [f]. *)
Definition toFixed (f : nat) (x : Q) : string :=
  let n := Qfloor (Qabs x * (Zpos (tenTo f) # 1) + (1 # 2))%Q in
  let m := padStart0 (S f) (decimal n) in
  let (a, b) := splitAt (String.length m - f) m in
  (if Qlt_le_dec x 0 then "-" else "") ++ a ++
  (match f with O => "" | S _ => "." ++ b end).

(** [Math.round(x)]: the nearest integer, the larger one on a tie. *)
Definition Math_round (x : Q) : Z := Qfloor (x + (1 # 2))%Q.

(** [n.toString()] for an integer [n]. *)
Definition toString (n : Z) : string :=
  if n <? 0 then "-" ++ decimal (- n) else decimal n.

(** [pieces.join(sep)] for an array of strings. *)
Fixpoint join (sep : string) (pieces : list string) : string :=
  match pieces with
  | [] => EmptyString
  | [piece] => piece
  | piece :: rest => piece ++ sep ++ join sep rest
  end.

(** [s.includes(c)] for one character. *)
Fixpoint includes (c : ascii) (s : string) : bool :=
  match s with
  | EmptyString => false
  | String d rest => Ascii.eqb c d || includes c rest
  end.

End JS.

(** ** The calendar behind [Date] *)

Module Cal.

Definition msPerDay : Z := 86400000.

(** Day number (days since 1970-01-01) of the civil date [y]-[m+1]-[d] in
    the proleptic Gregorian calendar.  [m] is the month as JavaScript counts
    it, 0 to 11; [d] may be any integer, days before 1 or after the end of
    the month run into the neighbouring months, as [MakeDay] has it. *)
Definition daysFromCivil (y m d : Z) : Z :=
  let y' := if m <? 2 then y - 1 else y in
  let era := y' / 400 in
  let yoe := y' - era * 400 in
  let mp := if m <? 2 then m + 10 else m - 2 in
  let doy := (153 * mp + 2) / 5 + d - 1 in
  era * 146097 + yoe * 365 + yoe / 4 - yoe / 100 + doy - 719468.

(** The civil date of a day number: year, month (0 to 11), day of month. *)
Definition civilFromDays (n : Z) : Z * Z * Z :=
  let z := n + 719468 in
  let era := z / 146097 in
  let doe := z - era * 146097 in
  let yoe := (doe - doe / 1460 + doe / 36524 - doe / 146096) / 365 in
  let doy := doe - (365 * yoe + yoe / 4 - yoe / 100) in
  let mp := (5 * doy + 2) / 153 in
  let d := doy - (153 * mp + 2) / 5 + 1 in
  let m := if mp <? 10 then mp + 2 else mp - 10 in
  let y := yoe + era * 400 + (if m <? 2 then 1 else 0) in
  (y, m, d).

Definition yearOf (n : Z) : Z := fst (fst (civilFromDays n)).
Definition monthOf (n : Z) : Z := snd (fst (civilFromDays n)).
Definition dayOf (n : Z) : Z := snd (civilFromDays n).

(** Day of the week of a day number, 0 for Sunday; day 0 was a Thursday. *)
Definition weekDay (n : Z) : Z := (n + 4) mod 7.

Definition isLeap (y : Z) : bool :=
  ((y mod 4 =? 0) && negb (y mod 100 =? 0)) || (y mod 400 =? 0).

Definition daysInMonth (y m : Z) : Z :=
  if m =? 1 then (if isLeap y then 29 else 28)
  else if (m =? 3) || (m =? 5) || (m =? 8) || (m =? 10) then 30
  else 31.

End Cal.

(** ** [Date]

    A [Date] is its time value: milliseconds since the epoch, or [None] for
    an invalid date.  Local time is UTC plus a fixed offset of [tz] minutes
    (no daylight saving changes). *)

Module JSDate.

Definition Date : Type := option Z.

(** [new Date(s)] for the text of a date input, [YYYY-MM-DD]: midnight UTC
    of that day.  Any other text is taken as an invalid date (what engines
    make of other formats differs from one to the next). *)
Definition parse (s : string) : Date :=
  match s with
  | String y1 (String y2 (String y3 (String y4 (String "-"
      (String m1 (String m2 (String "-" (String d1 (String d2 EmptyString))))))))) =>
      let ys := String y1 (String y2 (String y3 (String y4 EmptyString))) in
      let ms := String m1 (String m2 EmptyString) in
      let ds := String d1 (String d2 EmptyString) in
      if JS.allDigits ys && JS.allDigits ms && JS.allDigits ds then
        let y := JS.parseInt ys in
        let m := JS.parseInt ms in
        let d := JS.parseInt ds in
        if (1 <=? m) && (m <=? 12) && (1 <=? d) && (d <=? Cal.daysInMonth y (m - 1))
        then Some (Cal.daysFromCivil y (m - 1) d * Cal.msPerDay)
        else None
      else None
  | _ => None
  end.

(** [Date.UTC(y, m, d)] *)
Definition UTC (y m d : Z) : Z := Cal.daysFromCivil y m d * Cal.msPerDay.

Definition utcDay (t : Z) : Z := t / Cal.msPerDay.

Definition getUTCFullYear (t : Z) : Z := Cal.yearOf (utcDay t).
Definition getUTCMonth (t : Z) : Z := Cal.monthOf (utcDay t).
Definition getUTCDate (t : Z) : Z := Cal.dayOf (utcDay t).
Definition getUTCDay (t : Z) : Z := Cal.weekDay (utcDay t).

(** [date.setUTCDate(d)]: the day of the month is replaced, the time of day
    kept. *)
Definition setUTCDate (t d : Z) : Z :=
  Cal.daysFromCivil (getUTCFullYear t) (getUTCMonth t) d * Cal.msPerDay
  + t mod Cal.msPerDay.

Section LocalTime.

(** Minutes that local time is ahead of UTC. *)
Variable tz : Z.

Definition toLocal (t : Z) : Z := t + tz * 60000.
Definition fromLocal (t : Z) : Z := t - tz * 60000.

Definition getFullYear (t : Z) : Z := getUTCFullYear (toLocal t).
Definition getMonth (t : Z) : Z := getUTCMonth (toLocal t).
Definition getDate (t : Z) : Z := getUTCDate (toLocal t).
Definition getDay (t : Z) : Z := getUTCDay (toLocal t).

(** [new Date(y, m, d)]: local midnight. *)
Definition ofLocal (y m d : Z) : Z := fromLocal (UTC y m d).

(** [date.setDate(d)] *)
Definition setDate (t d : Z) : Z := fromLocal (setUTCDate (toLocal t) d).

End LocalTime.

End JSDate.

(** ** The page and the shift records *)

(** A break as a record keeps it: [{ start, end }]. *)
Record Break := { bStart : string; bEnd : string }.

(** A shift record, the [entry] object of the submit handler.  [dbId] is the
    [id] the backend gives a stored record. *)
Record Entry := {
  date : string;
  start : string;
  end_ : string;
  shiftMinutes : Z;
  breakMinutes : Z;
  workingMinutes : Z;
  net : Q;
  gross : Q;
  milesStart : Q;
  milesEnd : Q;
  milesDriven : Q;
  gallons : Q;
  pricePerGal : Q;
  gasCost : Q;
  hourly : Q;
  breaks : list Break;
  dbId : option Z
}.

(** The shift form: the values of its inputs, the rows of the breaks
    container (the values of the [.break-start] and [.break-end] inputs of
    each row), and the content of the computed elements. *)
Record Form := {
  dateInput : string;
  startTimeInput : string;
  endTimeInput : string;
  netEarningsInput : string;
  milesStartInput : string;
  milesEndInput : string;
  breaksContainer : list (string * string);
  shiftDurationEl : string;
  workingDurationEl : string;
  milesDrivenEl : string;
  gallonsUsedInput : string;
  dollarsPerGalInput : string;
  gasCostEl : string;
  grossEarningsEl : string;
  hourlyRateEl : string
}.

(** The module state of [app.js] together with the form. *)
Record State := {
  entries : list Entry;
  editingIndex : Z;
  isSettingUpEdit : bool;
  form : Form
}.

(** The three summary elements. *)
Record Summary := {
  weekSummaryEl : string;
  overallSummaryEl : string;
  avgHourlySummaryEl : string
}.

(** The accumulators of [updateSummaries]. *)
Record Totals := {
  weekNet : Q;
  weekGross : Q;
  weekMinutes : Z;
  totalNet : Q;
  totalGross : Q;
  totalMinutes : Z
}.

(** The en dash that stands for a missing value on the page (written here
    in UTF-8). *)
Definition dash : string := "–".

(** A backup file as [importFromJson] reads it: text that is not JSON, JSON
    without an [entries] array, or [{ exportDate, version, entries }].
    Writing records as JSON and reading them back is taken as the identity. *)
Inductive BackupFile :=
| Unparsable
| NoEntries
| Backup (exportDate version : string) (backupEntries : list Entry).

(** ** The CSV export

    [exportToCsv] is the same text in the three variants. *)

(** The [header] array. *)
Definition csvHeader : list string :=
  [ "Date"; "Start"; "End"; "Shift Duration (min)"; "Break Duration (min)";
    "Working Duration (min)"; "Gross Pay"; "Net Profit"; "Hourly Rate (net)";
    "Miles Start"; "Miles End"; "Miles Driven"; "Gallons Used"; "Price/gal"; "Gas Cost";
    "Breaks" ].

(** The array that is joined into the row of a record: the texts as they
    are, the minute counts as numerals, the decimals with two fractional
    digits, and the breaks as [start-end] joined by bars. *)
Definition csvCells (entry : Entry) : list string :=
  let breaksStr :=
    JS.join "|" (map (fun b => bStart b ++ "-" ++ bEnd b) (breaks entry)) in
  [ date entry;
    start entry;
    end_ entry;
    JS.toString (shiftMinutes entry);
    JS.toString (breakMinutes entry);
    JS.toString (workingMinutes entry);
    JS.toFixed 2 (gross entry);
    JS.toFixed 2 (net entry);
    JS.toFixed 2 (hourly entry);
    JS.toFixed 2 (milesStart entry);
    JS.toFixed 2 (milesEnd entry);
    JS.toFixed 2 (milesDriven entry);
    JS.toFixed 2 (gallons entry);
    JS.toFixed 2 (pricePerGal entry);
    JS.toFixed 2 (gasCost entry);
    breaksStr ].

(** [exportToCsv]: the content of the file, [csvContent]; nothing is
    written for an empty collection. *)
Definition exportToCsv (entries : list Entry) : option string :=
  if (length entries =? 0)%nat then None
  else
    let rows := map (fun entry => JS.join "," (csvCells entry)) entries in
    Some (JS.join (String "010" EmptyString) (JS.join "," csvHeader :: rows)).

(** ** The IndexedDB variant of [app.js] *)

Module Idb.

(** Default MPG used to compute gallons (26 miles per gallon). *)
Definition MPG : Q := 26.

(** Default gas price. *)
Definition DEFAULT_GAS_PRICE : Q := 3272 # 1000.

(** [const [h, m] = text.split(':').map(Number)] followed by [h * 60 + m]. *)
Definition minutesOf (text : string) : option Q :=
  match map JS.Number_ (JS.split ":" text) with
  | h :: m :: _ => JS.lift2 Qplus (JS.lift2 Qmult h (Some 60%Q)) m
  | _ => None
  end.

(** Duration in minutes between two "HH:MM" strings; 24 hours are added to
    an end that is before the start.  [None] is [NaN]. *)
Definition calculateTimeDifferenceMinutes (start end_ : string) : option Q :=
  if JS.falsy start || JS.falsy end_ then Some 0%Q
  else
    let startMinutes := minutesOf start in
    let endMinutes := minutesOf end_ in
    let endMinutes :=
      if JS.ltb endMinutes startMinutes
      then JS.lift2 Qplus endMinutes (Some (24 * 60)%Q)
      else endMinutes in
    JS.lift2 Qminus endMinutes startMinutes.

(** [a % b]: the remainder has the sign of [a]. *)
Definition remainder (a b : Q) : Q :=
  let q := (a / b)%Q in
  (a - b * inject_Z (if Qlt_le_dec q 0 then Qceiling q else Qfloor q))%Q.

(** Format minutes into HH:MM. *)
Definition formatMinutes (minutes : Q) : string :=
  let hrs := Qfloor (minutes / 60) in
  let mins := Qfloor (remainder minutes 60) in
  JS.padStart0 2 (JS.toString hrs) ++ ":" ++ JS.padStart0 2 (JS.toString mins).

Definition getTotalBreakMinutes (rows : list (string * string)) : option Q :=
  fold_left
    (fun total row =>
       let '(start, end_) := row in
       if negb (JS.falsy start) && negb (JS.falsy end_)
       then JS.lift2 Qplus total (calculateTimeDifferenceMinutes start end_)
       else total)
    rows (Some 0%Q).

(** [Math.max(x, 0)] *)
Definition maxZero (x : option Q) : option Q :=
  option_map (fun q => if Qlt_le_dec q 0 then 0%Q else q) x.

Definition parseCommaNumber (str : string) : option Q :=
  if JS.falsy str then None else JS.parseFloat (JS.removeAll "," str).

(** [x > 0] *)
Definition isPositive (x : option Q) : bool := JS.ltb (Some 0%Q) x.

(** Recalculate all derived fields based on current inputs. *)
Definition recalculate (f : Form) : Form :=
  let shiftMinutes := calculateTimeDifferenceMinutes (startTimeInput f) (endTimeInput f) in
  let breakMinutes := getTotalBreakMinutes (breaksContainer f) in
  let workingMinutes := maxZero (JS.lift2 Qminus shiftMinutes breakMinutes) in
  let milesStart := parseCommaNumber (milesStartInput f) in
  let milesEnd := parseCommaNumber (milesEndInput f) in
  let miles : option Q :=
    match milesStart, milesEnd with
    | Some a, Some b => Some (b - a)%Q
    | _, _ => None
    end in
  let gallons : option Q :=
    match miles with
    | Some m => Some (m / 26)%Q
    | None => None
    end in
  let pricePerGal := JS.parseFloat (dollarsPerGalInput f) in
  let gasCost : option Q :=
    match gallons, pricePerGal with
    | Some g, Some p => Some (g * p)%Q
    | _, _ => None
    end in
  let grossPay := JS.parseFloat (netEarningsInput f) in
  {| dateInput := dateInput f;
     startTimeInput := startTimeInput f;
     endTimeInput := endTimeInput f;
     netEarningsInput := netEarningsInput f;
     milesStartInput := milesStartInput f;
     milesEndInput := milesEndInput f;
     breaksContainer := breaksContainer f;
     shiftDurationEl :=
       match shiftMinutes with
       | Some m => if isPositive shiftMinutes then formatMinutes m else ""
       | None => ""
       end;
     workingDurationEl :=
       match workingMinutes with
       | Some m => if isPositive workingMinutes then formatMinutes m else ""
       | None => ""
       end;
     milesDrivenEl :=
       match miles with
       | Some m => JS.toFixed 2 m
       | None => ""
       end;
     gallonsUsedInput :=
       match gallons with
       | Some g => JS.toFixed 2 g
       | None => ""
       end;
     dollarsPerGalInput := dollarsPerGalInput f;
     gasCostEl :=
       match gasCost with
       | Some c => JS.toFixed 2 c
       | None => ""
       end;
     grossEarningsEl :=
       match grossPay with
       | Some g => JS.toFixed 2 (g - JS.orZero gasCost)
       | None => ""
       end;
     hourlyRateEl :=
       match grossPay, workingMinutes with
       | Some g, Some w =>
           if isPositive workingMinutes
           then JS.toFixed 2 ((g - JS.orZero gasCost) / (w / 60))
           else ""
       | _, _ => ""
       end |}.

Definition breaksOf (rows : list (string * string)) : list Break :=
  flat_map
    (fun row : string * string =>
       let (bStart, bEnd) := row in
       if negb (JS.falsy bStart) && negb (JS.falsy bEnd)
       then [ {| bStart := bStart; bEnd := bEnd |} ]
       else [])
    rows.

(** A minute count as a record holds it: the integer that the number is.
    [None] for [NaN] and for a number that is no integer; neither comes from
    the text of a time input, and a record does not hold them here. *)
Definition wholeMinutes (x : option Q) : option Z :=
  match x with
  | Some q => if Qeq_bool (inject_Z (Qfloor q)) q then Some (Qfloor q) else None
  | None => None
  end.

(** The [entry] object that the submit handler builds from the page. *)
Definition submitEntry (f : Form) : option Entry :=
  let date := dateInput f in
  let start := startTimeInput f in
  let end_ := endTimeInput f in
  let grossPay := JS.orZero (JS.parseFloat (netEarningsInput f)) in
  let milesStart := JS.orZero (parseCommaNumber (milesStartInput f)) in
  let milesEnd := JS.orZero (parseCommaNumber (milesEndInput f)) in
  let milesDriven := JS.orZero (JS.parseFloat (milesDrivenEl f)) in
  let gallons := JS.orZero (JS.parseFloat (gallonsUsedInput f)) in
  let pricePerGal := JS.orZero (JS.parseFloat (dollarsPerGalInput f)) in
  let gasCost := JS.orZero (JS.parseFloat (gasCostEl f)) in
  let netProfit := (grossPay - gasCost)%Q in
  let shiftMinutes := calculateTimeDifferenceMinutes start end_ in
  let breakMinutes := getTotalBreakMinutes (breaksContainer f) in
  let workingMinutes := maxZero (JS.lift2 Qminus shiftMinutes breakMinutes) in
  match wholeMinutes shiftMinutes, wholeMinutes breakMinutes, wholeMinutes workingMinutes with
  | Some shiftMinutes, Some breakMinutes, Some workingMinutes =>
      let hourly :=
        if workingMinutes >? 0 then (netProfit / (inject_Z workingMinutes / 60))%Q else 0%Q in
      Some
        {| date := date;
           start := start;
           end_ := end_;
           shiftMinutes := shiftMinutes;
           breakMinutes := breakMinutes;
           workingMinutes := workingMinutes;
           net := netProfit;
           gross := grossPay;
           milesStart := milesStart;
           milesEnd := milesEnd;
           milesDriven := milesDriven;
           gallons := gallons;
           pricePerGal := pricePerGal;
           gasCost := gasCost;
           hourly := hourly;
           breaks := breaksOf (breaksContainer f);
           dbId := None |}
  | _, _, _ => None
  end.

(** The form after the submit handler: [form.reset()] (the inputs are taken
    to have no preset value), the computed fields and the breaks cleared. *)
Definition clearedForm : Form :=
  {| dateInput := "";
     startTimeInput := "";
     endTimeInput := "";
     netEarningsInput := "";
     milesStartInput := "";
     milesEndInput := "";
     breaksContainer := [];
     shiftDurationEl := "";
     workingDurationEl := "";
     milesDrivenEl := "";
     gallonsUsedInput := "";
     dollarsPerGalInput := "";
     gasCostEl := "";
     grossEarningsEl := "";
     hourlyRateEl := "" |}.

(** The submit handler: the new record is pushed and the form cleared. *)
Definition submit (entries : list Entry) (f : Form) : option (list Entry * Form) :=
  option_map (fun entry => ((entries ++ [entry])%list, clearedForm)) (submitEntry f).

(** [loadEntries], once the stored records are there: the price input gets
    the default price if it is empty, and the form is recalculated. *)
Definition loadEntries (f : Form) : Form :=
  recalculate
    {| dateInput := dateInput f;
       startTimeInput := startTimeInput f;
       endTimeInput := endTimeInput f;
       netEarningsInput := netEarningsInput f;
       milesStartInput := milesStartInput f;
       milesEndInput := milesEndInput f;
       breaksContainer := breaksContainer f;
       shiftDurationEl := shiftDurationEl f;
       workingDurationEl := workingDurationEl f;
       milesDrivenEl := milesDrivenEl f;
       gallonsUsedInput := gallonsUsedInput f;
       dollarsPerGalInput :=
         if JS.falsy (dollarsPerGalInput f)
         then JS.toFixed 3 DEFAULT_GAS_PRICE
         else dollarsPerGalInput f;
       gasCostEl := gasCostEl f;
       grossEarningsEl := grossEarningsEl f;
       hourlyRateEl := hourlyRateEl f |}.

Definition strictEq (a b : option Z) : bool :=
  match a, b with
  | Some x, Some y => x =? y
  | _, _ => false
  end.

(** The hourly cell of a row of the entries table. *)
Definition hourlyCell (entry : Entry) : string := JS.toFixed 2 (hourly entry).

Section LocalTime.

Variable tz : Z.

(** The first half of [getWeekNumber]: the local date at midnight UTC, set
    to the nearest Thursday (current date + 4 - current day number, Sunday
    being day 7). *)
Definition weekAnchor (dt : Z) : Z :=
  let date0 :=
    JSDate.UTC (JSDate.getFullYear tz dt) (JSDate.getMonth tz dt) (JSDate.getDate tz dt) in
  let dayNum := if JSDate.getUTCDay date0 =? 0 then 7 else JSDate.getUTCDay date0 in
  JSDate.setUTCDate date0 (JSDate.getUTCDate date0 + 4 - dayNum).

(** ISO week number of a date: Monday is the first day of the week, and the
    week is counted in the year of its Thursday. *)
Definition getWeekNumberAt (dt : Z) : Z :=
  let date1 := weekAnchor dt in
  let yearStart := JSDate.UTC (JSDate.getUTCFullYear date1) 0 1 in
  Qceiling ((inject_Z (date1 - yearStart) / inject_Z 86400000 + 1) / 7)%Q.

Definition getWeekNumber (dt : JSDate.Date) : option Z :=
  option_map getWeekNumberAt dt.

(** One row of the entries table. *)
Definition renderRow (entry : Entry) : list string :=
  [ date entry;
    start entry;
    end_ entry;
    JS.toString (Z.of_nat (length (breaks entry))) ++ " (" ++
      formatMinutes (inject_Z (breakMinutes entry)) ++ ")";
    JS.toFixed 2 (inject_Z (workingMinutes entry) / 60);
    JS.toFixed 2 (gross entry);
    JS.toFixed 2 (net entry);
    hourlyCell entry;
    JS.toFixed 2 (milesDriven entry) ].

Definition renderEntries (entries : list Entry) : option (list (list string)) :=
  if (length entries =? 0)%nat then None else Some (map renderRow entries).

(** The week bucket that [updateSummaries] compares: week number and
    calendar year of the date. *)
Definition weekBucket (dt : JSDate.Date) : option Z * option Z :=
  (getWeekNumber dt, option_map (JSDate.getFullYear tz) dt).

Definition sameBucket (a b : option Z * option Z) : bool :=
  strictEq (fst a) (fst b) && strictEq (snd a) (snd b).

Definition addEntry (now : Z) (acc : Totals) (entry : Entry) : Totals :=
  let entryDate := JSDate.parse (date entry) in
  let inWeek := sameBucket (weekBucket entryDate) (weekBucket (Some now)) in
  {| weekNet := if inWeek then (weekNet acc + net entry)%Q else weekNet acc;
     weekGross := if inWeek then (weekGross acc + gross entry)%Q else weekGross acc;
     weekMinutes := if inWeek then weekMinutes acc + workingMinutes entry else weekMinutes acc;
     totalNet := (totalNet acc + net entry)%Q;
     totalGross := (totalGross acc + gross entry)%Q;
     totalMinutes := totalMinutes acc + workingMinutes entry |}.

Definition noTotals : Totals :=
  {| weekNet := 0; weekGross := 0; weekMinutes := 0;
     totalNet := 0; totalGross := 0; totalMinutes := 0 |}.

(** Update weekly and overall summaries shown in the UI. *)
Definition updateSummaries (entries : list Entry) (now : Z) : Summary :=
  if (length entries =? 0)%nat then
    {| weekSummaryEl := dash; overallSummaryEl := dash; avgHourlySummaryEl := dash |}
  else
    let t := fold_left (addEntry now) entries noTotals in
    {| weekSummaryEl := JS.toFixed 2 (weekNet t) ++ " / " ++ JS.toFixed 2 (weekGross t);
       overallSummaryEl := JS.toFixed 2 (totalNet t) ++ " / " ++ JS.toFixed 2 (totalGross t);
       avgHourlySummaryEl :=
         if totalMinutes t >? 0
         then JS.toFixed 2 (totalNet t / (inject_Z (totalMinutes t) / 60)) ++ " / " ++
              JS.toFixed 2 (totalGross t / (inject_Z (totalMinutes t) / 60))
         else dash |}.

End LocalTime.

Definition exportToJson (exportDate : string) (entries : list Entry) : option BackupFile :=
  if (length entries =? 0)%nat then None else Some (Backup exportDate "1.0" entries).

(** [importFromJson]: the collection after the import and the alert shown.
    [saved] tells whether [saveEntries] succeeded; the collection is
    extended before it is called. *)
Definition importFromJson (saved : bool) (file : BackupFile) (entries : list Entry)
  : list Entry * string :=
  match file with
  | Unparsable =>
      (entries, "Failed to parse backup file. Please check the file format.")
  | NoEntries => (entries, "Invalid backup file format.")
  | Backup _ _ dataEntries =>
      let existingDates : gset string := list_to_set (map date entries) in
      let newEntries := base.filter (fun e => date e ∉ existingDates) dataEntries in
      if (0 <? length newEntries)%nat then
        ((entries ++ newEntries)%list,
         if saved
         then "Successfully imported " ++ JS.toString (Z.of_nat (length newEntries)) ++
              " new entries."
         else "Failed to parse backup file. Please check the file format.")
      else (entries, "No new entries to import (all dates already exist).")
  end.

End Idb.

(** ** The Supabase variant of [app.js] *)

Module Supa.

(** Default MPG used to compute gallons (30.9 miles per gallon). *)
Definition MPG : Q := 309 # 10.

(** Default gas price. *)
Definition DEFAULT_GAS_PRICE : Q := 3272 # 1000.

Inductive Period := AM | PM.

(** [cleanTime.match(/^(\d{1,2}):(\d{2})\s*(AM|PM)$/)]: the three groups of
    the match.  One or two digits are taken greedily (a second digit cannot
    be the colon the pattern wants next, so nothing is lost), then a colon,
    two digits, any white space, and [AM] or [PM] up to the end. *)
Definition matchTime (cleanTime : string) : option (string * string * Period) :=
  let hourGroup :=
    match cleanTime with
    | String a (String b rest) =>
        if JS.isDigit a then
          if JS.isDigit b then Some (String a (String b EmptyString), rest)
          else Some (String a EmptyString, String b rest)
        else None
    | _ => None
    end in
  match hourGroup with
  | Some (h, String ":" (String c (String d rest))) =>
      if JS.isDigit c && JS.isDigit d then
        match JS.trimStart rest with
        | String "A" (String "M" EmptyString) =>
            Some (h, String c (String d EmptyString), AM)
        | String "P" (String "M" EmptyString) =>
            Some (h, String c (String d EmptyString), PM)
        | _ => None
        end
      else None
  | _ => None
  end.

(** Parse a 12-hour time string to minutes since midnight; [None] is the
    [null] of an invalid time. *)
Definition parseTimeToMinutes (timeStr : string) : option Z :=
  if JS.falsy timeStr then None
  else
    let cleanTime := JS.toUpperCase (JS.trim timeStr) in
    match matchTime cleanTime with
    | None => None
    | Some (g1, g2, period) =>
        let hours := JS.parseInt g1 in
        let minutes := JS.parseInt g2 in
        if (hours <? 1) || (hours >? 12) || (minutes <? 0) || (minutes >? 59) then None
        else
          let hours :=
            match period with
            | PM => if negb (hours =? 12) then hours + 12 else hours
            | AM => if hours =? 12 then 0 else hours
            end in
          Some (hours * 60 + minutes)
    end.

(** Duration in minutes from [start] to [end]; an end before the start is
    taken to be on the next day. *)
Definition calculateTimeDifferenceMinutes (start end_ : string) : Z :=
  if JS.falsy start || JS.falsy end_ then 0
  else
    match parseTimeToMinutes start, parseTimeToMinutes end_ with
    | Some startMinutes, Some endMinutes =>
        let duration := endMinutes - startMinutes in
        if duration <? 0 then duration + 24 * 60 else duration
    | _, _ => 0
    end.

(** Format minutes into HH:MM. *)
Definition formatMinutes (minutes : Z) : string :=
  let hrs := minutes / 60 in
  let mins := Z.rem minutes 60 in
  JS.padStart0 2 (JS.toString hrs) ++ ":" ++ JS.padStart0 2 (JS.toString mins).

(** Total break minutes of the break rows: a row counts when both its
    inputs are filled. *)
Definition getTotalBreakMinutes (rows : list (string * string)) : Z :=
  fold_left
    (fun total row =>
       let '(start, end_) := row in
       if negb (JS.falsy start) && negb (JS.falsy end_)
       then total + calculateTimeDifferenceMinutes start end_
       else total)
    rows 0.

(** Parse a number that may carry thousands separators; [NaN] on failure. *)
Definition parseCommaNumber (str : string) : option Q :=
  if JS.falsy str then None else JS.parseFloat (JS.removeAll "," str).

(** [validateTimeInput]: an empty input is valid. *)
Definition validateTimeInput (value : string) : bool :=
  if JS.falsy (JS.trim value) then true
  else match parseTimeToMinutes value with Some _ => true | None => false end.

(** [timeStr.match(/^(\d{1,2}):(\d{2})\s*(am|pm|AM|PM|Am|Pm|aM|pM)$/i)]: the
    three groups of the match.  The pattern is the one of
    [parseTimeToMinutes] with the flag [i]: a letter of the text matches a
    letter of the pattern when the two are the same after upper-casing, so
    the third group is taken as it is written. *)
Definition matchTimeAnyCase (timeStr : string) : option (string * string * string) :=
  let hourGroup :=
    match timeStr with
    | String a (String b rest) =>
        if JS.isDigit a then
          if JS.isDigit b then Some (String a (String b EmptyString), rest)
          else Some (String a EmptyString, String b rest)
        else None
    | _ => None
    end in
  match hourGroup with
  | Some (h, String ":" (String c (String d rest))) =>
      if JS.isDigit c && JS.isDigit d then
        match JS.trimStart rest with
        | String x (String y EmptyString) =>
            if (Ascii.eqb (JS.upperChar x) "A" || Ascii.eqb (JS.upperChar x) "P")
               && Ascii.eqb (JS.upperChar y) "M"
            then Some (h, String c (String d EmptyString), String x (String y EmptyString))
            else None
        | _ => None
        end
      else None
  | _ => None
  end.

(** [formatTimeInput]: the value of a time input after the formatter that
    runs when the input loses the focus ("8:31 pm" becomes "8:31 PM").  A
    blank value and a value that the pattern does not match are left as
    they are. *)
Definition formatTimeInput (value : string) : string :=
  if JS.falsy (JS.trim value) then value
  else
    let timeStr := JS.trim value in
    match matchTimeAnyCase timeStr with
    | Some (hours, minutes, period) =>
        hours ++ ":" ++ minutes ++ " " ++ JS.toUpperCase period
    | None => value
    end.

(** Recalculate all derived fields based on current inputs. *)
Definition recalculate (f : Form) : Form :=
  let shiftMinutes := calculateTimeDifferenceMinutes (startTimeInput f) (endTimeInput f) in
  let breakMinutes := getTotalBreakMinutes (breaksContainer f) in
  let workingMinutes := Z.max (shiftMinutes - breakMinutes) 0 in
  let milesStart := parseCommaNumber (milesStartInput f) in
  let milesEnd := parseCommaNumber (milesEndInput f) in
  let miles : option Q :=
    match milesStart, milesEnd with
    | Some a, Some b => Some (b - a)%Q
    | _, _ => None
    end in
  let gallons : option Q :=
    match miles with
    | Some m => Some (m / MPG)%Q
    | None => None
    end in
  let pricePerGal := JS.parseFloat (JS.removeFirst "$" (dollarsPerGalInput f)) in
  let gasCost : option Q :=
    match gallons, pricePerGal with
    | Some g, Some p => Some (g * p)%Q
    | _, _ => None
    end in
  let grossPay := JS.parseFloat (netEarningsInput f) in
  {| dateInput := dateInput f;
     startTimeInput := startTimeInput f;
     endTimeInput := endTimeInput f;
     netEarningsInput := netEarningsInput f;
     milesStartInput := milesStartInput f;
     milesEndInput := milesEndInput f;
     breaksContainer := breaksContainer f;
     shiftDurationEl :=
       if shiftMinutes >? 0 then formatMinutes shiftMinutes else dash;
     workingDurationEl :=
       if workingMinutes >? 0 then formatMinutes workingMinutes else dash;
     milesDrivenEl :=
       match miles with
       | Some m => JS.toString (JS.Math_round m)
       | None => dash
       end;
     gallonsUsedInput :=
       match gallons with
       | Some g => JS.toFixed 2 g
       | None => dash
       end;
     dollarsPerGalInput := dollarsPerGalInput f;
     gasCostEl :=
       match gasCost with
       | Some c => "$" ++ JS.toFixed 2 c
       | None => dash
       end;
     grossEarningsEl :=
       match grossPay with
       | Some g => "$" ++ JS.toFixed 2 (g - JS.orZero gasCost)
       | None => dash
       end;
     hourlyRateEl :=
       match grossPay with
       | Some g =>
           if workingMinutes >? 0
           then "$" ++ JS.toFixed 2 ((g - JS.orZero gasCost) / (inject_Z workingMinutes / 60))
           else dash
       | None => dash
       end |}.

(** The [breaks] array of the submit handler: the rows with both inputs
    filled. *)
Definition breaksOf (rows : list (string * string)) : list Break :=
  flat_map
    (fun row : string * string =>
       let (bStart, bEnd) := row in
       if negb (JS.falsy bStart) && negb (JS.falsy bEnd)
       then [ {| bStart := bStart; bEnd := bEnd |} ]
       else [])
    rows.

(** The [entry] object that the submit handler builds from the page. *)
Definition submitEntry (f : Form) : Entry :=
  let date := dateInput f in
  let start := startTimeInput f in
  let end_ := endTimeInput f in
  let grossPay := JS.orZero (JS.parseFloat (netEarningsInput f)) in
  let milesStart := JS.orZero (parseCommaNumber (milesStartInput f)) in
  let milesEnd := JS.orZero (parseCommaNumber (milesEndInput f)) in
  let milesDriven := JS.orZero (JS.parseFloat (milesDrivenEl f)) in
  let gallons := JS.orZero (JS.parseFloat (gallonsUsedInput f)) in
  let pricePerGal := JS.orZero (JS.parseFloat (JS.removeFirst "$" (dollarsPerGalInput f))) in
  let gasCost := JS.orZero (JS.parseFloat (JS.removeFirst "$" (gasCostEl f))) in
  let netProfit := (grossPay - gasCost)%Q in
  let shiftMinutes := calculateTimeDifferenceMinutes start end_ in
  let breakMinutes := getTotalBreakMinutes (breaksContainer f) in
  let workingMinutes := Z.max (shiftMinutes - breakMinutes) 0 in
  let hourly :=
    if workingMinutes >? 0 then (netProfit / (inject_Z workingMinutes / 60))%Q else 0%Q in
  {| date := date;
     start := start;
     end_ := end_;
     shiftMinutes := shiftMinutes;
     breakMinutes := breakMinutes;
     workingMinutes := workingMinutes;
     net := netProfit;
     gross := grossPay;
     milesStart := milesStart;
     milesEnd := milesEnd;
     milesDriven := milesDriven;
     gallons := gallons;
     pricePerGal := pricePerGal;
     gasCost := gasCost;
     hourly := hourly;
     breaks := breaksOf (breaksContainer f);
     dbId := None |}.

(** [resetForm]: back to add mode.  The markup is not among the sources;
    its inputs are taken to have no preset value, so [form.reset()] empties
    them. *)
Definition resetFormFields : Form :=
  {| dateInput := "";
     startTimeInput := "";
     endTimeInput := "";
     netEarningsInput := "";
     milesStartInput := "";
     milesEndInput := "";
     breaksContainer := [];
     shiftDurationEl := dash;
     workingDurationEl := dash;
     milesDrivenEl := dash;
     gallonsUsedInput := dash;
     dollarsPerGalInput := "$" ++ JS.toFixed 2 DEFAULT_GAS_PRICE;
     gasCostEl := dash;
     grossEarningsEl := dash;
     hourlyRateEl := dash |}.

Definition resetForm (st : State) : State :=
  {| entries := entries st;
     editingIndex := -1;
     isSettingUpEdit := isSettingUpEdit st;
     form := resetFormFields |}.

Definition withId (entry : Entry) (i : option Z) : Entry :=
  {| date := date entry;
     start := start entry;
     end_ := end_ entry;
     shiftMinutes := shiftMinutes entry;
     breakMinutes := breakMinutes entry;
     workingMinutes := workingMinutes entry;
     net := net entry;
     gross := gross entry;
     milesStart := milesStart entry;
     milesEnd := milesEnd entry;
     milesDriven := milesDriven entry;
     gallons := gallons entry;
     pricePerGal := pricePerGal entry;
     gasCost := gasCost entry;
     hourly := hourly entry;
     breaks := breaks entry;
     dbId := i |}.

(** The submit handler, as far as the page and the collection go (saving is
    the backend's and is not awaited).  Nothing happens while an edit is
    being set up or when a time does not validate.  In edit mode the record
    at [editingIndex] is replaced and keeps its id; were there no record at
    that index the handler would stop at reading its id. *)
Definition submit (st : State) : State :=
  if isSettingUpEdit st then st
  else if negb (validateTimeInput (startTimeInput (form st)))
          || negb (validateTimeInput (endTimeInput (form st))) then st
  else
    let isEditMode := editingIndex st >=? 0 in
    let editIndex := Z.to_nat (editingIndex st) in
    let entry := submitEntry (form st) in
    if isEditMode then
      match entries st !! editIndex with
      | Some existingEntry =>
          resetForm
            {| entries := <[editIndex := withId entry (dbId existingEntry)]> (entries st);
               editingIndex := editingIndex st;
               isSettingUpEdit := isSettingUpEdit st;
               form := form st |}
      | None => st
      end
    else
      resetForm
        {| entries := (entries st ++ [entry])%list;
           editingIndex := editingIndex st;
           isSettingUpEdit := isSettingUpEdit st;
           form := form st |}.

(** [editEntry(index)]: the form is filled from the record and
    recalculated. *)
Definition editEntry (index : nat) (st : State) : State :=
  match entries st !! index with
  | None => st
  | Some entry =>
      {| entries := entries st;
         editingIndex := Z.of_nat index;
         isSettingUpEdit := true;
         form :=
           recalculate
             {| dateInput := date entry;
                startTimeInput := start entry;
                endTimeInput := end_ entry;
                netEarningsInput := JS.toFixed 2 (gross entry);
                milesStartInput := JS.toFixed 0 (milesStart entry);
                milesEndInput := JS.toFixed 0 (milesEnd entry);
                breaksContainer := map (fun b => (bStart b, bEnd b)) (breaks entry);
                shiftDurationEl := shiftDurationEl (form st);
                workingDurationEl := workingDurationEl (form st);
                milesDrivenEl := milesDrivenEl (form st);
                gallonsUsedInput := gallonsUsedInput (form st);
                dollarsPerGalInput := dollarsPerGalInput (form st);
                gasCostEl := gasCostEl (form st);
                grossEarningsEl := grossEarningsEl (form st);
                hourlyRateEl := hourlyRateEl (form st) |} |}
  end.

(** [loadEntries], once the stored records are there: they become the
    collection, the price element gets the default price, and the form is
    recalculated. *)
Definition loadEntries (stored : list Entry) (st : State) : State :=
  {| entries := stored;
     editingIndex := editingIndex st;
     isSettingUpEdit := isSettingUpEdit st;
     form :=
       recalculate
         {| dateInput := dateInput (form st);
            startTimeInput := startTimeInput (form st);
            endTimeInput := endTimeInput (form st);
            netEarningsInput := netEarningsInput (form st);
            milesStartInput := milesStartInput (form st);
            milesEndInput := milesEndInput (form st);
            breaksContainer := breaksContainer (form st);
            shiftDurationEl := shiftDurationEl (form st);
            workingDurationEl := workingDurationEl (form st);
            milesDrivenEl := milesDrivenEl (form st);
            gallonsUsedInput := gallonsUsedInput (form st);
            dollarsPerGalInput := "$" ++ JS.toFixed 2 DEFAULT_GAS_PRICE;
            gasCostEl := gasCostEl (form st);
            grossEarningsEl := grossEarningsEl (form st);
            hourlyRateEl := hourlyRateEl (form st) |} |}.

(** [a === b] on numbers that may be [NaN]. *)
Definition strictEq (a b : option Z) : bool :=
  match a, b with
  | Some x, Some y => x =? y
  | _, _ => false
  end.

(** The hourly cell of a row of the entries table. *)
Definition hourlyCell (entry : Entry) : string := "$" ++ JS.toFixed 2 (hourly entry).

(** The last two characters of [s]: [s.slice(-2)]. *)
Definition sliceLast2 (s : string) : string :=
  snd (JS.splitAt (String.length s - 2) s).

Section LocalTime.

Variable tz : Z.

(** The first half of [getWeekNumber]: local midnight of the date, set to
    the nearest Saturday (current date + 6 - current day number). *)
Definition weekAnchor (dt : Z) : Z :=
  let date0 :=
    JSDate.ofLocal tz (JSDate.getFullYear tz dt) (JSDate.getMonth tz dt) (JSDate.getDate tz dt) in
  let dayNum := JSDate.getDay tz date0 in
  JSDate.setDate tz date0 (JSDate.getDate tz date0 + 6 - dayNum).

(** Week number of a date; Sunday is the first day of the week and the
    week is counted in the year of its Saturday. *)
Definition getWeekNumberAt (dt : Z) : Z :=
  let date1 := weekAnchor dt in
  let yearStart := JSDate.ofLocal tz (JSDate.getFullYear tz date1) 0 1 in
  Qceiling ((inject_Z (date1 - yearStart) / inject_Z 86400000 + 1) / 7)%Q.

(** [getWeekNumber(dt)]; [NaN] for an invalid date. *)
Definition getWeekNumber (dt : JSDate.Date) : option Z :=
  option_map getWeekNumberAt dt.

(** [formatDate]: M/D/YY in local time. *)
Definition formatDate (dateString : string) : string :=
  match JSDate.parse dateString with
  | Some t =>
      JS.toString (JSDate.getMonth tz t + 1) ++ "/" ++
      JS.toString (JSDate.getDate tz t) ++ "/" ++
      sliceLast2 (JS.toString (JSDate.getFullYear tz t))
  | None => "NaN/NaN/aN"
  end.

(** One row of the entries table: date, hours, gross, net, hourly. *)
Definition renderRow (entry : Entry) : list string :=
  [ formatDate (date entry);
    JS.toFixed 2 (inject_Z (workingMinutes entry) / 60);
    "$" ++ JS.toFixed 2 (gross entry);
    "$" ++ JS.toFixed 2 (net entry);
    hourlyCell entry ].

(** [renderEntries]: the rows of the table, or [None] where the page says
    that no shifts are recorded yet. *)
Definition renderEntries (entries : list Entry) : option (list (list string)) :=
  if (length entries =? 0)%nat then None else Some (map renderRow entries).

(** The week bucket that [updateSummaries] compares: week number and
    calendar year of the date. *)
Definition weekBucket (dt : JSDate.Date) : option Z * option Z :=
  (getWeekNumber dt, option_map (JSDate.getFullYear tz) dt).

Definition sameBucket (a b : option Z * option Z) : bool :=
  strictEq (fst a) (fst b) && strictEq (snd a) (snd b).

(** The body of the [forEach] of [updateSummaries]. *)
Definition addEntry (now : Z) (acc : Totals) (entry : Entry) : Totals :=
  let entryDate := JSDate.parse (date entry) in
  let inWeek := sameBucket (weekBucket entryDate) (weekBucket (Some now)) in
  {| weekNet := if inWeek then (weekNet acc + net entry)%Q else weekNet acc;
     weekGross := if inWeek then (weekGross acc + gross entry)%Q else weekGross acc;
     weekMinutes := if inWeek then weekMinutes acc + workingMinutes entry else weekMinutes acc;
     totalNet := (totalNet acc + net entry)%Q;
     totalGross := (totalGross acc + gross entry)%Q;
     totalMinutes := totalMinutes acc + workingMinutes entry |}.

Definition noTotals : Totals :=
  {| weekNet := 0; weekGross := 0; weekMinutes := 0;
     totalNet := 0; totalGross := 0; totalMinutes := 0 |}.

(** Update weekly and overall summaries shown in the UI; [now] is the
    current time. *)
Definition updateSummaries (entries : list Entry) (showGrossValues : bool) (now : Z) : Summary :=
  if (length entries =? 0)%nat then
    {| weekSummaryEl := dash; overallSummaryEl := dash; avgHourlySummaryEl := dash |}
  else
    let t := fold_left (addEntry now) entries noTotals in
    if showGrossValues then
      {| weekSummaryEl := "$" ++ JS.toFixed 2 (weekGross t);
         overallSummaryEl := "$" ++ JS.toFixed 2 (totalGross t);
         avgHourlySummaryEl :=
           if totalMinutes t >? 0
           then "$" ++ JS.toFixed 2 (totalGross t / (inject_Z (totalMinutes t) / 60))
           else dash |}
    else
      {| weekSummaryEl := "$" ++ JS.toFixed 2 (weekNet t);
         overallSummaryEl := "$" ++ JS.toFixed 2 (totalNet t);
         avgHourlySummaryEl :=
           if totalMinutes t >? 0
           then "$" ++ JS.toFixed 2 (totalNet t / (inject_Z (totalMinutes t) / 60))
           else dash |}.

End LocalTime.

(** [exportToJson]: nothing is written for an empty collection. *)
Definition exportToJson (exportDate : string) (entries : list Entry) : option BackupFile :=
  if (length entries =? 0)%nat then None else Some (Backup exportDate "1.0" entries).

Section Backend.

(** [saveEntry(entry, false)] as the import sees it: [Some e] when it
    returns, [e] being the entry with the stored row merged into it (the
    entry itself when the backend gave nothing back); [None] when it throws
    because every storage method failed. *)
Variable saveEntry : Entry -> option Entry.

(** The loop that pushes and saves each new entry; the flag tells whether
    it ran to the end. *)
Fixpoint importLoop (entries newEntries : list Entry) : list Entry * bool :=
  match newEntries with
  | [] => (entries, true)
  | newEntry :: rest =>
      match saveEntry newEntry with
      | Some saved => importLoop (entries ++ [saved])%list rest
      | None => ((entries ++ [newEntry])%list, false)
      end
  end.

(** [importFromJson]: the collection after the import and the alert shown. *)
Definition importFromJson (file : BackupFile) (entries : list Entry) : list Entry * string :=
  match file with
  | Unparsable =>
      (entries, "Failed to parse backup file. Please check the file format.")
  | NoEntries => (entries, "Invalid backup file format.")
  | Backup _ _ dataEntries =>
      let existingDates : gset string := list_to_set (map date entries) in
      let newEntries := base.filter (fun e => date e ∉ existingDates) dataEntries in
      if (0 <? length newEntries)%nat then
        let (entries', finished) := importLoop entries newEntries in
        if finished then
          (entries',
           "Successfully imported " ++ JS.toString (Z.of_nat (length newEntries)) ++ " new entries.")
        else (entries', "Failed to parse backup file. Please check the file format.")
      else (entries, "No new entries to import (all dates already exist).")
  end.

End Backend.

(** *** The page in use

    What can happen to the page between two looks at it: an input or the
    break rows get another content (typed, or written by a formatter on
    blur), the listeners recalculate, the form is submitted, a record is
    opened for editing, the timer of the edit setup fires, the record being
    edited is deleted, a backup is restored. *)

Inductive Event :=
| SetDate (value : string)
| SetStartTime (value : string)
| SetEndTime (value : string)
| SetNetEarnings (value : string)
| SetMilesStart (value : string)
| SetMilesEnd (value : string)
| SetBreaks (rows : list (string * string))
| Recalculate
| Submit
| Edit (index : nat)
| EditSetupDone
| DeleteEdited
| Import (saveEntry : Entry -> option Entry) (file : BackupFile).

(** The form with other contents of its inputs and break rows. *)
Definition withInputs (f : Form) (dateValue startValue endValue netValue : string)
    (milesStartValue milesEndValue : string) (rows : list (string * string)) : Form :=
  {| dateInput := dateValue;
     startTimeInput := startValue;
     endTimeInput := endValue;
     netEarningsInput := netValue;
     milesStartInput := milesStartValue;
     milesEndInput := milesEndValue;
     breaksContainer := rows;
     shiftDurationEl := shiftDurationEl f;
     workingDurationEl := workingDurationEl f;
     milesDrivenEl := milesDrivenEl f;
     gallonsUsedInput := gallonsUsedInput f;
     dollarsPerGalInput := dollarsPerGalInput f;
     gasCostEl := gasCostEl f;
     grossEarningsEl := grossEarningsEl f;
     hourlyRateEl := hourlyRateEl f |}.

Definition withForm (st : State) (f : Form) : State :=
  {| entries := entries st;
     editingIndex := editingIndex st;
     isSettingUpEdit := isSettingUpEdit st;
     form := f |}.

Definition step (st : State) (ev : Event) : State :=
  let f := form st in
  match ev with
  | SetDate v =>
      withForm st (withInputs f v (startTimeInput f) (endTimeInput f) (netEarningsInput f)
                     (milesStartInput f) (milesEndInput f) (breaksContainer f))
  | SetStartTime v =>
      withForm st (withInputs f (dateInput f) v (endTimeInput f) (netEarningsInput f)
                     (milesStartInput f) (milesEndInput f) (breaksContainer f))
  | SetEndTime v =>
      withForm st (withInputs f (dateInput f) (startTimeInput f) v (netEarningsInput f)
                     (milesStartInput f) (milesEndInput f) (breaksContainer f))
  | SetNetEarnings v =>
      withForm st (withInputs f (dateInput f) (startTimeInput f) (endTimeInput f) v
                     (milesStartInput f) (milesEndInput f) (breaksContainer f))
  | SetMilesStart v =>
      withForm st (withInputs f (dateInput f) (startTimeInput f) (endTimeInput f)
                     (netEarningsInput f) v (milesEndInput f) (breaksContainer f))
  | SetMilesEnd v =>
      withForm st (withInputs f (dateInput f) (startTimeInput f) (endTimeInput f)
                     (netEarningsInput f) (milesStartInput f) v (breaksContainer f))
  | SetBreaks rows =>
      withForm st (withInputs f (dateInput f) (startTimeInput f) (endTimeInput f)
                     (netEarningsInput f) (milesStartInput f) (milesEndInput f) rows)
  | Recalculate => withForm st (recalculate f)
  | Submit => submit st
  | Edit index => editEntry index st
  | EditSetupDone =>
      {| entries := entries st;
         editingIndex := editingIndex st;
         isSettingUpEdit := false;
         form := f |}
  | DeleteEdited =>
      resetForm
        {| entries := delete (Z.to_nat (editingIndex st)) (entries st);
           editingIndex := editingIndex st;
           isSettingUpEdit := isSettingUpEdit st;
           form := f |}
  | Import saveEntry file =>
      {| entries := fst (importFromJson saveEntry file (entries st));
         editingIndex := editingIndex st;
         isSettingUpEdit := isSettingUpEdit st;
         form := f |}
  end.

(** The page after a sequence of events. *)
Definition run (st : State) (events : list Event) : State := fold_left step events st.

(** *** The Delete Shift button

    [editEntry] adds the button to the form unless the form has one
    already, and the click handler that it gives a new button keeps the
    [index] of that call; [resetForm] removes the button.  So the page is
    taken here together with the index that the handler of the button
    holds, if there is a button. *)

Record EditPage := {
  page : State;
  deleteBtn : option nat
}.

(** A click on the Edit button of row [index]: [editEntry(index)]. *)
Definition editClick (index : nat) (p : EditPage) : EditPage :=
  match entries (page p) !! index with
  | None => p
  | Some _ =>
      {| page := editEntry index (page p);
         deleteBtn :=
           match deleteBtn p with
           | Some held => Some held
           | None => Some index
           end |}
  end.

(** A click on Delete Shift with the confirmation accepted: the record at
    the index that the handler holds is spliced out of the collection, and
    the form is reset once the deletion has been passed to the backend. *)
Definition deleteClick (p : EditPage) : EditPage :=
  match deleteBtn p with
  | None => p
  | Some index =>
      {| page :=
           resetForm
             {| entries := delete index (entries (page p));
                editingIndex := editingIndex (page p);
                isSettingUpEdit := isSettingUpEdit (page p);
                form := form (page p) |};
         deleteBtn := None |}
  end.

End Supa.

(** ** The service worker

    A request is its method and its URL, a URL being compared as a string;
    a response is opaque.  A cache maps URLs to responses, and the cache
    storage holds the named caches in the order of their creation, which is
    the order of [caches.keys()] and of the search of [caches.match].  The
    network is what a [fetch] of a URL gives at some moment: a response, or
    nothing when the fetch fails. *)

Module ServiceWorker.

Definition CACHE_NAME : string := "dashtrack-cache-v1".

Definition ASSETS_TO_CACHE : list string :=
  [ "/"; "/index.html"; "/style.css"; "/app.js"; "/manifest.json";
    "/icons/logo-192.png"; "/icons/logo-512.png" ].

Section Worker.

Variable Response : Type.

(** [response.ok]: the status is in the range from 200 to 299. *)
Variable ok : Response -> bool.

Definition Cache : Type := gmap string Response.
Definition CacheStorage : Type := list (string * Cache).
Definition Network : Type := string -> option Response.

(** [caches.has(name)] *)
Definition cachesHas (name : string) (caches : CacheStorage) : bool :=
  existsb (fun kc => String.eqb (fst kc) name) caches.

(** The storage after [caches.open(name)]: a cache of that name is created,
    empty, when there is none. *)
Definition cachesOpen (name : string) (caches : CacheStorage) : CacheStorage :=
  if cachesHas name caches then caches else (caches ++ [(name, ∅)])%list.

(** The storage after the cache of the name [name] has been changed by
    [change]. *)
Fixpoint withCache (name : string) (change : Cache -> Cache) (caches : CacheStorage)
  : CacheStorage :=
  match caches with
  | [] => []
  | (key, cache) :: rest =>
      if String.eqb key name then (key, change cache) :: rest
      else (key, cache) :: withCache name change rest
  end.

(** The fetches of [cache.addAll(urls)]: the responses by URL when every
    fetch gives a response that is ok, nothing when one does not. *)
Fixpoint fetchAll (network : Network) (urls : list string) : option (list (string * Response)) :=
  match urls with
  | [] => Some []
  | url :: rest =>
      match network url with
      | Some response =>
          if ok response
          then option_map (cons (url, response)) (fetchAll network rest)
          else None
      | None => None
      end
  end.

(** The cache after the responses have been put into it. *)
Definition putAll (responses : list (string * Response)) (cache : Cache) : Cache :=
  fold_left (fun c ur => <[fst ur := snd ur]> c) responses cache.

(** The [install] handler: the cache of this version is opened and the
    assets are added to it.  The result is the storage afterwards and
    whether the promise given to [waitUntil] is fulfilled, that is, whether
    the worker gets installed; [addAll] stores all the responses or none. *)
Definition install (network : Network) (caches : CacheStorage) : CacheStorage * bool :=
  let opened := cachesOpen CACHE_NAME caches in
  match fetchAll network ASSETS_TO_CACHE with
  | Some responses => (withCache CACHE_NAME (putAll responses) opened, true)
  | None => (opened, false)
  end.

(** The storage after [caches.delete(key)]. *)
Definition cachesDelete (key : string) (caches : CacheStorage) : CacheStorage :=
  List.filter (fun kc => negb (String.eqb (fst kc) key)) caches.

(** The [activate] handler: the keys other than the name of this version
    are taken from [caches.keys()] and their caches deleted. *)
Definition activate (caches : CacheStorage) : CacheStorage :=
  let keys := map fst caches in
  let outdated := List.filter (fun key => negb (String.eqb key CACHE_NAME)) keys in
  fold_left (fun remaining key => cachesDelete key remaining) outdated caches.

(** [caches.match(url)]: the response of the first cache that has one. *)
Fixpoint cachesMatch (url : string) (caches : CacheStorage) : option Response :=
  match caches with
  | [] => None
  | (_, cache) :: rest =>
      match cache !! url with
      | Some response => Some response
      | None => cachesMatch url rest
      end
  end.

(** What the [fetch] handler does with a request: it leaves it to the
    browser, or it answers it with a response ([None] is the [undefined]
    that a failed lookup of the fallback page leaves, which the page sees
    as a network error). *)
Inductive Handled :=
| NotHandled
| RespondWith (response : option Response).

(** The [fetch] handler: a request that is not a GET is left alone; a GET
    is answered from the caches, else from the network, else with the
    cached [/index.html]. *)
Definition onFetch (network : Network) (caches : CacheStorage) (method url : string)
  : Handled :=
  if negb (String.eqb method "GET") then NotHandled
  else
    RespondWith
      match cachesMatch url caches with
      | Some cachedResponse => Some cachedResponse
      | None =>
          match network url with
          | Some response => Some response
          | None => cachesMatch "/index.html" caches
          end
      end.

End Worker.

End ServiceWorker.
(** ** The time format in the words of the specification *)

Module Spec.

Definition periodText (p : Supa.Period) : string :=
  match p with
  | Supa.AM => "AM"
  | Supa.PM => "PM"
  end.

(** [s] reads as a time of day: optional white space around; an hour of one
    or two digits; a colon; a minute of exactly two digits; a [gap]; AM or PM
    in either case.  [gapOk] says which gaps are allowed. *)
Definition timeText (gapOk : string -> Prop) (s : string)
    (hours minutes : Z) (period : Supa.Period) : Prop :=
  exists lead h m gap p trail,
    s = lead ++ h ++ ":" ++ m ++ gap ++ p ++ trail /\
    JS.allSpaces lead = true /\ JS.allSpaces trail = true /\
    JS.allDigits h = true /\
    (String.length h = 1%nat \/ String.length h = 2%nat) /\
    JS.allDigits m = true /\ String.length m = 2%nat /\
    gapOk gap /\
    JS.toUpperCase p = periodText period /\
    hours = JS.parseInt h /\ minutes = JS.parseInt m.

(** The gap of the shape [H:MM AM/PM] as it is written: one space. *)
Definition oneSpace (gap : string) : Prop := gap = " ".

(** The gap that the pattern of the program takes: any white space, or
    none. *)
Definition anySpaces (gap : string) : Prop := JS.allSpaces gap = true.

(** Minutes since midnight of a 12-hour time: 12 AM is hour 0, 12 PM is
    noon. *)
Definition minutesSinceMidnight (hours minutes : Z) (period : Supa.Period) : Z :=
  match period with
  | Supa.AM => (if hours =? 12 then 0 else hours) * 60 + minutes
  | Supa.PM => (if hours =? 12 then 12 else hours + 12) * 60 + minutes
  end.

(** The invariant that ties the three minute counts of a record. *)
Definition workingMinutesOk (e : Entry) : Prop :=
  workingMinutes e = Z.max (shiftMinutes e - breakMinutes e) 0 /\
  workingMinutes e <= shiftMinutes e /\
  0 <= workingMinutes e.

(** [x] rounded to [f] fractional digits, a half going away from zero. *)
Definition roundTo (f : nat) (x : Q) : Q :=
  let n := Qfloor (Qabs x * (Zpos (JS.tenTo f) # 1) + (1 # 2))%Q in
  if Qlt_le_dec x 0 then (- (n # JS.tenTo f))%Q else n # JS.tenTo f.




(** The value of a time input for hour [h] and minute [m]: [HH:MM]. *)
Definition clock (h m : Z) : string :=
  JS.padStart0 2 (JS.toString h) ++ ":" ++ JS.padStart0 2 (JS.toString m).

(** The value of a time input: empty, or a time of day. *)
Definition timeInputValue (s : string) : Prop :=
  s = "" \/ exists h m, 0 <= h < 24 /\ 0 <= m < 60 /\ s = clock h m.

(** A page whose time inputs hold values of time inputs. *)
Definition timeInputsOk (f : Form) : Prop :=
  timeInputValue (startTimeInput f) /\ timeInputValue (endTimeInput f) /\
  Forall (fun row => timeInputValue (fst row) /\ timeInputValue (snd row)) (breaksContainer f).

(** The midnight rule: a negative difference is taken a day later. *)
Definition rollover (d : Z) : Z := if d <? 0 then d + 1440 else d.

(** [f] holds on the [k] integers from [n] on. *)
Fixpoint forRange (k : nat) (n : Z) (f : Z -> bool) : bool :=
  match k with
  | O => true
  | S k' => f n && forRange k' (n + 1) f
  end.


(** The local day (as a day number) of the instant [t], [tz] minutes ahead
    of UTC. *)
Definition localDay (tz t : Z) : Z := JSDate.utcDay (JSDate.toLocal tz t).

(** The Sunday on or before day [n], and the Monday on or before it. *)
Definition sundayOf (n : Z) : Z := n - Cal.weekDay n.
Definition mondayOf (n : Z) : Z := n - (Cal.weekDay n + 6) mod 7.

(** The Saturday that ends the week from Sunday of day [n], and the
    Thursday of its week from Monday. *)
Definition saturdayOf (n : Z) : Z := sundayOf n + 6.
Definition thursdayOf (n : Z) : Z := mondayOf n + 3.

(** The number of the week of the year in which day [a] falls, the weeks
    being the runs of seven days from the first of January of the year of
    [a]. *)
Definition weekOfYear (a : Z) : Z :=
  (a - Cal.daysFromCivil (Cal.yearOf a) 0 1) / 7 + 1.

(** Day [n] as a date input gives it: [YYYY-MM-DD]. *)
Definition isoDate (n : Z) : string :=
  let '(y, m, d) := Cal.civilFromDays n in
  JS.padStart0 4 (JS.toString y) ++ "-" ++ JS.padStart0 2 (JS.toString (m + 1)) ++ "-" ++
  JS.padStart0 2 (JS.toString d).


(** No comma and no line feed: text that a CSV file can hold unquoted. *)
Definition plainText (s : string) : Prop :=
  JS.includes "," s = false /\ JS.includes "010" s = false.

(** A record whose texts (date, times, break times) are plain. *)
Definition plainRecord (e : Entry) : Prop :=
  plainText (date e) /\ plainText (start e) /\ plainText (end_ e) /\
  Forall (fun b => plainText (bStart b) /\ plainText (bEnd b)) (breaks e).

End Spec.

(** ** Sample pages *)

(** A shift from 9 to 5 with the odometer going from 1000 to 1100 and 100
    dollars of pay, typed into the Supabase page after it has loaded. *)
Definition supaSample : Form :=
  {| dateInput := "2025-08-25";
     startTimeInput := "9:00 AM";
     endTimeInput := "5:00 PM";
     netEarningsInput := "100";
     milesStartInput := "1,000";
     milesEndInput := "1,100";
     breaksContainer := [("12:00 PM", "12:30 PM")];
     shiftDurationEl := dash;
     workingDurationEl := dash;
     milesDrivenEl := dash;
     gallonsUsedInput := dash;
     dollarsPerGalInput := "$3.27";
     gasCostEl := dash;
     grossEarningsEl := dash;
     hourlyRateEl := dash |}.

(** The same shift typed into the IndexedDB page after it has loaded. *)
Definition idbSample : Form :=
  {| dateInput := "2025-08-25";
     startTimeInput := "09:00";
     endTimeInput := "17:00";
     netEarningsInput := "100";
     milesStartInput := "1,000";
     milesEndInput := "1,100";
     breaksContainer := [("12:00", "12:30")];
     shiftDurationEl := "";
     workingDurationEl := "";
     milesDrivenEl := "";
     gallonsUsedInput := "";
     dollarsPerGalInput := "3.272";
     gasCostEl := "";
     grossEarningsEl := "";
     hourlyRateEl := "" |}.

(** A shift whose start and end are the same minute: no working time. *)
Definition zeroLengthSample : Form :=
  {| dateInput := "2025-08-25";
     startTimeInput := "9:00 AM";
     endTimeInput := "9:00 AM";
     netEarningsInput := "50";
     milesStartInput := "1,000";
     milesEndInput := "1,100";
     breaksContainer := [];
     shiftDurationEl := dash;
     workingDurationEl := dash;
     milesDrivenEl := dash;
     gallonsUsedInput := dash;
     dollarsPerGalInput := "$3.27";
     gasCostEl := dash;
     grossEarningsEl := dash;
     hourlyRateEl := dash |}.



(** A stored record dated [d]: two working hours, 60 dollars of pay, 50
    after gas. *)
Definition recordOn (d : string) : Entry :=
  {| date := d;
     start := "9:00 AM";
     end_ := "11:00 AM";
     shiftMinutes := 120;
     breakMinutes := 0;
     workingMinutes := 120;
     net := 50;
     gross := 60;
     milesStart := 1000;
     milesEnd := 1094;
     milesDriven := 94;
     gallons := 304 # 100;
     pricePerGal := 327 # 100;
     gasCost := 10;
     hourly := 25;
     breaks := [];
     dbId := None |}.

(** The page with two stored records, in add mode. *)
Definition twoRecordState : State :=
  {| entries := [recordOn "2025-08-25"; recordOn "2025-08-26"];
     editingIndex := -1;
     isSettingUpEdit := false;
     form := Supa.resetFormFields |}.

(** Noon UTC of 2026-01-01, a Thursday. *)
Definition newYearNoon : Z := 20454 * 86400000 + 43200000.

(** ** Checks by enumeration *)

(** The calendar on the century from 1970-01-01: a day number and its
    civil date determine each other, months run from 0 to 11 and days from 1
    to the length of the month, and a day is followed by the next weekday.
    Checked by running through the days. *)
Definition calendarDayOk (n : Z) : bool :=
  let '(y, m, d) := Cal.civilFromDays n in
  (Cal.daysFromCivil y m d =? n) && (0 <=? m) && (m <=? 11) &&
  (1 <=? d) && (d <=? Cal.daysInMonth y m) &&
  (Cal.weekDay (n + 1) =? (Cal.weekDay n + 1) mod 7).

(** A number below 100 padded to two places has two characters. *)
Definition twoPlacesOk (k : Z) : bool :=
  (String.length (JS.padStart0 2 (JS.toString k)) =? 2)%nat.

(** A week counted from its anchor day [a] (day 2 is a Saturday, day 0 a
    Thursday): its number is between 1 and 53, and the week after it has the
    next number or is week 1 again, another number in any case. *)
Definition anchorWeekOk (a : Z) : bool :=
  (1 <=? Spec.weekOfYear a) && (Spec.weekOfYear a <=? 53) &&
  ((Spec.weekOfYear (a + 7) =? Spec.weekOfYear a + 1) || (Spec.weekOfYear (a + 7) =? 1)) &&
  negb (Spec.weekOfYear (a + 7) =? Spec.weekOfYear a).

(** The year [y]: its first four days of January are days of the century
    from 1970-01-01, the Saturday on or after the first is in the first week
    of the year and so is the Thursday of the week of the fourth; its
    numeral has four digits, of which [slice(-2)] keeps the year of the
    century. *)
Definition yearOk (y : Z) : bool :=
  let jan1 := Cal.daysFromCivil y 0 1 in
  (0 <=? jan1) && (jan1 + 3 <? 36525) &&
  (Spec.weekOfYear (Spec.saturdayOf jan1) =? 1) &&
  (Spec.weekOfYear (Spec.thursdayOf (jan1 + 3)) =? 1) &&
  (String.length (JS.padStart0 4 (JS.toString y)) =? 4)%nat &&
  String.eqb (Supa.sliceLast2 (JS.toString y)) (JS.padStart0 2 (JS.toString (y mod 100))).

(** The value of a time input for minute [t] of the day, a 24-hour time,
    is no time for the Supabase variant: it does not parse, it does not
    validate, and the formatter leaves it alone. *)
Definition clockRefusedOk (t : Z) : bool :=
  let value := Spec.clock (t / 60) (t mod 60) in
  match Supa.parseTimeToMinutes value with
  | None => true
  | Some _ => false
  end &&
  negb (Supa.validateTimeInput value) &&
  String.eqb (Supa.formatTimeInput value) value.

(** [minutesOf] reads the value of a time input as its minute of the day:
    checked on the 1440 of them. *)
Definition clockReadOk (t : Z) : bool :=
  match Idb.minutesOf (Spec.clock (t / 60) (t mod 60)) with
  | Some q => (Qnum q =? t) && (Qden q =? 1)%positive
  | None => false
  end.
(** * Sample values *)

Example toFixed_samples :
  JS.toFixed 2 (100 # 26) = "3.85" /\ JS.toFixed 2 0 = "0.00" /\
  JS.toFixed 2 (- (1 # 1000)) = "-0.00" /\ JS.toFixed 3 (3272 # 1000) = "3.272" /\
  JS.toFixed 2 (3272 # 1000) = "3.27" /\ JS.toFixed 0 (25 # 10) = "3" /\
  JS.toFixed 2 (-1234567 # 1000) = "-1234.57" /\ JS.toFixed 2 (5 # 1000) = "0.01".
Proof. vm_compute. repeat split. Qed.

Example parseFloat_samples :
  JS.parseFloat "3.85" = Some (385 # 100) /\ JS.parseFloat "  -12.5e1x" = Some (- ((125 # 10) * 10))%Q /\
  JS.parseFloat "" = None /\ JS.parseFloat "." = None /\ JS.parseFloat ".5" = Some (5 # 10) /\
  JS.parseFloat "5." = Some (5 # 1) /\ JS.parseFloat "12abc" = Some (12 # 1) /\
  JS.parseFloat "$3.27" = None /\ JS.Number_ "09" = Some (9 # 1) /\ JS.Number_ "00 AM" = None /\
  JS.Number_ "" = Some 0%Q /\ JS.split ":" "23:05" = ["23"; "05"] /\ JS.split ":" "" = [""] /\
  JS.split ":" "a::" = ["a"; ""; ""].
Proof. vm_compute. repeat split. Qed.

Example calendar_samples :
  Cal.daysFromCivil 1970 0 1 = 0 /\ Cal.civilFromDays 0 = (1970, 0, 1) /\
  Cal.daysFromCivil 2025 11 29 = 20451 /\ Cal.civilFromDays 20451 = (2025, 11, 29) /\
  Cal.weekDay 20451 = 1 /\ Cal.civilFromDays (Cal.daysFromCivil 2024 1 30) = (2024, 2, 1) /\
  Cal.civilFromDays (Cal.daysFromCivil 2026 0 (-2)) = (2025, 11, 29) /\
  JSDate.parse "2026-01-01" = Some (20454 * 86400000) /\ JSDate.parse "2025-02-29" = None.
Proof. vm_compute. repeat split. Qed.

Example supa_time_samples :
  Supa.parseTimeToMinutes "8:31 PM" = Some 1231 /\ Supa.parseTimeToMinutes " 12:08 am " = Some 8 /\
  Supa.parseTimeToMinutes "8:31PM" = Some 1231 /\ Supa.parseTimeToMinutes "13:00 PM" = None /\
  Supa.parseTimeToMinutes "13:00" = None /\ Supa.parseTimeToMinutes "12:00 PM" = Some 720 /\
  Supa.parseTimeToMinutes "123:00 PM" = None /\ Supa.parseTimeToMinutes "1:5 PM" = None /\
  Supa.calculateTimeDifferenceMinutes "9:00 AM" "5:00 PM" = 480 /\
  Supa.calculateTimeDifferenceMinutes "11:00 PM" "1:00 AM" = 120 /\
  Supa.formatMinutes 485 = "08:05".
Proof. vm_compute. repeat split. Qed.

Example supa_week_samples :
  Supa.getWeekNumber 0 (JSDate.parse "2025-12-29") = Some 1 /\
  Supa.getWeekNumber 0 (JSDate.parse "2026-01-01") = Some 1 /\
  Supa.getWeekNumber 0 (JSDate.parse "2025-12-27") = Some 52 /\
  Supa.getWeekNumber 0 (JSDate.parse "2025-01-01") = Some 1 /\
  Supa.formatDate 0 "2025-08-25" = "8/25/25" /\
  Supa.formatDate (-360) "2025-08-25" = "8/24/25".
Proof. vm_compute. repeat split. Qed.

Example idb_samples :
  Idb.calculateTimeDifferenceMinutes "09:00" "17:00" = Some (480 # 1) /\
  Idb.calculateTimeDifferenceMinutes "23:00" "01:00" = Some (120 # 1) /\
  Idb.calculateTimeDifferenceMinutes "9:00 AM" "5:00 PM" = None /\
  Idb.calculateTimeDifferenceMinutes "" "17:00" = Some 0%Q /\
  Idb.getWeekNumber 0 (JSDate.parse "2025-12-29") = Some 1 /\
  Idb.getWeekNumber 0 (JSDate.parse "2026-01-01") = Some 1 /\
  Idb.getWeekNumber 0 (JSDate.parse "2025-12-28") = Some 52 /\
  Idb.getWeekNumber 0 (JSDate.parse "2021-01-03") = Some 53 /\
  Idb.formatMinutes (485 # 1) = "08:05".
Proof. vm_compute. repeat split. Qed.


Example supa_derive_sample :
  let e := Supa.submitEntry (Supa.recalculate supaSample) in
  shiftMinutes e = 480 /\ breakMinutes e = 30 /\ workingMinutes e = 450 /\
  milesStart e = 1000 # 1 /\ milesEnd e = 1100 # 1 /\ milesDriven e = 100 # 1 /\
  gallons e = 324 # 100 /\ pricePerGal e = 327 # 100 /\ gasCost e = 1058 # 100 /\
  gross e = 100 # 1 /\ (net e == 8942 # 100)%Q /\
  gallonsUsedInput (Supa.recalculate supaSample) = "3.24" /\
  gasCostEl (Supa.recalculate supaSample) = "$10.58" /\
  hourlyRateEl (Supa.recalculate supaSample) = "$11.92".
Proof. vm_compute. repeat split. Qed.

Example idb_derive_sample :
  exists e, Idb.submitEntry (Idb.recalculate idbSample) = Some e /\
  shiftMinutes e = 480 /\ breakMinutes e = 30 /\ workingMinutes e = 450 /\
  (milesDriven e == 100)%Q /\ gallons e = 385 # 100 /\ pricePerGal e = 3272 # 1000 /\
  gasCost e = 1258 # 100.
Proof. eexists. split; [vm_compute; reflexivity|]. vm_compute. repeat split. Qed.

Lemma forRange_S (k : nat) (n : Z) (f : Z -> bool) :
  Spec.forRange (S k) n f = f n && Spec.forRange k (n + 1) f.
Proof. reflexivity. Qed.

Lemma forRange_each (k : nat) (n i : Z) (f : Z -> bool) :
  Spec.forRange k n f = true -> n <= i < n + Z.of_nat k -> f i = true.
Proof.
  revert n. induction k as [|k IH]; intros n H Hi; [lia|].
  rewrite forRange_S in H.
  apply andb_prop in H as [H0 H1].
  destruct (Z.eq_dec i n) as [->|]; [exact H0|].
  apply (IH (n + 1)); [exact H1|lia].
Qed.

Lemma calendar_days_ok (n : Z) : 0 <= n < 36525 -> calendarDayOk n = true.
Proof.
  intros Hn.
  assert (H : Spec.forRange (Z.to_nat 36525) 0 calendarDayOk = true)
    by (vm_compute; reflexivity).
  apply (forRange_each _ _ n) in H; [exact H|].
  rewrite Z2Nat.id; lia.
Qed.
(** * Properties *)

(** ** Strings *)

Lemma append_nil_l (s : string) : "" ++ s = s.
Proof. reflexivity. Qed.

Lemma append_cons (c : ascii) (a b : string) : String c a ++ b = String c (a ++ b).
Proof. reflexivity. Qed.

(** Appends are kept folded by [simpl]; [sapp] unfolds them at the head. *)
Ltac sapp := rewrite ?append_cons, ?append_nil_l.

Lemma append_nil_r (s : string) : s ++ "" = s.
Proof. induction s; sapp; congruence. Qed.

Lemma append_assoc (a b c : string) : (a ++ b) ++ c = a ++ b ++ c.
Proof. induction a; sapp; congruence. Qed.

Create Rewrite HintDb strings.
#[local] Hint Rewrite append_assoc append_cons append_nil_l append_nil_r : strings.

(** Appends associated to the right and pushed under the characters. *)
Ltac snorm := autorewrite with strings.

Lemma length_append (a b : string) :
  String.length (a ++ b) = (String.length a + String.length b)%nat.
Proof. induction a; sapp; simpl; congruence. Qed.

Lemma allDigits_cons (c : ascii) (s : string) :
  JS.allDigits (String c s) = JS.isDigit c && JS.allDigits s.
Proof. reflexivity. Qed.

Lemma allSpaces_cons (c : ascii) (s : string) :
  JS.allSpaces (String c s) = JS.isSpace c && JS.allSpaces s.
Proof. reflexivity. Qed.

Lemma allDigits_app (a b : string) :
  JS.allDigits (a ++ b) = JS.allDigits a && JS.allDigits b.
Proof.
  induction a as [|c a IH]; [reflexivity|].
  sapp. rewrite !allDigits_cons, IH. apply andb_assoc.
Qed.

Lemma allSpaces_app (a b : string) :
  JS.allSpaces (a ++ b) = JS.allSpaces a && JS.allSpaces b.
Proof.
  induction a as [|c a IH]; [reflexivity|].
  sapp. rewrite !allSpaces_cons, IH. apply andb_assoc.
Qed.

(** Facts about single characters, by running through the 256 of them. *)
Ltac each_char c := destruct c as [[] [] [] [] [] [] [] []]; vm_compute; try tauto; try congruence; auto.

Lemma digit_not_space (c : ascii) : JS.isDigit c = true -> JS.isSpace c = false.
Proof. each_char c. Qed.

Lemma upperChar_digit (c : ascii) :
  JS.isDigit (JS.upperChar c) = true -> JS.upperChar c = c.
Proof. each_char c. Qed.

Lemma upperChar_space (c : ascii) :
  JS.isSpace (JS.upperChar c) = true -> JS.upperChar c = c.
Proof. each_char c. Qed.

Lemma upperChar_digit_id (c : ascii) : JS.isDigit c = true -> JS.upperChar c = c.
Proof. each_char c. Qed.

Lemma upperChar_space_id (c : ascii) : JS.isSpace c = true -> JS.upperChar c = c.
Proof. each_char c. Qed.

Lemma upperChar_colon (c : ascii) : JS.upperChar c = ":"%char -> c = ":"%char.
Proof. each_char c. Qed.

Lemma upperChar_M (c : ascii) : JS.upperChar c = "M"%char -> JS.isSpace c = false.
Proof. each_char c. Qed.

Lemma digitValue_range (c : ascii) : JS.isDigit c = true -> 0 <= JS.digitValue c <= 9.
Proof. destruct c as [[] [] [] [] [] [] [] []]; vm_compute; intuition congruence. Qed.

(** *** Trimming *)

Lemma trimStart_spaces (ws s : string) :
  JS.allSpaces ws = true -> JS.trimStart (ws ++ s) = JS.trimStart s.
Proof.
  induction ws as [|c ws IH]; [reflexivity|].
  rewrite allSpaces_cons. intros [Hc Hws]%andb_prop.
  sapp. simpl. rewrite Hc. auto.
Qed.

Lemma trimStart_head (c : ascii) (s : string) :
  JS.isSpace c = false -> JS.trimStart (String c s) = String c s.
Proof. intros H. simpl. now rewrite H. Qed.

Lemma trimStart_split (s : string) :
  exists ws, s = ws ++ JS.trimStart s /\ JS.allSpaces ws = true.
Proof.
  induction s as [|c s (ws & IH & Hws)].
  - now exists "".
  - simpl. destruct (JS.isSpace c) eqn:Hc.
    + exists (String c ws). sapp. rewrite <- IH, allSpaces_cons, Hc, Hws. auto.
    + now exists "".
Qed.

Lemma trimEnd_all_spaces (ws : string) : JS.allSpaces ws = true -> JS.trimEnd ws = "".
Proof.
  induction ws as [|c ws IH]; [reflexivity|].
  rewrite allSpaces_cons. intros [Hc Hws]%andb_prop.
  simpl. now rewrite IH, Hc.
Qed.

Lemma trimEnd_spaces (s ws : string) :
  JS.allSpaces ws = true -> JS.trimEnd (s ++ ws) = JS.trimEnd s.
Proof.
  intros H. induction s as [|c s IH].
  - sapp. now rewrite trimEnd_all_spaces.
  - sapp. simpl. now rewrite IH.
Qed.

Lemma trimEnd_last (s : string) (c : ascii) :
  JS.isSpace c = false -> JS.trimEnd (s ++ String c "") = s ++ String c "".
Proof.
  intros H. induction s as [|d s IH].
  - sapp. simpl. now rewrite H.
  - sapp. simpl. rewrite IH. destruct s; reflexivity.
Qed.

Lemma trimEnd_split (s : string) :
  exists ws, s = JS.trimEnd s ++ ws /\ JS.allSpaces ws = true.
Proof.
  induction s as [|c s (ws & IH & Hws)].
  - now exists "".
  - simpl. destruct (JS.trimEnd s) as [|d kept] eqn:E.
    + destruct (JS.isSpace c) eqn:Hc.
      * exists (String c ws). sapp. rewrite allSpaces_cons, Hc, Hws.
        split; [|reflexivity]. f_equal. now rewrite IH.
      * exists ws. sapp. split; [|assumption]. f_equal. now rewrite IH.
    + exists ws. sapp. split; [|assumption]. f_equal. exact IH.
Qed.

(** A string is its trimmed text between two runs of white space. *)
Lemma trim_split (s : string) :
  exists lead trail,
    s = lead ++ JS.trim s ++ trail /\
    JS.allSpaces lead = true /\ JS.allSpaces trail = true.
Proof.
  destruct (trimStart_split s) as (lead & H1 & Hl).
  destruct (trimEnd_split (JS.trimStart s)) as (trail & H2 & Ht).
  exists lead, trail. unfold JS.trim. rewrite <- H2. auto.
Qed.

(** Text with no white space at either end is what trimming leaves of it. *)
Lemma trim_core (lead trail body : string) (c d : ascii) :
  JS.allSpaces lead = true -> JS.allSpaces trail = true ->
  JS.isSpace c = false -> JS.isSpace d = false ->
  JS.trim (lead ++ (String c body ++ String d "") ++ trail) = String c body ++ String d "".
Proof.
  intros Hl Ht Hc Hd. unfold JS.trim.
  rewrite trimStart_spaces by assumption.
  rewrite append_cons at 1. rewrite append_cons at 1.
  rewrite trimStart_head by assumption.
  rewrite <- !append_cons.
  rewrite trimEnd_spaces by assumption.
  now rewrite trimEnd_last.
Qed.

(** *** Upper case *)

Lemma toUpperCase_app (a b : string) :
  JS.toUpperCase (a ++ b) = JS.toUpperCase a ++ JS.toUpperCase b.
Proof. induction a as [|c a IH]; [reflexivity|]. sapp. simpl. sapp. now rewrite IH. Qed.

Lemma toUpperCase_digits (s : string) : JS.allDigits s = true -> JS.toUpperCase s = s.
Proof.
  induction s as [|c s IH]; [reflexivity|].
  rewrite allDigits_cons. intros [Hc Hs]%andb_prop.
  simpl. now rewrite upperChar_digit_id, IH.
Qed.

Lemma toUpperCase_spaces (s : string) : JS.allSpaces s = true -> JS.toUpperCase s = s.
Proof.
  induction s as [|c s IH]; [reflexivity|].
  rewrite allSpaces_cons. intros [Hc Hs]%andb_prop.
  simpl. now rewrite upperChar_space_id, IH.
Qed.

(** What upper-cases to digits or to white space already was that text. *)
Lemma toUpperCase_digits_inv (s : string) :
  JS.allDigits (JS.toUpperCase s) = true -> JS.toUpperCase s = s.
Proof.
  induction s as [|c s IH]; [reflexivity|].
  simpl. rewrite allDigits_cons. intros [Hc Hs]%andb_prop.
  now rewrite upperChar_digit, IH.
Qed.

Lemma toUpperCase_spaces_inv (s : string) :
  JS.allSpaces (JS.toUpperCase s) = true -> JS.toUpperCase s = s.
Proof.
  induction s as [|c s IH]; [reflexivity|].
  simpl. rewrite allSpaces_cons. intros [Hc Hs]%andb_prop.
  now rewrite upperChar_space, IH.
Qed.

(** Upper-casing works character by character: a split of the result is a
    split of the text. *)
Lemma toUpperCase_split (x y s : string) :
  JS.toUpperCase s = x ++ y ->
  exists x' y', s = x' ++ y' /\ JS.toUpperCase x' = x /\ JS.toUpperCase y' = y.
Proof.
  revert s. induction x as [|c x IH]; intros s H.
  - exists "", s. auto.
  - destruct s as [|d s]; [discriminate|].
    rewrite append_cons in H. simpl in H. injection H as Hc Hs.
    destruct (IH _ Hs) as (x' & y' & -> & Hx & Hy).
    exists (String d x'), y'. simpl. now rewrite Hx, Hc.
Qed.

Lemma toUpperCase_length (s : string) : String.length (JS.toUpperCase s) = String.length s.
Proof. induction s; simpl; congruence. Qed.

(** ** Times of day (Supabase variant) *)

(** A time that parses is a minute of the day. *)
Lemma parseTimeToMinutes_range (s : string) (v : Z) :
  Supa.parseTimeToMinutes s = Some v -> 0 <= v < 1440.
Proof.
  unfold Supa.parseTimeToMinutes.
  destruct (JS.falsy s); [discriminate|].
  destruct (Supa.matchTime _) as [[[g1 g2] p]|]; [|discriminate].
  set (h := JS.parseInt g1). set (m := JS.parseInt g2).
  destruct ((h <? 1) || (h >? 12) || (m <? 0) || (m >? 59)) eqn:E; [discriminate|].
  repeat (apply orb_false_elim in E; destruct E as [E ?]).
  intros [= <-]. clearbody h m.
  destruct p; [destruct (h =? 12) eqn:E12 | destruct (h =? 12) eqn:E12]; simpl; lia.
Qed.

Lemma calculateTimeDifferenceMinutes_range (a b : string) :
  0 <= Supa.calculateTimeDifferenceMinutes a b < 1440.
Proof.
  unfold Supa.calculateTimeDifferenceMinutes.
  destruct (JS.falsy a || JS.falsy b); [lia|].
  destruct (Supa.parseTimeToMinutes a) as [x|] eqn:Ha; [|lia].
  destruct (Supa.parseTimeToMinutes b) as [y|] eqn:Hb; [|lia].
  apply parseTimeToMinutes_range in Ha, Hb.
  destruct (y - x <? 0) eqn:E; lia.
Qed.

Lemma breakFold_ge (rows : list (string * string)) (acc : Z) :
  acc <=
  fold_left
    (fun total row =>
       let '(start, end_) := row in
       if negb (JS.falsy start) && negb (JS.falsy end_)
       then total + Supa.calculateTimeDifferenceMinutes start end_
       else total)
    rows acc.
Proof.
  revert acc. induction rows as [|[a b] rows IH]; intros acc; simpl; [lia|].
  destruct (negb (JS.falsy a) && negb (JS.falsy b)).
  - pose proof (calculateTimeDifferenceMinutes_range a b).
    etransitivity; [|apply IH]. lia.
  - apply IH.
Qed.

(** Breaks never count negative. *)
Lemma getTotalBreakMinutes_nonneg (rows : list (string * string)) :
  0 <= Supa.getTotalBreakMinutes rows.
Proof. apply breakFold_ge. Qed.

(** *** The pattern of a time of day *)

Lemma matchTime_inv (c g1 g2 : string) (p : Supa.Period) :
  Supa.matchTime c = Some (g1, g2, p) ->
  exists gap,
    c = g1 ++ ":" ++ g2 ++ gap ++ Spec.periodText p /\
    JS.allDigits g1 = true /\
    (String.length g1 = 1%nat \/ String.length g1 = 2%nat) /\
    JS.allDigits g2 = true /\ String.length g2 = 2%nat /\
    JS.allSpaces gap = true.
Proof.
  unfold Supa.matchTime. intros H.
  repeat case_match; simplify_eq;
    match goal with
    | E : JS.trimStart ?r = _ |- _ =>
        destruct (trimStart_split r) as (gap & Hr & Hgap); rewrite E in Hr; subst r
    end;
    exists gap; sapp; cbn [Spec.periodText];
    repeat match goal with H : _ && _ = true |- _ => apply andb_prop in H; destruct H end;
    rewrite !allDigits_cons; simpl String.length;
    repeat match goal with H : JS.isDigit _ = true |- _ => rewrite H; clear H end;
    intuition auto.
Qed.

Lemma matchTime_eval (g1 g2 gap : string) (p : Supa.Period) :
  JS.allDigits g1 = true ->
  (String.length g1 = 1%nat \/ String.length g1 = 2%nat) ->
  JS.allDigits g2 = true -> String.length g2 = 2%nat ->
  JS.allSpaces gap = true ->
  Supa.matchTime (g1 ++ ":" ++ g2 ++ gap ++ Spec.periodText p) = Some (g1, g2, p).
Proof.
  intros D1 L1 D2 L2 Hgap.
  destruct g2 as [|c [|d [|? ?]]]; try discriminate L2.
  rewrite !allDigits_cons in D2.
  apply andb_prop in D2 as [Dc [Dd _]%andb_prop].
  assert (Hp : JS.trimStart (gap ++ Spec.periodText p) = Spec.periodText p).
  { rewrite trimStart_spaces by assumption. now destruct p. }
  destruct g1 as [|a [|b [|? ?]]]; simpl in L1; try lia;
    rewrite !allDigits_cons in D1;
    repeat match goal with H : _ && _ = true |- _ => apply andb_prop in H; destruct H end;
    unfold Supa.matchTime; sapp;
    repeat match goal with H : JS.isDigit _ = true |- _ => rewrite H end;
    simpl; rewrite ?Dc, ?Dd; simpl; rewrite Hp; now destruct p.
Qed.

Lemma period_chars (p : string) (period : Supa.Period) :
  JS.toUpperCase p = Spec.periodText period ->
  exists c d, p = String c (String d "") /\ JS.isSpace d = false.
Proof.
  destruct p as [|c [|d [|? ?]]]; destruct period; try discriminate.
  all: simpl; intros [= _ Hd]; exists c, d; split; [reflexivity|];
    now apply upperChar_M.
Qed.

Lemma falsy_app_cons (a b : string) (c : ascii) : JS.falsy (a ++ String c b) = false.
Proof. now destruct a. Qed.

Lemma parseTimeToMinutes_sound (s : string) (v : Z) :
  Supa.parseTimeToMinutes s = Some v ->
  exists hours minutes period,
    Spec.timeText Spec.anySpaces s hours minutes period /\
    1 <= hours <= 12 /\ 0 <= minutes <= 59 /\
    v = Spec.minutesSinceMidnight hours minutes period.
Proof.
  unfold Supa.parseTimeToMinutes.
  destruct (JS.falsy s); [discriminate|].
  destruct (Supa.matchTime _) as [[[g1 g2] period]|] eqn:Hm; [|discriminate].
  destruct (_ || _) eqn:Hr; [discriminate|]. intros [= <-].
  repeat (apply orb_false_elim in Hr; destruct Hr as [Hr ?]).
  exists (JS.parseInt g1), (JS.parseInt g2), period.
  split; [|split; [lia|split; [lia|]]].
  - apply matchTime_inv in Hm as (gap & Hc & D1 & L1 & D2 & L2 & Hgap).
    destruct (trim_split s) as (lead & trail & Hs & Hlead & Htrail).
    apply toUpperCase_split in Hc as (h & r1 & Ht & Hh & Hc).
    apply (toUpperCase_split ":") in Hc as (col & r2 & -> & Hcol & Hc).
    apply toUpperCase_split in Hc as (m & r3 & -> & Hm & Hc).
    apply toUpperCase_split in Hc as (gap' & p & -> & Hg & Hp).
    assert (h = g1) as ->.
    { rewrite <- Hh in D1. apply toUpperCase_digits_inv in D1. congruence. }
    assert (m = g2) as ->.
    { rewrite <- Hm in D2. apply toUpperCase_digits_inv in D2. congruence. }
    assert (gap' = gap) as ->.
    { rewrite <- Hg in Hgap. apply toUpperCase_spaces_inv in Hgap. congruence. }
    assert (col = ":") as ->.
    { destruct col as [|c [|? ?]]; try discriminate.
      simpl in Hcol. injection Hcol as Hcol. now rewrite (upperChar_colon _ Hcol). }
    exists lead, g1, g2, gap, p, trail.
    rewrite Hs at 1. rewrite Ht, !append_assoc.
    unfold Spec.anySpaces. auto 12.
  - destruct period; simpl; destruct (Z.eqb_spec (JS.parseInt g1) 12); simpl; lia.
Qed.

Lemma parseTimeToMinutes_complete (s : string) (hours minutes : Z) (period : Supa.Period) :
  Spec.timeText Spec.anySpaces s hours minutes period ->
  1 <= hours <= 12 -> 0 <= minutes <= 59 ->
  Supa.parseTimeToMinutes s = Some (Spec.minutesSinceMidnight hours minutes period).
Proof.
  intros (lead & h & m & gap & p & trail & -> & Hl & Ht & D1 & L1 & D2 & L2 & Hg & Hp & -> & ->) Hh Hm.
  unfold Spec.anySpaces in Hg.
  destruct (period_chars _ _ Hp) as (c1 & c2 & -> & Hc2).
  destruct h as [|a h0]; [simpl in L1; lia|].
  pose proof D1 as D1'. rewrite allDigits_cons in D1'.
  apply andb_prop in D1' as [Da _]. apply digit_not_space in Da.
  set (body := h0 ++ ":" ++ m ++ gap ++ String c1 "").
  assert (Hs : lead ++ String a h0 ++ ":" ++ m ++ gap ++ String c1 (String c2 "") ++ trail
               = lead ++ (String a body ++ String c2 "") ++ trail).
  { unfold body. now snorm. }
  assert (F : JS.falsy (lead ++ (String a body ++ String c2 "") ++ trail) = false).
  { rewrite !append_cons. apply falsy_app_cons. }
  unfold Supa.parseTimeToMinutes.
  rewrite Hs, F, trim_core by assumption.
  replace (String a body ++ String c2 "")
    with (String a h0 ++ ":" ++ m ++ gap ++ String c1 (String c2 ""))
    by (unfold body; now snorm).
  rewrite !toUpperCase_app, (toUpperCase_digits _ D1), (toUpperCase_digits _ D2),
    (toUpperCase_spaces _ Hg), Hp.
  change (JS.toUpperCase ":") with ":".
  rewrite matchTime_eval by assumption.
  replace ((JS.parseInt (String a h0) <? 1) || (JS.parseInt (String a h0) >? 12)
           || (JS.parseInt m <? 0) || (JS.parseInt m >? 59)) with false
    by (symmetry; repeat (apply orb_false_intro); lia).
  destruct period; simpl;
    destruct (Z.eqb_spec (JS.parseInt (String a h0)) 12); simpl; f_equal; lia.
Qed.

(** What does not read as a time is answered [null]. *)
Lemma parseTimeToMinutes_other (s : string) :
  (forall hours minutes period,
     Spec.timeText Spec.anySpaces s hours minutes period ->
     ~ (1 <= hours <= 12 /\ 0 <= minutes <= 59)) ->
  Supa.parseTimeToMinutes s = None.
Proof.
  intros H. destruct (Supa.parseTimeToMinutes s) as [v|] eqn:E; [|reflexivity].
  apply parseTimeToMinutes_sound in E as (h & m & p & Ht & Hh & Hm & _).
  exfalso. apply (H _ _ _ Ht). auto.
Qed.

Lemma In_app_char (a b : string) (c : ascii) :
  In c (list_ascii_of_string (a ++ String c b)).
Proof. induction a as [|d a IH]; sapp; simpl; auto. Qed.

(** ** Claims about times of day *)

(** Claim C4, as the specification words it, fails: ["8:31PM"], with nothing
    between the minutes and [PM], is not of the shape [H:MM AM/PM] with its
    one space, and [parseTimeToMinutes] accepts it as 20:31. *)
Lemma parseTimeToMinutes_accepts_no_gap :
  Supa.parseTimeToMinutes "8:31PM" = Some 1231 /\
  ~ (exists hours minutes period,
       Spec.timeText Spec.oneSpace "8:31PM" hours minutes period).
Proof.
  split; [reflexivity|].
  intros (hours & minutes & period & lead & h & m & gap & p & trail & Hs & _ & _ & _ & _ & _ & _ & Hgap & _).
  unfold Spec.oneSpace in Hgap. subst gap.
  assert (Hin : In " "%char (list_ascii_of_string "8:31PM")).
  { rewrite Hs.
    replace (lead ++ h ++ ":" ++ m ++ " " ++ p ++ trail)
      with ((lead ++ h ++ ":" ++ m) ++ String " " (p ++ trail)) by now snorm.
    apply In_app_char. }
  simpl in Hin. intuition discriminate.
Qed.

(** Claim C4, amended: [parseTimeToMinutes] accepts exactly the strings made
    of optional white space, an hour of one or two digits in 1..12, a colon,
    a minute of exactly two digits in 0..59, any white space or none, AM or
    PM in either case, and optional white space; the result is the minute of
    the day, 12 AM being hour 0 and 12 PM noon.  Every other string, so a
    24-hour time and "13:00 PM", is answered [null]. *)
Theorem parseTimeToMinutes_accepts_exactly :
  (forall (s : string) (v : Z),
     Supa.parseTimeToMinutes s = Some v <->
     exists hours minutes period,
       Spec.timeText Spec.anySpaces s hours minutes period /\
       1 <= hours <= 12 /\ 0 <= minutes <= 59 /\
       v = Spec.minutesSinceMidnight hours minutes period) /\
  Supa.parseTimeToMinutes "12:00 AM" = Some 0 /\
  Supa.parseTimeToMinutes "12:00 PM" = Some 720 /\
  Supa.parseTimeToMinutes "13:00 PM" = None /\
  Supa.parseTimeToMinutes "13:00" = None /\
  Supa.parseTimeToMinutes "20:31" = None.
Proof.
  split; [|repeat split; reflexivity].
  intros s v. split.
  - apply parseTimeToMinutes_sound.
  - intros (hours & minutes & period & Ht & Hh & Hm & ->).
    now apply parseTimeToMinutes_complete.
Qed.

(** ** Times of day (IndexedDB variant) *)

(** [minutesOf] reads the value of a time input as its minute of the day. *)
Lemma minutesOf_clock (h m : Z) :
  0 <= h < 24 -> 0 <= m < 60 ->
  Idb.minutesOf (Spec.clock h m) = Some (inject_Z (h * 60 + m)).
Proof.
  intros Hh Hm.
  assert (H : Spec.forRange (Z.to_nat 1440) 0 clockReadOk = true)
    by (vm_compute; reflexivity).
  apply (forRange_each _ _ (h * 60 + m)) in H; [|rewrite Z2Nat.id; lia].
  unfold clockReadOk in H.
  replace ((h * 60 + m) / 60) with h in H by (apply Z.div_unique with m; lia).
  replace ((h * 60 + m) mod 60) with m in H by (apply Z.mod_unique with h; lia).
  destruct (Idb.minutesOf _) as [[num den]|]; [|discriminate].
  cbn [Qnum Qden] in H. apply andb_prop in H as [Hn Hd].
  apply Z.eqb_eq in Hn. apply Pos.eqb_eq in Hd. now subst.
Qed.

Lemma clock_not_empty (h m : Z) : JS.falsy (Spec.clock h m) = false.
Proof. unfold Spec.clock. change (":" ++ ?s) with (String ":" s). apply falsy_app_cons. Qed.

Lemma inject_Z_sub (a b : Z) : (inject_Z a - inject_Z b)%Q = inject_Z (a - b).
Proof. unfold Qminus, Qplus, Qopp, inject_Z. simpl. f_equal. lia. Qed.

Lemma inject_Z_add (a b : Z) : (inject_Z a + inject_Z b)%Q = inject_Z (a + b).
Proof. unfold Qplus, inject_Z. simpl. f_equal. lia. Qed.

(** Between two values of time inputs the IndexedDB variant follows the
    midnight rule as well. *)
Lemma idb_difference_of_clocks (h1 m1 h2 m2 : Z) :
  0 <= h1 < 24 -> 0 <= m1 < 60 -> 0 <= h2 < 24 -> 0 <= m2 < 60 ->
  Idb.calculateTimeDifferenceMinutes (Spec.clock h1 m1) (Spec.clock h2 m2)
  = Some (inject_Z (Spec.rollover (h2 * 60 + m2 - (h1 * 60 + m1)))).
Proof.
  intros. unfold Idb.calculateTimeDifferenceMinutes.
  rewrite !clock_not_empty, !minutesOf_clock by assumption. cbn [orb].
  unfold JS.ltb, Spec.rollover.
  destruct (Qlt_le_dec _ _) as [Hlt|Hge].
  - rewrite <- Zlt_Qlt in Hlt.
    destruct (Z.ltb_spec (h2 * 60 + m2 - (h1 * 60 + m1)) 0); [|lia].
    cbn [JS.lift2]. change (24 * 60)%Q with (inject_Z 1440).
    rewrite inject_Z_add, inject_Z_sub. do 2 f_equal. lia.
  - rewrite <- Zle_Qle in Hge.
    destruct (Z.ltb_spec (h2 * 60 + m2 - (h1 * 60 + m1)) 0); [lia|].
    cbn [JS.lift2]. now rewrite inject_Z_sub.
Qed.

Lemma idb_difference_of_inputs (a b : string) :
  Spec.timeInputValue a -> Spec.timeInputValue b ->
  exists d, 0 <= d < 1440 /\ Idb.calculateTimeDifferenceMinutes a b = Some (inject_Z d).
Proof.
  intros [-> | (h1 & m1 & ? & ? & ->)]; [exists 0; split; [lia|reflexivity]|].
  intros [-> | (h2 & m2 & ? & ? & ->)].
  - exists 0. split; [lia|]. unfold Idb.calculateTimeDifferenceMinutes.
    now rewrite orb_true_r.
  - eexists. split; [|now apply idb_difference_of_clocks].
    unfold Spec.rollover. destruct (_ <? 0) eqn:E; lia.
Qed.

Lemma idb_breakFold (rows : list (string * string)) (acc : Z) :
  0 <= acc ->
  Forall (fun row => Spec.timeInputValue (fst row) /\ Spec.timeInputValue (snd row)) rows ->
  exists total, acc <= total /\
    fold_left
      (fun total row =>
         let '(start, end_) := row in
         if negb (JS.falsy start) && negb (JS.falsy end_)
         then JS.lift2 Qplus total (Idb.calculateTimeDifferenceMinutes start end_)
         else total)
      rows (Some (inject_Z acc))
    = Some (inject_Z total).
Proof.
  intros Hacc Hrows. revert acc Hacc.
  induction Hrows as [|[a b] rows [Ha Hb] _ IH]; intros acc Hacc.
  - exists acc. split; [lia|reflexivity].
  - simpl. destruct (negb (JS.falsy a) && negb (JS.falsy b)).
    + destruct (idb_difference_of_inputs a b Ha Hb) as (d & Hd & ->).
      cbn [JS.lift2]. rewrite inject_Z_add.
      destruct (IH (acc + d)) as (total & Ht & ->); [lia|].
      exists total. split; [lia|reflexivity].
    + destruct (IH acc Hacc) as (total & Ht & ->). exists total. auto.
Qed.

Lemma wholeMinutes_inject (z : Z) : Idb.wholeMinutes (Some (inject_Z z)) = Some z.
Proof.
  unfold Idb.wholeMinutes. rewrite Qfloor_Z.
  now rewrite (proj2 (Qeq_bool_iff _ _) (Qeq_refl _)).
Qed.

(** In the IndexedDB variant a page whose time inputs hold values of time
    inputs gives a record, and the record has the invariant of the working
    minutes in full. *)
Lemma idb_submitEntry_of_time_inputs (f : Form) :
  Spec.timeInputsOk f ->
  exists e, Idb.submitEntry f = Some e /\ Spec.workingMinutesOk e.
Proof.
  intros (Hs & He & Hb).
  destruct (idb_difference_of_inputs _ _ Hs He) as (d & Hd & Ed).
  destruct (idb_breakFold (breaksContainer f) 0 (Z.le_refl 0) Hb) as (t & Ht & Et).
  change (Some (inject_Z 0)) with (Some 0%Q) in Et.
  unfold Idb.submitEntry. fold (Idb.getTotalBreakMinutes (breaksContainer f)) in Et.
  rewrite Ed, Et. cbn [JS.lift2]. rewrite inject_Z_sub.
  assert (Em : Idb.maxZero (Some (inject_Z (d - t))) = Some (inject_Z (Z.max (d - t) 0))).
  { unfold Idb.maxZero, option_map.
    destruct (Qlt_le_dec (inject_Z (d - t)) 0) as [H|H].
    - change 0%Q with (inject_Z 0) in H. rewrite <- Zlt_Qlt in H.
      now rewrite Z.max_r by lia.
    - change 0%Q with (inject_Z 0) in H. rewrite <- Zle_Qle in H.
      now rewrite Z.max_l by lia. }
  rewrite Em, !wholeMinutes_inject.
  eexists. split; [reflexivity|].
  unfold Spec.workingMinutesOk. simpl. lia.
Qed.

(** ** Claims about durations *)


Lemma elem_of_list_insert_inv {A} (l : list A) (i : nat) (x y : A) :
  In y (<[i := x]> l) -> y = x \/ In y l.
Proof.
  revert i. induction l as [|a l IH]; intros [|i]; simpl; try tauto.
  - intros [<- | H]; auto.
  - intros [<- | H]; auto. destruct (IH _ H); auto.
Qed.

Lemma submitEntry_workingMinutes (f : Form) : Spec.workingMinutesOk (Supa.submitEntry f).
Proof.
  unfold Spec.workingMinutesOk, Supa.submitEntry; simpl.
  pose proof (getTotalBreakMinutes_nonneg (breaksContainer f)).
  pose proof (calculateTimeDifferenceMinutes_range (startTimeInput f) (endTimeInput f)).
  lia.
Qed.

Lemma wholeMinutes_inv (x : option Q) (z : Z) :
  Idb.wholeMinutes x = Some z -> exists q, x = Some q /\ (q == inject_Z z)%Q.
Proof.
  destruct x as [q|]; [|discriminate]. simpl.
  destruct (Qeq_bool _ q) eqn:E; [|discriminate].
  intros [= <-]. exists q. split; [reflexivity|].
  apply Qeq_bool_iff in E. now symmetry.
Qed.

Lemma wholeMinutes_value (q : Q) (z : Z) :
  Idb.wholeMinutes (Some q) = Some z -> z = Qfloor q.
Proof. simpl. destruct (Qeq_bool _ q); congruence. Qed.

Lemma idb_submitEntry_workingMinutes (f : Form) (e : Entry) :
  Idb.submitEntry f = Some e ->
  workingMinutes e = Z.max (shiftMinutes e - breakMinutes e) 0 /\ 0 <= workingMinutes e.
Proof.
  unfold Idb.submitEntry.
  destruct (Idb.wholeMinutes (Idb.calculateTimeDifferenceMinutes _ _)) as [zs|] eqn:Hs;
    [|discriminate].
  destruct (Idb.wholeMinutes (Idb.getTotalBreakMinutes _)) as [zb|] eqn:Hb; [|discriminate].
  destruct (Idb.wholeMinutes (Idb.maxZero _)) as [zw|] eqn:Hw; [|discriminate].
  intros [= <-]; simpl.
  apply wholeMinutes_inv in Hs as (qs & Es & Hs), Hb as (qb & Eb & Hb).
  rewrite Es, Eb in Hw. simpl JS.lift2 in Hw. unfold Idb.maxZero, option_map in Hw.
  apply wholeMinutes_value in Hw.
  assert (Hd : (qs - qb == inject_Z (zs - zb))%Q).
  { rewrite Hs, Hb. unfold Zminus. rewrite inject_Z_plus, inject_Z_opp. reflexivity. }
  destruct (Qlt_le_dec (qs - qb) 0) as [Hlt|Hge].
  - rewrite Hd in Hlt. change 0%Q with (inject_Z 0) in Hlt. rewrite <- Zlt_Qlt in Hlt.
    subst zw. change (Qfloor 0) with 0. lia.
  - rewrite Hd in Hge. change 0%Q with (inject_Z 0) in Hge. rewrite <- Zle_Qle in Hge.
    subst zw. rewrite (Qfloor_comp _ _ Hd), Qfloor_Z. lia.
Qed.

(** Claim C6: every record that the submit handler constructs has
    [workingMinutes = max(shiftMinutes - breakMinutes, 0)], hence at most
    [shiftMinutes] and not negative, whatever the times and the breaks: the
    record built from the page and every record that a submit adds to or
    puts into the collection.  In the IndexedDB variant every record built
    has the equation, and a page whose time inputs hold values of time
    inputs gives a record with all three. *)
Theorem workingMinutes_invariant :
  (forall f : Form, Spec.workingMinutesOk (Supa.submitEntry f)) /\
  (forall (st : State) (e : Entry),
     In e (entries (Supa.submit st)) -> In e (entries st) \/ Spec.workingMinutesOk e) /\
  (forall (f : Form) (e : Entry),
     Idb.submitEntry f = Some e ->
     workingMinutes e = Z.max (shiftMinutes e - breakMinutes e) 0 /\ 0 <= workingMinutes e) /\
  (forall f : Form,
     Spec.timeInputsOk f ->
     exists e, Idb.submitEntry f = Some e /\ Spec.workingMinutesOk e).
Proof.
  split; [exact submitEntry_workingMinutes|
          split; [|split; [exact idb_submitEntry_workingMinutes|
                           exact idb_submitEntry_of_time_inputs]]].
  intros st e. unfold Supa.submit.
  destruct (isSettingUpEdit st); [auto|].
  destruct (_ || _); [auto|].
  destruct (editingIndex st >=? 0).
  - destruct (entries st !! Z.to_nat (editingIndex st)) as [old|]; [|auto].
    simpl. intros [-> | H]%elem_of_list_insert_inv; [right|auto].
    apply (submitEntry_workingMinutes (form st)).
  - simpl. rewrite in_app_iff. intros [H | [<- | []]]; [auto|right].
    apply submitEntry_workingMinutes.
Qed.

(** ** Numerals: printing and reading back *)

Lemma digitsValue_app (acc : Z) (a b : string) :
  JS.digitsValue acc (a ++ b) = JS.digitsValue (JS.digitsValue acc a) b.
Proof. revert acc. induction a as [|c a IH]; intros acc; sapp; simpl; auto. Qed.

Lemma digitsValue_lower (s : string) (acc : Z) :
  JS.allDigits s = true -> 0 <= acc -> acc <= JS.digitsValue acc s.
Proof.
  revert acc. induction s as [|c s IH]; intros acc; simpl; [lia|].
  rewrite allDigits_cons. intros [Hc Hs]%andb_prop Hacc.
  apply digitValue_range in Hc.
  etransitivity; [|apply IH; [assumption|lia]]. lia.
Qed.

Lemma string_of_uint_digits (d : Decimal.uint) :
  JS.allDigits (NilEmpty.string_of_uint d) = true.
Proof. induction d; simpl; try rewrite allDigits_cons; auto. Qed.

Lemma of_uint_acc_value (d : Decimal.uint) (acc : positive) :
  Zpos (Pos.of_uint_acc d acc) = JS.digitsValue (Zpos acc) (NilEmpty.string_of_uint d).
Proof.
  revert acc. induction d; intros acc; simpl; [reflexivity|..];
    rewrite IHd; f_equal;
    match goal with
    | |- context [JS.digitValue ?c] =>
        let v := eval vm_compute in (JS.digitValue c) in
        change (JS.digitValue c) with v
    end; lia.
Qed.

Lemma of_uint_value (d : Decimal.uint) :
  Z.of_N (Pos.of_uint d) = JS.digitsValue 0 (NilEmpty.string_of_uint d).
Proof.
  induction d; simpl; [reflexivity|exact IHd|..]; apply of_uint_acc_value.
Qed.

Lemma decimal_value (n : Z) : 0 <= n -> JS.digitsValue 0 (JS.decimal n) = n.
Proof.
  intros Hn. unfold JS.decimal.
  destruct (Z.to_N n) as [|p] eqn:E.
  - assert (n = 0) as -> by lia. reflexivity.
  - unfold N.to_uint, NilZero.string_of_uint.
    pose proof (DecimalPos.Unsigned.to_uint_nonnil p) as Hnil.
    pose proof (DecimalPos.Unsigned.of_to p) as Hp.
    destruct (Pos.to_uint p) as [|d|d|d|d|d|d|d|d|d|d] eqn:Ed; try congruence;
      rewrite <- of_uint_value, Hp; lia.
Qed.

Lemma decimal_digits (n : Z) : JS.allDigits (JS.decimal n) = true.
Proof.
  unfold JS.decimal, NilZero.string_of_uint.
  destruct (N.to_uint _) eqn:E; try reflexivity; apply string_of_uint_digits.
Qed.


Lemma zeros_digits (k : nat) :
  JS.allDigits (string_of_list_ascii (repeat "0"%char k)) = true.
Proof. induction k; simpl; try rewrite allDigits_cons; auto. Qed.

Lemma zeros_value (k : nat) (s : string) :
  JS.digitsValue 0 (string_of_list_ascii (repeat "0"%char k) ++ s) = JS.digitsValue 0 s.
Proof. induction k; simpl; sapp; auto. Qed.

Lemma zeros_length (k : nat) :
  String.length (string_of_list_ascii (repeat "0"%char k)) = k.
Proof. induction k; simpl; auto. Qed.

Lemma padStart0_digits (k : nat) (s : string) :
  JS.allDigits s = true -> JS.allDigits (JS.padStart0 k s) = true.
Proof. intros H. unfold JS.padStart0. now rewrite allDigits_app, zeros_digits. Qed.

Lemma padStart0_value (k : nat) (s : string) :
  JS.digitsValue 0 (JS.padStart0 k s) = JS.digitsValue 0 s.
Proof. apply zeros_value. Qed.

Lemma padStart0_length (k : nat) (s : string) : (k <= String.length (JS.padStart0 k s))%nat.
Proof. unfold JS.padStart0. rewrite length_append, zeros_length. lia. Qed.

Lemma splitAt_spec (k : nat) (s : string) :
  (k <= String.length s)%nat ->
  s = fst (JS.splitAt k s) ++ snd (JS.splitAt k s) /\
  String.length (fst (JS.splitAt k s)) = k.
Proof.
  revert s. induction k as [|k IH]; intros s Hk; [now simpl|].
  destruct s as [|c s]; [simpl in Hk; lia|].
  simpl in Hk. destruct (IH s) as [E L]; [lia|].
  simpl. destruct (JS.splitAt k s) as [a b]. simpl in *. sapp.
  split; congruence.
Qed.

Lemma spanDigits_all (a : string) : JS.allDigits a = true -> JS.spanDigits a = (a, "").
Proof.
  induction a as [|c a IH]; [reflexivity|].
  rewrite allDigits_cons. intros [Hc Ha]%andb_prop.
  simpl. now rewrite Hc, IH.
Qed.

Lemma spanDigits_stop (a : string) (c : ascii) (rest : string) :
  JS.allDigits a = true -> JS.isDigit c = false ->
  JS.spanDigits (a ++ String c rest) = (a, String c rest).
Proof.
  intros Ha Hc. induction a as [|d a IH]; sapp.
  - simpl. now rewrite Hc.
  - rewrite allDigits_cons in Ha. apply andb_prop in Ha as [Hd Ha].
    simpl. now rewrite Hd, IH.
Qed.

Lemma tenTo_pow (k : nat) : Zpos (JS.tenTo k) = 10 ^ Z.of_nat k.
Proof.
  induction k as [|k IH]; [reflexivity|].
  rewrite Nat2Z.inj_succ, Z.pow_succ_r by lia.
  simpl JS.tenTo. lia.
Qed.

Lemma readSign_digit (c : ascii) (s : string) :
  JS.isDigit c = true -> JS.readSign (String c s) = (false, String c s).
Proof. destruct c as [[] [] [] [] [] [] [] []]; vm_compute; congruence. Qed.

Lemma rounded_nonneg (f : nat) (x : Q) :
  0 <= Qfloor (Qabs x * (Zpos (JS.tenTo f) # 1) + (1 # 2))%Q.
Proof.
  change 0 with (Qfloor 0). apply Qfloor_resp_le.
  pose proof (Qabs_nonneg x) as Hx.
  assert (0 <= Qabs x * (Zpos (JS.tenTo f) # 1))%Q by (apply Qmult_le_0_compat; [assumption|easy]).
  lra.
Qed.

(** The text of [toFixed]: a sign, at least one digit, a point, [f] digits,
    the digits being the numeral of the rounded value. *)
Lemma toFixed_text (f : nat) (x : Q) :
  exists (c : ascii) (a b : string),
    JS.toFixed (S f) x = (if Qlt_le_dec x 0 then "-" else "") ++ String c a ++ "." ++ b /\
    JS.allDigits (String c a) = true /\ JS.allDigits b = true /\
    String.length b = S f /\
    JS.digitsValue 0 (String c a ++ b)
      = Qfloor (Qabs x * (Zpos (JS.tenTo (S f)) # 1) + (1 # 2))%Q.
Proof.
  unfold JS.toFixed.
  set (n := Qfloor _).
  set (m := JS.padStart0 (S (S f)) (JS.decimal n)).
  pose proof (padStart0_length (S (S f)) (JS.decimal n)) as Hlen. fold m in Hlen.
  destruct (splitAt_spec (String.length m - S f) m) as [Hm La]; [lia|].
  destruct (JS.splitAt (String.length m - S f) m) as [a b]. simpl in Hm, La.
  assert (Hd : JS.allDigits m = true) by (apply padStart0_digits, decimal_digits).
  rewrite Hm, allDigits_app in Hd. apply andb_prop in Hd as [Da Db].
  assert (Lb : String.length b = S f).
  { assert (E : String.length m = String.length (a ++ b)) by congruence.
    rewrite length_append in E. lia. }
  destruct a as [|c a]; [simpl in La; lia|].
  exists c, a, b. repeat split; try assumption.
  rewrite <- Hm. unfold m. rewrite padStart0_value.
  apply decimal_value, rounded_nonneg.
Qed.

Lemma decimalLiteral_minus (s r : string) (q : Q) :
  JS.readSign s = (false, s) ->
  JS.decimalLiteral s = Some (q, r) ->
  JS.decimalLiteral (String "-" s) = Some ((- q)%Q, r).
Proof.
  unfold JS.decimalLiteral. intros ->. cbn [JS.readSign].
  destruct (JS.spanDigits s) as [ip s2].
  destruct (match s2 with String "."%char t => JS.spanDigits t | _ => ("", s2) end) as [fp s3].
  destruct (JS.falsy ip && JS.falsy fp); [discriminate|].
  destruct (JS.exponentPart s3) as [e s4].
  now intros [= <- <-].
Qed.

(** Reading back what [toFixed] wrote gives the rounded value. *)
Lemma parseFloat_toFixed (f : nat) (x : Q) :
  JS.parseFloat (JS.toFixed (S f) x) = Some (Spec.roundTo (S f) x).
Proof.
  destruct (toFixed_text f x) as (c & a & b & -> & Da & Db & Lb & Hv).
  unfold Spec.roundTo. rewrite <- Hv, digitsValue_app. clear Hv.
  pose proof Da as Dc. rewrite allDigits_cons in Dc. apply andb_prop in Dc as [Dc _].
  assert (Hspan : JS.spanDigits (String c a ++ "." ++ b) = (String c a, "." ++ b)).
  { sapp. rewrite <- append_cons. now apply spanDigits_stop. }
  assert (Hlit : JS.decimalLiteral (String c a ++ "." ++ b)
                 = Some (JS.digitsValue (JS.digitsValue 0 (String c a)) b # JS.tenTo (S f), "")).
  { unfold JS.decimalLiteral.
    rewrite append_cons, readSign_digit, <- append_cons, Hspan by assumption.
    sapp. rewrite (spanDigits_all b Db). cbn [JS.falsy andb].
    rewrite Lb.
    cbn [JS.exponentPart]. unfold Qpower, Qmult. cbn [Qnum Qden].
    now rewrite Z.mul_1_r, Pos.mul_1_r. }
  unfold JS.parseFloat.
  destruct (Qlt_le_dec x 0).
  - rewrite append_cons, append_nil_l.
    rewrite trimStart_head by reflexivity.
    erewrite decimalLiteral_minus; [reflexivity| |exact Hlit].
    rewrite append_cons. now apply readSign_digit.
  - rewrite append_nil_l, append_cons.
    rewrite trimStart_head by now apply digit_not_space.
    rewrite <- append_cons, Hlit. reflexivity.
Qed.

Lemma decimalLiteral_digits (c : ascii) (s : string) :
  JS.allDigits (String c s) = true ->
  JS.decimalLiteral (String c s) = Some (JS.digitsValue 0 (String c s) # 1, "").
Proof.
  intros D. pose proof D as Dc. rewrite allDigits_cons in Dc. apply andb_prop in Dc as [Dc _].
  unfold JS.decimalLiteral.
  rewrite readSign_digit, (spanDigits_all _ D) by assumption.
  cbn [JS.falsy andb JS.exponentPart String.length JS.tenTo JS.digitsValue].
  unfold Qpower, Qmult. cbn [Qnum Qden].
  now rewrite Z.mul_1_r.
Qed.




(** ** What a record keeps of the derived decimals *)




Lemma idb_submitEntry_fields (f : Form) (e : Entry) :
  Idb.submitEntry f = Some e ->
  gallons e = JS.orZero (JS.parseFloat (gallonsUsedInput f)) /\
  milesDriven e = JS.orZero (JS.parseFloat (milesDrivenEl f)) /\
  pricePerGal e = JS.orZero (JS.parseFloat (dollarsPerGalInput f)) /\
  gasCost e = JS.orZero (JS.parseFloat (gasCostEl f)) /\
  hourly e =
    (if workingMinutes e >? 0
     then (gross e - gasCost e) / (inject_Z (workingMinutes e) / 60)
     else 0)%Q.
Proof.
  unfold Idb.submitEntry.
  destruct (Idb.wholeMinutes (Idb.calculateTimeDifferenceMinutes _ _)); [|discriminate].
  destruct (Idb.wholeMinutes (Idb.getTotalBreakMinutes _)); [|discriminate].
  destruct (Idb.wholeMinutes (Idb.maxZero _)); [|discriminate].
  now intros [= <-].
Qed.



(** ** The hourly rate of a shift without working time *)

(** Claim C2, as the specification words it, fails: the record of a shift
    that starts and ends at 9:00 AM has no working minute, its hourly rate
    is the number 0, and the entries table shows it as "$0.00", which is not
    the placeholder. *)
Lemma zero_length_shift_shows_zero_rate :
  let e := Supa.submitEntry (Supa.recalculate zeroLengthSample) in
  workingMinutes e = 0 /\
  hourly e = 0%Q /\
  Supa.hourlyCell e = "$0.00" /\
  Supa.hourlyCell e <> dash /\
  nth 4 (Supa.renderRow 0 e) "" = "$0.00".
Proof. vm_compute. repeat split; discriminate. Qed.

Lemma idb_isPositive_whole (x : option Q) :
  Idb.wholeMinutes x = Some 0 -> Idb.isPositive x = false.
Proof.
  intros (q & -> & Hq)%wholeMinutes_inv. unfold Idb.isPositive, JS.ltb.
  destruct (Qlt_le_dec 0 q) as [H|H]; [|reflexivity].
  rewrite Hq in H. now apply Qlt_irrefl in H.
Qed.

(** Claim C2, amended: for every record without working minutes, whatever
    the pay and the gas cost, the hourly rate derived is the number 0 and
    the entries table shows it as a rate of zero ("$0.00"; "0.00" in the
    IndexedDB variant); only the live preview of the form shows the
    placeholder (an empty field in the IndexedDB variant). *)
Theorem zero_working_minutes_hourly :
  (forall f : Form,
     workingMinutes (Supa.submitEntry f) = 0 ->
     hourly (Supa.submitEntry f) = 0%Q /\
     Supa.hourlyCell (Supa.submitEntry f) = "$0.00" /\
     hourlyRateEl (Supa.recalculate f) = dash) /\
  (forall (f : Form) (e : Entry),
     Idb.submitEntry f = Some e ->
     workingMinutes e = 0 ->
     hourly e = 0%Q /\
     Idb.hourlyCell e = "0.00" /\
     hourlyRateEl (Idb.recalculate f) = "") /\
  workingMinutes (Supa.submitEntry zeroLengthSample) = 0.
Proof.
  split; [|split; [|reflexivity]].
  - intros f H.
    assert (Hh : hourly (Supa.submitEntry f) = 0%Q).
    { unfold Supa.submitEntry in *. cbn [hourly workingMinutes] in *. now rewrite H. }
    split; [exact Hh|]. split.
    + unfold Supa.hourlyCell. now rewrite Hh.
    + unfold Supa.submitEntry in H. cbn [workingMinutes] in H.
      unfold Supa.recalculate. cbn [hourlyRateEl]. rewrite H.
      now destruct (JS.parseFloat (netEarningsInput f)).
  - intros f e He H.
    destruct (idb_submitEntry_fields _ _ He) as (_ & _ & _ & _ & Hh).
    rewrite H in Hh. cbn in Hh.
    split; [exact Hh|]. split.
    + unfold Idb.hourlyCell. now rewrite Hh.
    + unfold Idb.submitEntry in He.
      destruct (Idb.wholeMinutes (Idb.calculateTimeDifferenceMinutes _ _)); [|discriminate].
      destruct (Idb.wholeMinutes (Idb.getTotalBreakMinutes _)); [|discriminate].
      destruct (Idb.wholeMinutes (Idb.maxZero _)) as [w|] eqn:Hw; [|discriminate].
      injection He as <-. cbn [workingMinutes] in H. subst w.
      apply idb_isPositive_whole in Hw.
      unfold Idb.recalculate. cbn [hourlyRateEl]. rewrite Hw.
      destruct (JS.parseFloat (netEarningsInput f)); [|reflexivity].
      now destruct (Idb.maxZero _).
Qed.

(** The amended claim at the sample shift without working time. *)
Lemma zero_working_minutes_hourly_sample :
  hourly (Supa.submitEntry zeroLengthSample) = 0%Q /\
  Supa.hourlyCell (Supa.submitEntry zeroLengthSample) = "$0.00" /\
  hourlyRateEl (Supa.recalculate zeroLengthSample) = dash.
Proof. apply (proj1 zero_working_minutes_hourly zeroLengthSample). reflexivity. Defined.

(** ** The default price per gallon *)

(** Nothing that happens to the page changes the price element once the
    page has loaded. *)
Lemma step_price (st : State) (ev : Supa.Event) :
  dollarsPerGalInput (form st) = "$3.27" ->
  dollarsPerGalInput (form (Supa.step st ev)) = "$3.27".
Proof.
  intros H. destruct ev; simpl; try exact H; try reflexivity.
  - unfold Supa.submit.
    destruct (isSettingUpEdit st); [exact H|].
    destruct (_ || _); [exact H|].
    destruct (editingIndex st >=? 0); [|reflexivity].
    now destruct (entries st !! Z.to_nat (editingIndex st)).
  - unfold Supa.editEntry. now destruct (entries st !! index).
Qed.

Lemma run_price (st : State) (events : list Supa.Event) :
  dollarsPerGalInput (form st) = "$3.27" ->
  dollarsPerGalInput (form (Supa.run st events)) = "$3.27".
Proof.
  revert st. induction events as [|ev events IH]; intros st H; [exact H|].
  apply IH, step_price, H.
Qed.

(** Claim C7 against the Supabase variant.  The page shows the default
    price with two fractional digits, the submit handler reads the price
    back from what the page shows, and nothing else writes that element: the
    record keeps 3.27, not the constant 3.272, and its gas cost is computed
    from 3.27 (10.58 for the sample shift, where 3.272 gives 10.59),
    whatever has happened to the page since it loaded.  The IndexedDB variant
    writes three digits and keeps 3.272. *)
Theorem default_price_loses_its_third_digit :
  (forall (stored : list Entry) (st : State),
     dollarsPerGalInput (form (Supa.loadEntries stored st)) = "$3.27") /\
  (forall st : State,
     dollarsPerGalInput (form (Supa.resetForm st)) = "$3.27") /\
  (forall f : Form,
     dollarsPerGalInput (Supa.recalculate f) = dollarsPerGalInput f) /\
  (forall (index : nat) (st : State),
     dollarsPerGalInput (form (Supa.editEntry index st)) = dollarsPerGalInput (form st)) /\
  (forall f : Form,
     dollarsPerGalInput f = "$3.27" ->
     pricePerGal (Supa.submitEntry f) = 327 # 100) /\
  (forall (stored : list Entry) (st : State) (events : list Supa.Event),
     pricePerGal
       (Supa.submitEntry (form (Supa.run (Supa.loadEntries stored st) events)))
     = 327 # 100) /\
  ~ (327 # 100 == Supa.DEFAULT_GAS_PRICE)%Q /\
  gasCost (Supa.submitEntry (Supa.recalculate supaSample)) = 1058 # 100 /\
  Spec.roundTo 2 (100 / Supa.MPG * Supa.DEFAULT_GAS_PRICE) = 1059 # 100 /\
  (forall (f : Form) (e : Entry),
     dollarsPerGalInput f = "" ->
     Idb.submitEntry (Idb.loadEntries f) = Some e ->
     pricePerGal e = Idb.DEFAULT_GAS_PRICE).
Proof.
  repeat split; try reflexivity.
  - intros index st. unfold Supa.editEntry.
    now destruct (entries st !! index).
  - intros f Hf. unfold Supa.submitEntry. cbn [pricePerGal]. now rewrite Hf.
  - intros stored st events. unfold Supa.submitEntry. cbn [pricePerGal].
    now rewrite run_price.
  - vm_compute. discriminate.
  - intros f e Hf He.
    destruct (idb_submitEntry_fields _ _ He) as (_ & _ & Hp & _).
    rewrite Hp. unfold Idb.loadEntries, Idb.recalculate. cbn [dollarsPerGalInput].
    now rewrite Hf.
Qed.

(** ** Week buckets *)

(** Claim C3 against the code, in a UTC time zone.  Monday 2025-12-29 and
    Thursday 2026-01-01 are days of one week in both variants: they have
    the same anchor (Saturday 2026-01-03, respectively Thursday 2026-01-01),
    which is in 2026, and the same week number 1.  [updateSummaries] pairs
    the week number with the calendar year of the date itself, so the two
    land in different buckets, (1, 2025) and (1, 2026), and the first shares
    its bucket with 2025-01-01, a year earlier.  Seven hours behind UTC the
    same holds of the dates 2025-12-30 and 2026-01-02, which are read as the
    local days before them.  On 2026-01-01 the week summary leaves out a
    record of 2025-12-29; on 2025-12-29 it counts a record of 2025-01-01. *)
Theorem year_boundary_week_is_split :
  let mon := JSDate.parse "2025-12-29" in
  let thu := JSDate.parse "2026-01-01" in
  let old := JSDate.parse "2025-01-01" in
  (option_map (Supa.weekAnchor 0) mon = option_map (Supa.weekAnchor 0) thu /\
   option_map (JSDate.getFullYear 0) (option_map (Supa.weekAnchor 0) mon) = Some 2026 /\
   Supa.weekBucket 0 mon = (Some 1, Some 2025) /\
   Supa.weekBucket 0 thu = (Some 1, Some 2026) /\
   Supa.sameBucket (Supa.weekBucket 0 mon) (Supa.weekBucket 0 thu) = false /\
   Supa.sameBucket (Supa.weekBucket 0 mon) (Supa.weekBucket 0 old) = true) /\
  (option_map (Idb.weekAnchor 0) mon = option_map (Idb.weekAnchor 0) thu /\
   option_map JSDate.getUTCFullYear (option_map (Idb.weekAnchor 0) mon) = Some 2026 /\
   Idb.weekBucket 0 mon = (Some 1, Some 2025) /\
   Idb.weekBucket 0 thu = (Some 1, Some 2026) /\
   Idb.sameBucket (Idb.weekBucket 0 mon) (Idb.weekBucket 0 thu) = false /\
   Idb.sameBucket (Idb.weekBucket 0 mon) (Idb.weekBucket 0 old) = true) /\
  (let tue := JSDate.parse "2025-12-30" in
   let fri := JSDate.parse "2026-01-02" in
   option_map (Supa.weekAnchor (-420)) tue = option_map (Supa.weekAnchor (-420)) fri /\
   Supa.weekBucket (-420) tue = (Some 1, Some 2025) /\
   Supa.weekBucket (-420) fri = (Some 1, Some 2026)) /\
  weekSummaryEl (Supa.updateSummaries 0 [recordOn "2025-12-29"] false newYearNoon) = "$0.00" /\
  weekSummaryEl (Supa.updateSummaries 0 [recordOn "2026-01-01"] false newYearNoon) = "$50.00" /\
  weekSummaryEl
    (Supa.updateSummaries 0 [recordOn "2025-01-01"] false (20451 * 86400000)) = "$50.00" /\
  weekSummaryEl (Idb.updateSummaries 0 [recordOn "2025-12-29"] newYearNoon) = "0.00 / 0.00".
Proof. vm_compute. repeat split. Qed.

(** ** Backup and restore *)



(** The set of existing dates holds the dates of the collection. *)
Lemma existingDates_spec (entries : list Entry) (d : string) :
  d ∈ (list_to_set (map date entries) : gset string) <-> In d (map date entries).
Proof. rewrite elem_of_list_to_set. apply list_elem_of_In. Qed.

















(** ** Summaries *)




(** * More of the code

    Properties of the functions around those of the claims: the formatter
    of the time inputs, the display of durations, the week numbers, the
    dates of the table, the CSV export, the week of the summary, the editing
    and the deleting of a record, the service worker, the validation of the
    submit, the breaks, a restore that fails on the way, and the records
    that earlier variants have left. *)

(** ** The formatter of the time inputs *)

Lemma matchTimeAnyCase_inv (t g1 g2 p : string) :
  Supa.matchTimeAnyCase t = Some (g1, g2, p) ->
  exists gap period,
    t = g1 ++ ":" ++ g2 ++ gap ++ p /\
    JS.allDigits g1 = true /\
    (String.length g1 = 1%nat \/ String.length g1 = 2%nat) /\
    JS.allDigits g2 = true /\ String.length g2 = 2%nat /\
    JS.allSpaces gap = true /\ JS.toUpperCase p = Spec.periodText period.
Proof.
  unfold Supa.matchTimeAnyCase. intros H.
  repeat case_match; simplify_eq;
    match goal with
    | E : JS.trimStart ?r = _ |- _ =>
        destruct (trimStart_split r) as (gap & Hr & Hgap); rewrite E in Hr; subst r
    end;
    repeat match goal with H : _ && _ = true |- _ => apply andb_prop in H; destruct H end;
    match goal with
    | H : _ || _ = true |- _ => apply orb_prop in H; destruct H as [H|H]
    end;
    repeat match goal with H : Ascii.eqb _ _ = true |- _ => apply Ascii.eqb_eq in H end;
    exists gap;
    match goal with
    | H : JS.upperChar _ = "A"%char |- _ => exists Supa.AM
    | H : JS.upperChar _ = "P"%char |- _ => exists Supa.PM
    end;
    sapp; cbn [Spec.periodText JS.toUpperCase];
    rewrite !allDigits_cons; simpl String.length;
    repeat match goal with H : JS.isDigit _ = true |- _ => rewrite H; clear H end;
    repeat match goal with H : JS.upperChar _ = _ |- _ => rewrite H; clear H end;
    intuition auto.
Qed.
Lemma period_text_chars (p : string) (period : Supa.Period) :
  JS.toUpperCase p = Spec.periodText period ->
  exists x y,
    p = String x (String y "") /\
    (Ascii.eqb (JS.upperChar x) "A" || Ascii.eqb (JS.upperChar x) "P")
    && Ascii.eqb (JS.upperChar y) "M" = true /\
    JS.isSpace x = false /\ JS.isSpace y = false.
Proof.
  destruct p as [|x [|y [|? ?]]]; destruct period; try discriminate.
  all: simpl; intros [= Hx Hy]; exists x, y; rewrite Hx, Hy;
    repeat split; try reflexivity; try (now apply upperChar_M).
  all: revert Hx; clear; each_char x.
Qed.

Lemma matchTimeAnyCase_eval (g1 g2 gap p : string) (period : Supa.Period) :
  JS.allDigits g1 = true ->
  (String.length g1 = 1%nat \/ String.length g1 = 2%nat) ->
  JS.allDigits g2 = true -> String.length g2 = 2%nat ->
  JS.allSpaces gap = true ->
  JS.toUpperCase p = Spec.periodText period ->
  Supa.matchTimeAnyCase (g1 ++ ":" ++ g2 ++ gap ++ p) = Some (g1, g2, p).
Proof.
  intros D1 L1 D2 L2 Hgap Hp.
  destruct (period_text_chars _ _ Hp) as (x & y & -> & Hxy & Hx & Hy).
  destruct g2 as [|c [|d [|? ?]]]; try discriminate L2.
  rewrite !allDigits_cons in D2.
  apply andb_prop in D2 as [Dc [Dd _]%andb_prop].
  assert (Ht : JS.trimStart (gap ++ String x (String y "")) = String x (String y "")).
  { rewrite trimStart_spaces by assumption. simpl. now rewrite Hx. }
  revert Hxy.
  destruct g1 as [|a [|b [|? ?]]]; simpl in L1; try lia;
    rewrite !allDigits_cons in D1;
    repeat match goal with H : _ && _ = true |- _ => apply andb_prop in H; destruct H end;
    intros Hxy; unfold Supa.matchTimeAnyCase; sapp;
    repeat match goal with H : JS.isDigit _ = true |- _ => rewrite H end;
    simpl; rewrite ?Dc, ?Dd; simpl; rewrite Ht, Hxy; reflexivity.
Qed.
(** The text of a time, trimmed: nothing is left of the white space around
    it. *)
Lemma trim_time_text (lead h m gap p trail : string) (period : Supa.Period) :
  JS.allSpaces lead = true -> JS.allSpaces trail = true ->
  JS.allDigits h = true ->
  (String.length h = 1%nat \/ String.length h = 2%nat) ->
  JS.toUpperCase p = Spec.periodText period ->
  JS.trim (lead ++ h ++ ":" ++ m ++ gap ++ p ++ trail) = h ++ ":" ++ m ++ gap ++ p /\
  JS.falsy (lead ++ h ++ ":" ++ m ++ gap ++ p ++ trail) = false /\
  JS.falsy (h ++ ":" ++ m ++ gap ++ p) = false.
Proof.
  intros Hl Ht D1 L1 Hp.
  destruct (period_chars _ _ Hp) as (c1 & c2 & -> & Hc2).
  destruct h as [|a h0]; [simpl in L1; lia|].
  pose proof D1 as D1'. rewrite allDigits_cons in D1'.
  apply andb_prop in D1' as [Da _]. apply digit_not_space in Da.
  set (body := h0 ++ ":" ++ m ++ gap ++ String c1 "").
  assert (Hs : lead ++ String a h0 ++ ":" ++ m ++ gap ++ String c1 (String c2 "") ++ trail
               = lead ++ (String a body ++ String c2 "") ++ trail).
  { unfold body. now snorm. }
  assert (Hb : String a body ++ String c2 ""
               = String a h0 ++ ":" ++ m ++ gap ++ String c1 (String c2 "")).
  { unfold body. now snorm. }
  rewrite Hs, trim_core, Hb by assumption.
  split; [reflexivity|]. split; [|reflexivity].
  rewrite !append_cons. apply falsy_app_cons.
Qed.

(** What [parseTimeToMinutes] makes of the text of a time, in or out of
    range. *)
Lemma parseTimeToMinutes_of_shape (lead h m gap p trail : string) (period : Supa.Period) :
  JS.allSpaces lead = true -> JS.allSpaces trail = true ->
  JS.allDigits h = true ->
  (String.length h = 1%nat \/ String.length h = 2%nat) ->
  JS.allDigits m = true -> String.length m = 2%nat ->
  JS.allSpaces gap = true ->
  JS.toUpperCase p = Spec.periodText period ->
  Supa.parseTimeToMinutes (lead ++ h ++ ":" ++ m ++ gap ++ p ++ trail) =
  Supa.parseTimeToMinutes (h ++ ":" ++ m ++ Spec.periodText period).
Proof.
  intros Hl Ht D1 L1 D2 L2 Hg Hp.
  assert (G : forall lead gap p trail,
             JS.allSpaces lead = true -> JS.allSpaces trail = true ->
             JS.allSpaces gap = true -> JS.toUpperCase p = Spec.periodText period ->
             JS.toUpperCase (JS.trim (lead ++ h ++ ":" ++ m ++ gap ++ p ++ trail))
             = h ++ ":" ++ m ++ gap ++ Spec.periodText period /\
             JS.falsy (lead ++ h ++ ":" ++ m ++ gap ++ p ++ trail) = false).
  { clear - D1 L1 D2. intros lead gap p trail Hl Ht Hg Hp.
    destruct (trim_time_text lead h m gap p trail period) as (-> & F & _); try assumption.
    split; [|assumption].
    rewrite !toUpperCase_app, (toUpperCase_digits _ D1), (toUpperCase_digits _ D2),
      (toUpperCase_spaces _ Hg), Hp. reflexivity. }
  unfold Supa.parseTimeToMinutes.
  destruct (G lead gap p trail) as (-> & ->); try assumption.
  assert (Hup : JS.toUpperCase (Spec.periodText period) = Spec.periodText period)
    by now destruct period.
  destruct (G "" "" (Spec.periodText period) "") as (E & F); try reflexivity; try assumption.
  rewrite !append_nil_l, !append_nil_r in E, F. rewrite E, F.
  rewrite matchTime_eval by assumption.
  rewrite (matchTime_eval h m "" period) by (assumption || reflexivity).
  reflexivity.
Qed.

Lemma formatTimeInput_of_shape (lead h m gap p trail : string) (period : Supa.Period) :
  JS.allSpaces lead = true -> JS.allSpaces trail = true ->
  JS.allDigits h = true ->
  (String.length h = 1%nat \/ String.length h = 2%nat) ->
  JS.allDigits m = true -> String.length m = 2%nat ->
  JS.allSpaces gap = true ->
  JS.toUpperCase p = Spec.periodText period ->
  Supa.formatTimeInput (lead ++ h ++ ":" ++ m ++ gap ++ p ++ trail)
  = h ++ ":" ++ m ++ " " ++ Spec.periodText period.
Proof.
  intros Hl Ht D1 L1 D2 L2 Hg Hp.
  unfold Supa.formatTimeInput.
  destruct (trim_time_text lead h m gap p trail period) as (-> & _ & ->); try assumption.
  rewrite (matchTimeAnyCase_eval h m gap p period) by assumption.
  now rewrite Hp.
Qed.

(** A value that the formatter rewrites is the text of a time. *)
Lemma formatTimeInput_inv (value : string) :
  Supa.formatTimeInput value = value \/
  exists lead h m gap p trail period,
    value = lead ++ h ++ ":" ++ m ++ gap ++ p ++ trail /\
    JS.allSpaces lead = true /\ JS.allSpaces trail = true /\
    JS.allDigits h = true /\
    (String.length h = 1%nat \/ String.length h = 2%nat) /\
    JS.allDigits m = true /\ String.length m = 2%nat /\
    JS.allSpaces gap = true /\
    JS.toUpperCase p = Spec.periodText period.
Proof.
  unfold Supa.formatTimeInput.
  destruct (JS.falsy (JS.trim value)); [now left|].
  destruct (Supa.matchTimeAnyCase (JS.trim value)) as [[[h m] p]|] eqn:E; [|now left].
  right. apply matchTimeAnyCase_inv in E as (gap & period & Hc & D1 & L1 & D2 & L2 & Hgap & Hp).
  destruct (trim_split value) as (lead & trail & Hs & Hl & Ht).
  exists lead, h, m, gap, p, trail, period.
  rewrite Hs at 1. rewrite Hc, !append_assoc. auto 12.
Qed.
Lemma formatTimeInput_canonical (h m : string) (period : Supa.Period) :
  JS.allDigits h = true ->
  (String.length h = 1%nat \/ String.length h = 2%nat) ->
  JS.allDigits m = true -> String.length m = 2%nat ->
  Supa.formatTimeInput (h ++ ":" ++ m ++ " " ++ Spec.periodText period)
  = h ++ ":" ++ m ++ " " ++ Spec.periodText period /\
  Supa.parseTimeToMinutes (h ++ ":" ++ m ++ " " ++ Spec.periodText period)
  = Supa.parseTimeToMinutes (h ++ ":" ++ m ++ Spec.periodText period) /\
  JS.falsy (h ++ ":" ++ m ++ " " ++ Spec.periodText period) = false /\
  JS.falsy (JS.trim (h ++ ":" ++ m ++ " " ++ Spec.periodText period)) = false.
Proof.
  intros D1 L1 D2 L2.
  assert (Hup : JS.toUpperCase (Spec.periodText period) = Spec.periodText period)
    by now destruct period.
  pose proof (formatTimeInput_of_shape "" h m " " (Spec.periodText period) "" period) as F.
  pose proof (parseTimeToMinutes_of_shape "" h m " " (Spec.periodText period) "" period) as P.
  pose proof (trim_time_text "" h m " " (Spec.periodText period) "" period) as T.
  rewrite !append_nil_l, !append_nil_r in F, P, T.
  destruct T as (T1 & T2 & T3); try (assumption || reflexivity).
  rewrite T1, F, P by (assumption || reflexivity). auto.
Qed.

(** [formatTimeInput] (Supabase variant), with [parseTimeToMinutes],
    [validateTimeInput] and [calculateTimeDifferenceMinutes]: the formatter
    that runs when a time input loses the focus never changes what the time
    means.  The formatted value parses to the same minute of the day, or is
    refused like the value typed; so the validation and every duration
    computed from the field are the same before and after. *)
Theorem formatTimeInput_keeps_the_time (value other : string) :
  Supa.parseTimeToMinutes (Supa.formatTimeInput value) = Supa.parseTimeToMinutes value /\
  Supa.validateTimeInput (Supa.formatTimeInput value) = Supa.validateTimeInput value /\
  Supa.calculateTimeDifferenceMinutes (Supa.formatTimeInput value) other
  = Supa.calculateTimeDifferenceMinutes value other /\
  Supa.calculateTimeDifferenceMinutes other (Supa.formatTimeInput value)
  = Supa.calculateTimeDifferenceMinutes other value.
Proof.
  destruct (formatTimeInput_inv value) as [E|S]; [now rewrite E|].
  destruct S as (lead & h & m & gap & p & trail & period & -> & Hl & Ht & D1 & L1 & D2 & L2 & Hg & Hp).
  destruct (formatTimeInput_canonical h m period) as (_ & P & F & FT); try assumption.
  destruct (trim_time_text lead h m gap p trail period) as (T & F' & F''); try assumption.
  rewrite (formatTimeInput_of_shape lead h m gap p trail period) by assumption.
  assert (Hparse : Supa.parseTimeToMinutes (h ++ ":" ++ m ++ " " ++ Spec.periodText period)
                   = Supa.parseTimeToMinutes (lead ++ h ++ ":" ++ m ++ gap ++ p ++ trail)).
  { rewrite P. symmetry. now apply parseTimeToMinutes_of_shape. }
  split; [exact Hparse|].
  unfold Supa.validateTimeInput, Supa.calculateTimeDifferenceMinutes.
  rewrite Hparse, F, FT, F', T, F''. auto.
Qed.

(** [formatTimeInput] (Supabase variant): the shape it gives a time.  A
    value that validates as a time is rewritten to the hour as typed, a
    colon, the two digits of the minute, one space, and AM or PM in
    capitals, with no white space around: the shape H:MM AM/PM.  Formatting
    twice is formatting once.  The formatter does not look at the range of
    the hour and the minute, and it leaves alone what the pattern does not
    match. *)
Theorem formatTimeInput_normal_form :
  (forall (value : string) (x : Z),
     Supa.parseTimeToMinutes value = Some x ->
     exists h m period,
       Supa.formatTimeInput value = h ++ ":" ++ m ++ " " ++ Spec.periodText period /\
       Spec.timeText Spec.oneSpace (Supa.formatTimeInput value)
         (JS.parseInt h) (JS.parseInt m) period /\
       x = Spec.minutesSinceMidnight (JS.parseInt h) (JS.parseInt m) period) /\
  (forall value : string,
     Supa.formatTimeInput (Supa.formatTimeInput value) = Supa.formatTimeInput value) /\
  Supa.formatTimeInput "8:31pm" = "8:31 PM" /\
  Supa.formatTimeInput "  12:08   Am " = "12:08 AM" /\
  Supa.formatTimeInput "99:99 pm" = "99:99 PM" /\
  Supa.formatTimeInput "20:31" = "20:31" /\
  Supa.formatTimeInput "   " = "   ".
Proof.
  split; [|split; [|repeat split; reflexivity]].
  - intros value x Hx.
    apply parseTimeToMinutes_sound in Hx as (hours & minutes & period & Ht & _ & _ & ->).
    destruct Ht as (lead & h & m & gap & p & trail & -> & Hl & Ht & D1 & L1 & D2 & L2 & Hg & Hp & -> & ->).
    exists h, m, period.
    rewrite (formatTimeInput_of_shape lead h m gap p trail period) by assumption.
    split; [reflexivity|]. split; [|reflexivity].
    exists "", h, m, " ", (Spec.periodText period), "".
    rewrite append_nil_l, append_nil_r. unfold Spec.oneSpace.
    repeat split; try assumption; try reflexivity. now destruct period.
  - intros value.
    destruct (formatTimeInput_inv value) as [E|S]; [rewrite E; exact E|].
    destruct S as (lead & h & m & gap & p & trail & period & -> & Hl & Ht & D1 & L1 & D2 & L2 & Hg & Hp).
    rewrite (formatTimeInput_of_shape lead h m gap p trail period) by assumption.
    now apply formatTimeInput_canonical.
Qed.

(** "8:31pm" becomes "8:31 PM". *)
Lemma formatTimeInput_normal_form_sample :
  exists h m period,
    Supa.formatTimeInput "8:31pm" = h ++ ":" ++ m ++ " " ++ Spec.periodText period /\
    Spec.timeText Spec.oneSpace (Supa.formatTimeInput "8:31pm")
      (JS.parseInt h) (JS.parseInt m) period /\
    1231 = Spec.minutesSinceMidnight (JS.parseInt h) (JS.parseInt m) period.
Proof. apply (proj1 formatTimeInput_normal_form "8:31pm" 1231). reflexivity. Defined.

(** ** The display of durations *)

Lemma two_places (k : Z) :
  0 <= k < 100 -> String.length (JS.padStart0 2 (JS.toString k)) = 2%nat.
Proof.
  intros Hk.
  assert (H : Spec.forRange 100 0 twoPlacesOk = true) by (vm_compute; reflexivity).
  apply (forRange_each _ _ k) in H; [|lia].
  now apply Nat.eqb_eq in H.
Qed.

Lemma toString_nonneg (k : Z) : 0 <= k -> JS.toString k = JS.decimal k.
Proof. intros H. unfold JS.toString. destruct (Z.ltb_spec k 0); [lia|reflexivity]. Qed.

Lemma padded_number (k : Z) :
  0 <= k ->
  JS.allDigits (JS.padStart0 2 (JS.toString k)) = true /\
  JS.parseInt (JS.padStart0 2 (JS.toString k)) = k /\
  (2 <= String.length (JS.padStart0 2 (JS.toString k)))%nat.
Proof.
  intros H. rewrite toString_nonneg by assumption.
  split; [apply padStart0_digits, decimal_digits|].
  split; [|apply padStart0_length].
  unfold JS.parseInt. rewrite padStart0_value. now apply decimal_value.
Qed.

Lemma Qfloor_minutes_div (t : Z) : Qfloor (inject_Z t / 60) = t / 60.
Proof.
  unfold Qdiv, Qmult, Qinv, inject_Z, Qfloor. cbn [Qnum Qden].
  now rewrite Z.mul_1_r.
Qed.

Lemma Qfloor_minutes_rem (t : Z) :
  0 <= t -> Qfloor (Idb.remainder (inject_Z t) 60) = t mod 60.
Proof.
  intros Ht. unfold Idb.remainder.
  destruct (Qlt_le_dec (inject_Z t / 60) 0) as [Hneg|_].
  - exfalso. apply (Qlt_not_le _ _ Hneg).
    apply Qle_shift_div_l; [reflexivity|].
    rewrite Qmult_0_l. change 0%Q with (inject_Z 0). now rewrite <- Zle_Qle.
  - rewrite Qfloor_minutes_div.
    change 60%Q with (inject_Z 60).
    rewrite <- inject_Z_mult, inject_Z_sub, Qfloor_Z.
    rewrite Z.mod_eq by lia. reflexivity.
Qed.

(** [formatMinutes] (both variants): a duration of a whole number of
    minutes, zero or more, is shown as hours, a colon and minutes; both are
    decimal digits, the minutes on two places and the hours on two places at
    least (on exactly two below 100 hours), and they read back as the
    hours and the minutes of the duration.  The two variants write the same
    text. *)
Theorem formatMinutes_reads_back (t : Z) :
  0 <= t ->
  exists hh mm,
    Supa.formatMinutes t = hh ++ ":" ++ mm /\
    Idb.formatMinutes (inject_Z t) = hh ++ ":" ++ mm /\
    JS.allDigits hh = true /\ JS.allDigits mm = true /\
    (2 <= String.length hh)%nat /\ String.length mm = 2%nat /\
    (t < 6000 -> String.length hh = 2%nat) /\
    JS.parseInt hh = t / 60 /\ JS.parseInt mm = t mod 60 /\
    JS.parseInt hh * 60 + JS.parseInt mm = t.
Proof.
  intros Ht.
  assert (Hh : 0 <= t / 60) by (apply Z.div_pos; lia).
  assert (Hm : 0 <= t mod 60 < 60) by (apply Z.mod_pos_bound; lia).
  destruct (padded_number (t / 60) Hh) as (D1 & V1 & L1).
  destruct (padded_number (t mod 60)) as (D2 & V2 & L2); [lia|].
  exists (JS.padStart0 2 (JS.toString (t / 60))), (JS.padStart0 2 (JS.toString (t mod 60))).
  unfold Supa.formatMinutes, Idb.formatMinutes.
  rewrite Qfloor_minutes_div, Qfloor_minutes_rem, Z.rem_mod_nonneg by lia.
  repeat split; try assumption.
  - apply two_places. lia.
  - intros Hlt. apply two_places. split; [assumption|].
    apply Z.div_lt_upper_bound; lia.
  - rewrite V1, V2. pose proof (Z.div_mod t 60). lia.
Qed.

(** Eight hours and five minutes. *)
Lemma formatMinutes_sample :
  0 <= 485 /\
  exists hh mm,
    Supa.formatMinutes 485 = hh ++ ":" ++ mm /\
    Idb.formatMinutes (inject_Z 485) = hh ++ ":" ++ mm /\
    JS.allDigits hh = true /\ JS.allDigits mm = true /\
    (2 <= String.length hh)%nat /\ String.length mm = 2%nat /\
    (485 < 6000 -> String.length hh = 2%nat) /\
    JS.parseInt hh = 485 / 60 /\ JS.parseInt mm = 485 mod 60 /\
    JS.parseInt hh * 60 + JS.parseInt mm = 485.
Proof. split; [lia|]. apply (formatMinutes_reads_back 485). lia. Defined.


(** ** Week numbers *)

Lemma daysFromCivil_day (y m d k : Z) :
  Cal.daysFromCivil y m (d + k) = Cal.daysFromCivil y m d + k.
Proof. unfold Cal.daysFromCivil. lia. Qed.

Lemma utcDay_midnight (n : Z) : JSDate.utcDay (n * Cal.msPerDay) = n.
Proof. unfold JSDate.utcDay. apply Z.div_mul. discriminate. Qed.

Lemma midnight_mod (n : Z) : (n * Cal.msPerDay) mod Cal.msPerDay = 0.
Proof. apply Z.mod_mul. discriminate. Qed.

Lemma toLocal_fromLocal (tz x : Z) : JSDate.toLocal tz (JSDate.fromLocal tz x) = x.
Proof. unfold JSDate.toLocal, JSDate.fromLocal. lia. Qed.

Lemma calendarDayOk_inv (n : Z) :
  calendarDayOk n = true ->
  Cal.daysFromCivil (Cal.yearOf n) (Cal.monthOf n) (Cal.dayOf n) = n /\
  0 <= Cal.monthOf n <= 11 /\
  1 <= Cal.dayOf n <= Cal.daysInMonth (Cal.yearOf n) (Cal.monthOf n).
Proof.
  unfold calendarDayOk, Cal.yearOf, Cal.monthOf, Cal.dayOf.
  destruct (Cal.civilFromDays n) as [[y m] d]. cbn [fst snd].
  intros H.
  repeat (apply andb_prop in H; destruct H as [H ?]).
  repeat match goal with
         | H : (_ =? _) = true |- _ => apply Z.eqb_eq in H
         | H : (_ <=? _) = true |- _ => apply Z.leb_le in H
         end.
  auto.
Qed.

Lemma civil_of_day (n : Z) :
  0 <= n < 36525 ->
  Cal.daysFromCivil (Cal.yearOf n) (Cal.monthOf n) (Cal.dayOf n) = n /\
  0 <= Cal.monthOf n <= 11 /\
  1 <= Cal.dayOf n <= Cal.daysInMonth (Cal.yearOf n) (Cal.monthOf n).
Proof. intros Hn. apply calendarDayOk_inv, calendar_days_ok, Hn. Qed.

(** The quotient that [getWeekNumber] rounds up. *)
Lemma week_quotient (k : Z) :
  Qceiling ((inject_Z (k * 86400000) / inject_Z 86400000 + 1) / 7)%Q = k / 7 + 1.
Proof.
  assert (E : ((inject_Z (k * 86400000) / inject_Z 86400000 + 1) / 7 == (k + 1) # 7)%Q).
  { rewrite inject_Z_mult. unfold Qeq, Qdiv, Qmult, Qplus, Qinv, inject_Z. simpl. lia. }
  rewrite E. unfold Qceiling, Qfloor, Qopp. cbn [Qnum Qden].
  pose proof (Z.div_mod k 7). pose proof (Z.mod_pos_bound k 7).
  pose proof (Z.div_mod (- (k + 1)) 7). pose proof (Z.mod_pos_bound (- (k + 1)) 7).
  lia.
Qed.

Lemma supa_week_closed (tz t : Z) :
  0 <= Spec.localDay tz t < 36525 ->
  Supa.getWeekNumberAt tz t = Spec.weekOfYear (Spec.saturdayOf (Spec.localDay tz t)).
Proof.
  intros Hn. destruct (civil_of_day _ Hn) as (Hc & _ & _).
  unfold Supa.getWeekNumberAt, Supa.weekAnchor.
  unfold JSDate.ofLocal, JSDate.setDate, JSDate.getDate, JSDate.getDay, JSDate.getFullYear,
    JSDate.getMonth.
  rewrite !toLocal_fromLocal.
  unfold JSDate.setUTCDate, JSDate.getUTCFullYear, JSDate.getUTCMonth, JSDate.getUTCDate,
    JSDate.getUTCDay, JSDate.UTC.
  fold (Spec.localDay tz t). set (n := Spec.localDay tz t) in *.
  rewrite !utcDay_midnight, !Hc, midnight_mod, Z.add_0_r.
  rewrite ?toLocal_fromLocal, ?utcDay_midnight.
  replace (Cal.dayOf n + 6 - Cal.weekDay n) with (Cal.dayOf n + (6 - Cal.weekDay n)) by lia.
  rewrite daysFromCivil_day, Hc, ?utcDay_midnight.
  replace (n + (6 - Cal.weekDay n)) with (Spec.saturdayOf n)
    by (unfold Spec.saturdayOf, Spec.sundayOf; lia).
  set (s := Spec.saturdayOf n).
  replace (JSDate.fromLocal tz (s * Cal.msPerDay)
           - JSDate.fromLocal tz (Cal.daysFromCivil (Cal.yearOf s) 0 1 * Cal.msPerDay))
    with ((s - Cal.daysFromCivil (Cal.yearOf s) 0 1) * 86400000)
    by (unfold JSDate.fromLocal, Cal.msPerDay; lia).
  apply week_quotient.
Qed.
Lemma weekDay_range (n : Z) : 0 <= Cal.weekDay n < 7.
Proof. unfold Cal.weekDay. apply Z.mod_pos_bound. lia. Qed.

Lemma saturdayOf_weeks (n : Z) : Spec.saturdayOf n = 2 + 7 * ((n + 4) / 7).
Proof.
  unfold Spec.saturdayOf, Spec.sundayOf, Cal.weekDay.
  rewrite (Z.mod_eq (n + 4) 7) by lia. lia.
Qed.

Lemma thursdayOf_weeks (n : Z) : Spec.thursdayOf n = 7 * ((n + 3) / 7).
Proof.
  unfold Spec.thursdayOf, Spec.mondayOf, Cal.weekDay.
  rewrite Zplus_mod_idemp_l.
  replace (n + 4 + 6) with (n + 3 + 1 * 7) by lia.
  rewrite Z.mod_add by lia.
  rewrite (Z.mod_eq (n + 3) 7) by lia. lia.
Qed.

Lemma saturday_weeks_ok (k : Z) : -1 <= k < 5220 -> anchorWeekOk (2 + 7 * k) = true.
Proof.
  intros Hk.
  assert (H : Spec.forRange (Z.to_nat 5221) (-1) (fun k => anchorWeekOk (2 + 7 * k)) = true)
    by (vm_compute; reflexivity).
  apply (forRange_each _ _ k) in H; [exact H|]. rewrite Z2Nat.id; lia.
Qed.

Lemma thursday_weeks_ok (k : Z) : -1 <= k < 5220 -> anchorWeekOk (7 * k) = true.
Proof.
  intros Hk.
  assert (H : Spec.forRange (Z.to_nat 5221) (-1) (fun k => anchorWeekOk (7 * k)) = true)
    by (vm_compute; reflexivity).
  apply (forRange_each _ _ k) in H; [exact H|]. rewrite Z2Nat.id; lia.
Qed.

Lemma years_ok (y : Z) : 1970 <= y < 2070 -> yearOk y = true.
Proof.
  intros Hy.
  assert (H : Spec.forRange 100 1970 yearOk = true) by (vm_compute; reflexivity).
  apply (forRange_each _ _ y) in H; [exact H|]. lia.
Qed.

Lemma anchorWeekOk_inv (a : Z) :
  anchorWeekOk a = true ->
  1 <= Spec.weekOfYear a <= 53 /\
  (Spec.weekOfYear (a + 7) = Spec.weekOfYear a + 1 \/ Spec.weekOfYear (a + 7) = 1).
Proof.
  unfold anchorWeekOk. intros H.
  apply andb_prop in H as [[[H1 H2]%andb_prop H3]%andb_prop _].
  apply Z.leb_le in H1, H2. split; [lia|].
  apply orb_prop in H3 as [H3|H3]; apply Z.eqb_eq in H3; auto.
Qed.

Lemma anchorWeekOk_next (a : Z) :
  anchorWeekOk a = true -> (Spec.weekOfYear a =? Spec.weekOfYear (a + 7)) = false.
Proof.
  unfold anchorWeekOk. intros H.
  apply andb_prop in H as [_ H]. apply negb_true_iff in H.
  now rewrite Z.eqb_sym.
Qed.

Lemma saturday_week (n : Z) :
  0 <= n < 36525 ->
  1 <= Spec.weekOfYear (Spec.saturdayOf n) <= 53 /\
  (Spec.weekOfYear (Spec.saturdayOf (n + 7)) = Spec.weekOfYear (Spec.saturdayOf n) + 1 \/
   Spec.weekOfYear (Spec.saturdayOf (n + 7)) = 1).
Proof.
  intros Hn.
  assert (E : Spec.saturdayOf (n + 7) = Spec.saturdayOf n + 7).
  { rewrite !saturdayOf_weeks. replace (n + 7 + 4) with (n + 4 + 1 * 7) by lia.
    rewrite Z.div_add by lia. lia. }
  rewrite E, saturdayOf_weeks.
  apply anchorWeekOk_inv, saturday_weeks_ok.
  pose proof (Z.div_le_mono 4 (n + 4) 7). pose proof (Z.div_le_mono (n + 4) 36528 7).
  change (4 / 7) with 0 in *. change (36528 / 7) with 5218 in *. lia.
Qed.

Lemma thursday_week (n : Z) :
  0 <= n < 36525 ->
  1 <= Spec.weekOfYear (Spec.thursdayOf n) <= 53 /\
  (Spec.weekOfYear (Spec.thursdayOf (n + 7)) = Spec.weekOfYear (Spec.thursdayOf n) + 1 \/
   Spec.weekOfYear (Spec.thursdayOf (n + 7)) = 1).
Proof.
  intros Hn.
  assert (E : Spec.thursdayOf (n + 7) = Spec.thursdayOf n + 7).
  { rewrite !thursdayOf_weeks. replace (n + 7 + 3) with (n + 3 + 1 * 7) by lia.
    rewrite Z.div_add by lia. lia. }
  rewrite E, thursdayOf_weeks.
  apply anchorWeekOk_inv, thursday_weeks_ok.
  pose proof (Z.div_le_mono 3 (n + 3) 7). pose proof (Z.div_le_mono (n + 3) 36527 7).
  change (3 / 7) with 0 in *. change (36527 / 7) with 5218 in *. lia.
Qed.

Lemma localDay_week_later (tz t : Z) :
  Spec.localDay tz (t + 7 * Cal.msPerDay) = Spec.localDay tz t + 7.
Proof.
  unfold Spec.localDay, JSDate.utcDay, JSDate.toLocal.
  replace (t + 7 * Cal.msPerDay + tz * 60000) with (t + tz * 60000 + 7 * Cal.msPerDay) by lia.
  apply Z.div_add. discriminate.
Qed.

Lemma localDay_ofLocal (tz y m d : Z) :
  Spec.localDay tz (JSDate.ofLocal tz y m d) = Cal.daysFromCivil y m d.
Proof.
  unfold Spec.localDay, JSDate.ofLocal. rewrite toLocal_fromLocal.
  apply utcDay_midnight.
Qed.

(** [getWeekNumber] (Supabase variant), in a time zone at a fixed offset
    from UTC and for local days of the century from 1970-01-01.  The number
    is that of the week of the year in which the Saturday ending the week of
    the date falls, weeks of the year being counted in runs of seven days
    from the first of January; it is between 1 and 53.  The days from a
    Sunday to the Saturday after it have one number.  A week later the
    number is one more, or 1 again.  The first of January is always in
    week 1. *)
Theorem supa_week_number :
  (forall tz t : Z,
     0 <= Spec.localDay tz t < 36525 ->
     Supa.getWeekNumberAt tz t = Spec.weekOfYear (Spec.saturdayOf (Spec.localDay tz t)) /\
     1 <= Supa.getWeekNumberAt tz t <= 53) /\
  (forall tz t t' : Z,
     0 <= Spec.localDay tz t < 36525 -> 0 <= Spec.localDay tz t' < 36525 ->
     Spec.sundayOf (Spec.localDay tz t) = Spec.sundayOf (Spec.localDay tz t') ->
     Supa.getWeekNumberAt tz t = Supa.getWeekNumberAt tz t') /\
  (forall tz t : Z,
     0 <= Spec.localDay tz t < 36525 - 7 ->
     Supa.getWeekNumberAt tz (t + 7 * Cal.msPerDay) = Supa.getWeekNumberAt tz t + 1 \/
     Supa.getWeekNumberAt tz (t + 7 * Cal.msPerDay) = 1) /\
  (forall tz y : Z,
     1970 <= y < 2070 -> Supa.getWeekNumberAt tz (JSDate.ofLocal tz y 0 1) = 1).
Proof.
  repeat split.
  - now apply supa_week_closed.
  - rewrite supa_week_closed by assumption. now apply saturday_week.
  - rewrite supa_week_closed by assumption. now apply saturday_week.
  - intros tz t t' Ht Ht' E. rewrite !supa_week_closed by assumption.
    unfold Spec.saturdayOf. now rewrite E.
  - intros tz t Ht.
    rewrite !supa_week_closed by (rewrite ?localDay_week_later; lia).
    rewrite localDay_week_later. apply saturday_week. lia.
  - intros tz y Hy. pose proof (years_ok y Hy) as H. unfold yearOk in H.
    repeat (apply andb_prop in H; destruct H as [H ?]).
    rewrite supa_week_closed; rewrite localDay_ofLocal; [now apply Z.eqb_eq|lia].
Qed.
Lemma idb_week_closed (tz t : Z) :
  0 <= Spec.localDay tz t < 36525 ->
  Idb.getWeekNumberAt tz t = Spec.weekOfYear (Spec.thursdayOf (Spec.localDay tz t)).
Proof.
  intros Hn. destruct (civil_of_day _ Hn) as (Hc & _ & _).
  unfold Idb.getWeekNumberAt, Idb.weekAnchor.
  unfold JSDate.getDate, JSDate.getFullYear, JSDate.getMonth.
  unfold JSDate.setUTCDate, JSDate.getUTCFullYear, JSDate.getUTCMonth, JSDate.getUTCDate,
    JSDate.getUTCDay, JSDate.UTC.
  fold (Spec.localDay tz t). set (n := Spec.localDay tz t) in *.
  rewrite !utcDay_midnight, !Hc, midnight_mod, Z.add_0_r.
  set (dayNum := if Cal.weekDay n =? 0 then 7 else Cal.weekDay n).
  replace (Cal.dayOf n + 4 - dayNum) with (Cal.dayOf n + (4 - dayNum)) by lia.
  rewrite daysFromCivil_day, Hc, ?utcDay_midnight.
  assert (E : n + (4 - dayNum) = Spec.thursdayOf n).
  { unfold dayNum, Spec.thursdayOf, Spec.mondayOf.
    pose proof (weekDay_range n) as Hw.
    destruct (Z.eqb_spec (Cal.weekDay n) 0) as [->|Hz]; [change ((0 + 6) mod 7) with 6; lia|].
    replace (Cal.weekDay n + 6) with (Cal.weekDay n - 1 + 1 * 7) by lia.
    rewrite Z.mod_add, Z.mod_small by lia. lia. }
  rewrite E. set (s := Spec.thursdayOf n).
  replace (s * Cal.msPerDay - Cal.daysFromCivil (Cal.yearOf s) 0 1 * Cal.msPerDay)
    with ((s - Cal.daysFromCivil (Cal.yearOf s) 0 1) * 86400000)
    by (unfold Cal.msPerDay; lia).
  apply week_quotient.
Qed.

(** [getWeekNumber] (IndexedDB variant), in a time zone at a fixed offset
    from UTC and for local days of the century from 1970-01-01: the ISO 8601
    week number.  The number is that of the week of the year in which the
    Thursday of the week (from Monday) of the date falls; it is between 1
    and 53.  The days from a Monday to the Sunday after it have one number.
    A week later the number is one more, or 1 again.  The fourth of January
    is always in week 1. *)
Theorem idb_week_number :
  (forall tz t : Z,
     0 <= Spec.localDay tz t < 36525 ->
     Idb.getWeekNumberAt tz t = Spec.weekOfYear (Spec.thursdayOf (Spec.localDay tz t)) /\
     1 <= Idb.getWeekNumberAt tz t <= 53) /\
  (forall tz t t' : Z,
     0 <= Spec.localDay tz t < 36525 -> 0 <= Spec.localDay tz t' < 36525 ->
     Spec.mondayOf (Spec.localDay tz t) = Spec.mondayOf (Spec.localDay tz t') ->
     Idb.getWeekNumberAt tz t = Idb.getWeekNumberAt tz t') /\
  (forall tz t : Z,
     0 <= Spec.localDay tz t < 36525 - 7 ->
     Idb.getWeekNumberAt tz (t + 7 * Cal.msPerDay) = Idb.getWeekNumberAt tz t + 1 \/
     Idb.getWeekNumberAt tz (t + 7 * Cal.msPerDay) = 1) /\
  (forall tz y : Z,
     1970 <= y < 2070 -> Idb.getWeekNumberAt tz (JSDate.ofLocal tz y 0 4) = 1).
Proof.
  repeat split.
  - now apply idb_week_closed.
  - rewrite idb_week_closed by assumption. now apply thursday_week.
  - rewrite idb_week_closed by assumption. now apply thursday_week.
  - intros tz t t' Ht Ht' E. rewrite !idb_week_closed by assumption.
    unfold Spec.thursdayOf. now rewrite E.
  - intros tz t Ht.
    rewrite !idb_week_closed by (rewrite ?localDay_week_later; lia).
    rewrite localDay_week_later. apply thursday_week. lia.
  - intros tz y Hy. pose proof (years_ok y Hy) as H. unfold yearOk in H.
    repeat (apply andb_prop in H; destruct H as [H ?]).
    assert (E : Cal.daysFromCivil y 0 4 = Cal.daysFromCivil y 0 1 + 3)
      by (rewrite <- daysFromCivil_day; reflexivity).
    rewrite idb_week_closed; rewrite localDay_ofLocal, E; [now apply Z.eqb_eq|lia].
Qed.

(** Noon UTC of 2026-01-01, seen seven hours behind UTC. *)
Lemma supa_week_number_sample :
  Supa.getWeekNumberAt (-420) newYearNoon
  = Spec.weekOfYear (Spec.saturdayOf (Spec.localDay (-420) newYearNoon)) /\
  1 <= Supa.getWeekNumberAt (-420) newYearNoon <= 53.
Proof.
  apply (proj1 supa_week_number (-420) newYearNoon).
  split; [vm_compute; discriminate|vm_compute; reflexivity].
Defined.

Lemma idb_week_number_sample :
  Idb.getWeekNumberAt (-420) newYearNoon
  = Spec.weekOfYear (Spec.thursdayOf (Spec.localDay (-420) newYearNoon)) /\
  1 <= Idb.getWeekNumberAt (-420) newYearNoon <= 53.
Proof.
  apply (proj1 idb_week_number (-420) newYearNoon).
  split; [vm_compute; discriminate|vm_compute; reflexivity].
Defined.

(** ** The dates of the table *)

Lemma daysInMonth_range (y m : Z) : 28 <= Cal.daysInMonth y m <= 31.
Proof.
  unfold Cal.daysInMonth.
  destruct (m =? 1); [destruct (Cal.isLeap y); lia|].
  destruct ((m =? 3) || (m =? 5) || (m =? 8) || (m =? 10)); lia.
Qed.

Lemma daysFromCivil_bounds (y m d : Z) :
  0 <= m <= 11 -> 1 <= d <= 31 ->
  (y <= 1969 -> Cal.daysFromCivil y m d < 0) /\
  (2070 <= y -> 36525 <= Cal.daysFromCivil y m d).
Proof.
  intros Hm Hd. unfold Cal.daysFromCivil.
  destruct (Z.ltb_spec m 2); Z.div_mod_to_equations; lia.
Qed.

Lemma year_of_day (n : Z) : 0 <= n < 36525 -> 1970 <= Cal.yearOf n < 2070.
Proof.
  intros Hn. destruct (civil_of_day n Hn) as (Hc & Hm & Hd).
  pose proof (daysInMonth_range (Cal.yearOf n) (Cal.monthOf n)).
  destruct (daysFromCivil_bounds (Cal.yearOf n) (Cal.monthOf n) (Cal.dayOf n)); lia.
Qed.
Lemma length_two (s : string) :
  String.length s = 2%nat -> exists a b, s = String a (String b "").
Proof. destruct s as [|a [|b [|? ?]]]; try discriminate. eauto. Qed.

Lemma length_four (s : string) :
  String.length s = 4%nat ->
  exists a b c d, s = String a (String b (String c (String d ""))).
Proof. destruct s as [|a [|b [|c [|d [|? ?]]]]]; try discriminate. eauto 6. Qed.

Lemma padded_places (k : nat) (n : Z) :
  0 <= n ->
  JS.allDigits (JS.padStart0 k (JS.toString n)) = true /\
  JS.parseInt (JS.padStart0 k (JS.toString n)) = n.
Proof.
  intros H. rewrite toString_nonneg by assumption.
  split; [apply padStart0_digits, decimal_digits|].
  unfold JS.parseInt. rewrite padStart0_value. now apply decimal_value.
Qed.

Lemma yearOk_inv (y : Z) :
  1970 <= y < 2070 ->
  String.length (JS.padStart0 4 (JS.toString y)) = 4%nat /\
  Supa.sliceLast2 (JS.toString y) = JS.padStart0 2 (JS.toString (y mod 100)).
Proof.
  intros Hy. pose proof (years_ok y Hy) as H. unfold yearOk in H.
  repeat (apply andb_prop in H; destruct H as [H ?]).
  split; [now apply Nat.eqb_eq|now apply String.eqb_eq].
Qed.

(** The text of a day of the century is read as midnight UTC of that day. *)
Lemma parse_isoDate (n : Z) :
  0 <= n < 36525 -> JSDate.parse (Spec.isoDate n) = Some (n * Cal.msPerDay).
Proof.
  intros Hn. destruct (civil_of_day n Hn) as (Hc & Hm & Hd).
  pose proof (year_of_day n Hn) as Hy.
  pose proof (daysInMonth_range (Cal.yearOf n) (Cal.monthOf n)) as Hdim.
  unfold Spec.isoDate, Cal.yearOf, Cal.monthOf, Cal.dayOf in *.
  destruct (Cal.civilFromDays n) as [[y m] d]. cbn [fst snd] in *.
  destruct (padded_places 4 y) as (Dy & Vy); [lia|].
  destruct (padded_places 2 (m + 1)) as (Dm & Vm); [lia|].
  destruct (padded_places 2 d) as (Dd & Vd); [lia|].
  destruct (yearOk_inv y Hy) as (Ly & _).
  pose proof (two_places (m + 1)) as Lm. pose proof (two_places d) as Ld.
  destruct (length_four _ Ly) as (y1 & y2 & y3 & y4 & Ey).
  destruct (length_two _ (Lm ltac:(lia))) as (m1 & m2 & Em).
  destruct (length_two _ (Ld ltac:(lia))) as (d1 & d2 & Ed).
  rewrite Ey, Em, Ed in *. sapp.
  unfold JSDate.parse. rewrite Dy, Dm, Dd, Vy, Vm, Vd. cbn [andb].
  replace (m + 1 - 1) with m by lia.
  replace ((1 <=? m + 1) && (m + 1 <=? 12) && (1 <=? d) && (d <=? Cal.daysInMonth y m))
    with true by (symmetry; rewrite !andb_true_iff, !Z.leb_le; lia).
  now rewrite Hc.
Qed.

Lemma localDay_of_midnight (tz n : Z) :
  (0 <= tz < 1440 -> Spec.localDay tz (n * Cal.msPerDay) = n) /\
  (-1440 <= tz < 0 -> Spec.localDay tz (n * Cal.msPerDay) = n - 1).
Proof.
  unfold Spec.localDay, JSDate.utcDay, JSDate.toLocal, Cal.msPerDay.
  split; intros Htz.
  - symmetry. apply Z.div_unique with (tz * 60000); lia.
  - symmetry. apply Z.div_unique with (tz * 60000 + 86400000); lia.
Qed.




(** ** The CSV export *)

Lemma includes_app (c : ascii) (a b : string) :
  JS.includes c (a ++ b) = JS.includes c a || JS.includes c b.
Proof.
  induction a as [|d a IH]; sapp; simpl; [reflexivity|].
  now rewrite IH, orb_assoc.
Qed.

Lemma includes_digits (c : ascii) (s : string) :
  JS.isDigit c = false -> JS.allDigits s = true -> JS.includes c s = false.
Proof.
  intros Hc. induction s as [|d s IH]; [reflexivity|].
  rewrite allDigits_cons. intros [Hd Hs]%andb_prop. simpl.
  rewrite (IH Hs), orb_false_r.
  destruct (Ascii.eqb_spec c d) as [->|]; [congruence|reflexivity].
Qed.

(** Splitting at a separator that the pieces do not hold undoes the join. *)
Lemma split_plain (c : ascii) (s : string) :
  JS.includes c s = false -> JS.split c s = [s].
Proof.
  induction s as [|d s IH]; [reflexivity|].
  simpl. intros [Hd Hs]%orb_false_elim. rewrite Hd, (IH Hs). reflexivity.
Qed.

Lemma split_app (c : ascii) (a b : string) :
  JS.includes c a = false -> JS.split c (a ++ String c b) = a :: JS.split c b.
Proof.
  induction a as [|d a IH]; sapp.
  - intros _. simpl. now rewrite Ascii.eqb_refl.
  - simpl. intros [Hd Ha]%orb_false_elim. now rewrite Hd, (IH Ha).
Qed.

Lemma split_join (c : ascii) (pieces : list string) :
  pieces <> [] ->
  Forall (fun s => JS.includes c s = false) pieces ->
  JS.split c (JS.join (String c "") pieces) = pieces.
Proof.
  intros Hne H. induction H as [|x l Hx Hl IH]; [congruence|].
  destruct l as [|y l].
  - simpl. now apply split_plain.
  - change (JS.join (String c "") (x :: y :: l))
      with (x ++ String c "" ++ JS.join (String c "") (y :: l)).
    sapp. rewrite split_app by assumption. now rewrite IH.
Qed.

Lemma includes_join (c : ascii) (sep : string) (pieces : list string) :
  JS.includes c sep = false ->
  Forall (fun s => JS.includes c s = false) pieces ->
  JS.includes c (JS.join sep pieces) = false.
Proof.
  intros Hsep H. induction H as [|x l Hx Hl IH]; [reflexivity|].
  destruct l as [|y l]; [exact Hx|].
  change (JS.join sep (x :: y :: l)) with (x ++ sep ++ JS.join sep (y :: l)).
  now rewrite !includes_app, Hx, Hsep, IH.
Qed.

Lemma includes_toString (c : ascii) (n : Z) :
  JS.isDigit c = false -> c <> "-"%char -> JS.includes c (JS.toString n) = false.
Proof.
  intros Hc Hm. unfold JS.toString.
  destruct (n <? 0); [rewrite includes_app|];
    rewrite ?(includes_digits c (JS.decimal _)) by (assumption || apply decimal_digits).
  - simpl. destruct (Ascii.eqb_spec c "-"); [contradiction|reflexivity].
  - reflexivity.
Qed.

Lemma includes_toFixed (c : ascii) (f : nat) (x : Q) :
  JS.isDigit c = false -> c <> "-"%char -> c <> "."%char ->
  JS.includes c (JS.toFixed (S f) x) = false.
Proof.
  intros Hc Hm Hp.
  destruct (toFixed_text f x) as (d & a & b & -> & Da & Db & _).
  rewrite !includes_app, (includes_digits c _ Hc Da), (includes_digits c _ Hc Db).
  assert (JS.includes c "-" = false)
    by (simpl; destruct (Ascii.eqb_spec c "-"); [contradiction|reflexivity]).
  assert (JS.includes c "." = false)
    by (simpl; destruct (Ascii.eqb_spec c "."); [contradiction|reflexivity]).
  destruct (Qlt_le_dec x 0); rewrite ?H, ?H0; reflexivity.
Qed.

(** The cells of a plain record hold neither the comma nor the line feed. *)
Lemma csvCells_plain (c : ascii) (e : Entry) :
  c = ","%char \/ c = "010"%char ->
  JS.includes c (date e) = false -> JS.includes c (start e) = false ->
  JS.includes c (end_ e) = false ->
  Forall (fun b => JS.includes c (bStart b) = false /\ JS.includes c (bEnd b) = false)
    (breaks e) ->
  Forall (fun s => JS.includes c s = false) (csvCells e).
Proof.
  intros Hc Hd Hs He Hb.
  assert (Dc : JS.isDigit c = false) by (destruct Hc; subst; reflexivity).
  assert (Mc : c <> "-"%char) by (destruct Hc; subst; discriminate).
  assert (Pc : c <> "."%char) by (destruct Hc; subst; discriminate).
  unfold csvCells.
  repeat apply Forall_cons; try apply Forall_nil;
    try assumption; try (now apply includes_toString); try (now apply includes_toFixed).
  apply includes_join; [destruct Hc; subst; reflexivity|].
  apply Forall_map. eapply Forall_impl; [|exact Hb].
  intros b [H1 H2]. cbn beta. rewrite !includes_app, H1, H2.
  destruct Hc; subst; reflexivity.
Qed.

(** [exportToCsv] (the same in all variants).  Nothing is exported for an
    empty collection.  Otherwise the file has the header line and one line
    for each record, in the order of the collection, and every line has the
    sixteen cells of the header; nothing is quoted or escaped, so this is
    so when the texts of the records (the date, the times, the break times)
    hold no comma and no line feed: splitting the file at the line feeds
    and the lines at the commas then gives back the header and the cells of
    the records.  The last line is the file of the sample shift. *)
Theorem exportToCsv_lines_and_cells :
  exportToCsv [] = None /\
  (forall e : Entry, length (csvCells e) = length csvHeader) /\
  (forall entries : list Entry,
     entries <> [] ->
     Forall Spec.plainRecord entries ->
     exists csv,
       exportToCsv entries = Some csv /\
       length (JS.split "010" csv) = S (length entries) /\
       map (JS.split ",") (JS.split "010" csv) = csvHeader :: map csvCells entries) /\
  option_map (JS.split "010") (exportToCsv [Supa.submitEntry (Supa.recalculate supaSample)])
  = Some
      [ "Date,Start,End,Shift Duration (min),Break Duration (min),Working Duration (min),Gross Pay,Net Profit,Hourly Rate (net),Miles Start,Miles End,Miles Driven,Gallons Used,Price/gal,Gas Cost,Breaks";
        "2025-08-25,9:00 AM,5:00 PM,480,30,450,100.00,89.42,11.92,1000.00,1100.00,100.00,3.24,3.27,10.58,12:00 PM-12:30 PM" ].
Proof.
  split; [reflexivity|]. split; [reflexivity|]. split; [|vm_compute; reflexivity].
  intros entries Hne Hplain.
  unfold exportToCsv.
  destruct entries as [|e0 entries]; [congruence|]. cbn [length Nat.eqb].
  eexists. split; [reflexivity|].
  set (all := e0 :: entries) in *.
  assert (Hlines : JS.split "010"
            (JS.join (String "010" "")
               (JS.join "," csvHeader :: map (fun entry => JS.join "," (csvCells entry)) all))
          = JS.join "," csvHeader :: map (fun entry => JS.join "," (csvCells entry)) all).
  { apply split_join; [discriminate|].
    apply Forall_cons; [reflexivity|].
    apply Forall_map. eapply Forall_impl; [|exact Hplain].
    intros e (Hd & Hs & He & Hb). cbn beta.
    apply includes_join; [reflexivity|].
    apply csvCells_plain; try (now right);
      try apply Hd; try apply Hs; try apply He.
    eapply Forall_impl; [|exact Hb]. intros b [[_ H1] [_ H2]]. auto. }
  rewrite Hlines. split; [cbn [length]; now rewrite length_map|].
  cbn [map]. f_equal.
  rewrite map_map. apply map_ext_Forall.
  eapply Forall_impl; [|exact Hplain].
  intros e (Hd & Hs & He & Hb). cbn beta.
  apply split_join; [discriminate|].
  apply csvCells_plain; try (now left);
    try apply Hd; try apply Hs; try apply He.
  eapply Forall_impl; [|exact Hb]. intros b [[H1 _] [H2 _]]. auto.
Qed.

Lemma exportToCsv_sample :
  exists csv,
    exportToCsv [recordOn "2025-08-25"] = Some csv /\
    length (JS.split "010" csv) = 2%nat /\
    map (JS.split ",") (JS.split "010" csv) = csvHeader :: map csvCells [recordOn "2025-08-25"].
Proof.
  apply (proj1 (proj2 (proj2 exportToCsv_lines_and_cells)) [recordOn "2025-08-25"]).
  - discriminate.
  - repeat constructor.
Defined.

(** ** The week of the summary *)






(** ** Editing a record *)

Lemma toFixed0_text (x : Q) :
  exists (c : ascii) (a : string),
    JS.toFixed 0 x = (if Qlt_le_dec x 0 then "-" else "") ++ String c a /\
    JS.allDigits (String c a) = true /\
    JS.digitsValue 0 (String c a) = Qfloor (Qabs x * (Zpos (JS.tenTo 0) # 1) + (1 # 2))%Q.
Proof.
  unfold JS.toFixed.
  set (n := Qfloor _).
  set (m := JS.padStart0 1 (JS.decimal n)).
  pose proof (padStart0_length 1 (JS.decimal n)) as Hlen. fold m in Hlen.
  rewrite Nat.sub_0_r.
  destruct (splitAt_spec (String.length m) m) as [Hm La]; [lia|].
  destruct (JS.splitAt (String.length m) m) as [a b]. simpl in Hm, La.
  assert (Lb : String.length b = 0%nat).
  { assert (E : String.length m = String.length (a ++ b)) by congruence.
    rewrite length_append in E. lia. }
  destruct b; [|discriminate]. rewrite append_nil_r in Hm. subst a.
  assert (Hd : JS.allDigits m = true) by (apply padStart0_digits, decimal_digits).
  destruct m as [|c a] eqn:Em; [simpl in Hlen; lia|].
  exists c, a. rewrite append_nil_r. repeat split; try assumption.
  rewrite <- Em. unfold m. rewrite padStart0_value.
  apply decimal_value, rounded_nonneg.
Qed.

(** Reading back what [toFixed(0)] wrote gives the rounded value. *)
Lemma parseFloat_toFixed0 (x : Q) : JS.parseFloat (JS.toFixed 0 x) = Some (Spec.roundTo 0 x).
Proof.
  destruct (toFixed0_text x) as (c & a & -> & Da & Hv).
  unfold Spec.roundTo. rewrite <- Hv. clear Hv.
  pose proof Da as Dc. rewrite allDigits_cons in Dc. apply andb_prop in Dc as [Dc _].
  pose proof (decimalLiteral_digits c a Da) as Hlit.
  unfold JS.parseFloat.
  destruct (Qlt_le_dec x 0).
  - rewrite append_cons, append_nil_l.
    rewrite trimStart_head by reflexivity.
    erewrite decimalLiteral_minus; [reflexivity| |exact Hlit].
    now apply readSign_digit.
  - rewrite append_nil_l.
    rewrite trimStart_head by now apply digit_not_space.
    rewrite Hlit. reflexivity.
Qed.

Lemma removeAll_plain (c : ascii) (s : string) :
  JS.includes c s = false -> JS.removeAll c s = s.
Proof.
  induction s as [|d s IH]; [reflexivity|].
  simpl. intros [Hd Hs]%orb_false_elim. now rewrite Hd, (IH Hs).
Qed.

Lemma parseCommaNumber_toFixed0 (x : Q) :
  Supa.parseCommaNumber (JS.toFixed 0 x) = Some (Spec.roundTo 0 x).
Proof.
  unfold Supa.parseCommaNumber.
  destruct (toFixed0_text x) as (c & a & E & Da & _).
  assert (F : JS.falsy (JS.toFixed 0 x) = false).
  { rewrite E. destruct (Qlt_le_dec x 0); reflexivity. }
  assert (I : JS.includes "," (JS.toFixed 0 x) = false).
  { rewrite E, includes_app, (includes_digits "," _ eq_refl Da).
    destruct (Qlt_le_dec x 0); reflexivity. }
  rewrite F, (removeAll_plain _ _ I). apply parseFloat_toFixed0.
Qed.

(** The break rows that [editEntry] writes give the breaks of the record
    back, when each has both its times. *)
Lemma breaksOf_rows (bs : list Break) :
  Forall (fun b => JS.falsy (bStart b) = false /\ JS.falsy (bEnd b) = false) bs ->
  Supa.breaksOf (map (fun b => (bStart b, bEnd b)) bs) = bs.
Proof.
  induction 1 as [|[s e] bs [Hs He] _ IH]; [reflexivity|].
  simpl in *. rewrite Hs, He. simpl. now rewrite IH.
Qed.
(** [editEntry] followed by the submit handler (Supabase variant): what
    Update Shift makes of a record opened for editing and submitted as it
    is.  Until the timer of the setup has fired the submit is ignored.
    After it, when the two times of the record validate, the record at the
    index is replaced by one that the form derives afresh and the form goes
    back to add mode; the other records are untouched.  The new record has
    the date, the times and the id of the old one, and its breaks when each
    has both its times; its minute counts are computed anew from the times;
    its gross pay is the old one rounded to cents and its odometer readings
    are the old ones rounded to whole miles; its price per gallon is the
    one shown on the page, not the one of the old record. *)
Theorem edit_then_update (st : State) (i : nat) (e : Entry) :
  entries st !! i = Some e ->
  Supa.validateTimeInput (start e) = true ->
  Supa.validateTimeInput (end_ e) = true ->
  let st1 := Supa.editEntry i st in
  let st3 := Supa.submit (Supa.step st1 Supa.EditSetupDone) in
  Supa.submit st1 = st1 /\
  exists e',
    entries st3 = <[i := e']> (entries st) /\
    editingIndex st3 = -1 /\ form st3 = Supa.resetFormFields /\
    date e' = date e /\ start e' = start e /\ end_ e' = end_ e /\ dbId e' = dbId e /\
    (Forall (fun b => JS.falsy (bStart b) = false /\ JS.falsy (bEnd b) = false) (breaks e) ->
     breaks e' = breaks e) /\
    shiftMinutes e' = Supa.calculateTimeDifferenceMinutes (start e) (end_ e) /\
    Spec.workingMinutesOk e' /\
    gross e' = Spec.roundTo 2 (gross e) /\
    milesStart e' = Spec.roundTo 0 (milesStart e) /\
    milesEnd e' = Spec.roundTo 0 (milesEnd e) /\
    pricePerGal e'
    = JS.orZero (JS.parseFloat (JS.removeFirst "$" (dollarsPerGalInput (form st)))).
Proof.
  intros He Hs Hend st1 st3.
  assert (E1 : st1 = Supa.editEntry i st) by reflexivity.
  unfold Supa.editEntry in E1. rewrite He in E1.
  split; [rewrite E1; reflexivity|].
  set (f1 := form st1).
  assert (Ef : f1 = form st1) by reflexivity.
  rewrite E1 in Ef. cbn [form] in Ef.
  exists (Supa.withId (Supa.submitEntry f1) (dbId e)).
  assert (E3 : st3 = Supa.resetForm
                       {| entries := <[i := Supa.withId (Supa.submitEntry f1) (dbId e)]> (entries st);
                          editingIndex := Z.of_nat i;
                          isSettingUpEdit := false;
                          form := f1 |}).
  { unfold st3, Supa.submit. rewrite E1.
    cbn [Supa.step isSettingUpEdit form entries editingIndex].
    rewrite <- Ef.
    replace (startTimeInput f1) with (start e) by (rewrite Ef; reflexivity).
    replace (endTimeInput f1) with (end_ e) by (rewrite Ef; reflexivity).
    rewrite Hs, Hend. cbn [negb orb].
    replace (Z.of_nat i >=? 0) with true by (symmetry; apply Z.geb_le; lia).
    rewrite Nat2Z.id, He. reflexivity. }
  rewrite E3. cbn [Supa.resetForm entries editingIndex form].
  split; [reflexivity|]. split; [reflexivity|]. split; [reflexivity|].
  split; [rewrite Ef; reflexivity|]. split; [rewrite Ef; reflexivity|].
  split; [rewrite Ef; reflexivity|]. split; [reflexivity|].
  split.
  { intros Hb. cbn [Supa.withId breaks Supa.submitEntry].
    replace (breaksContainer f1) with (map (fun b => (bStart b, bEnd b)) (breaks e))
      by (rewrite Ef; reflexivity).
    now apply breaksOf_rows. }
  split; [rewrite Ef; reflexivity|].
  split; [apply (submitEntry_workingMinutes f1)|].
  cbn [Supa.withId Supa.submitEntry gross milesStart milesEnd pricePerGal].
  replace (netEarningsInput f1) with (JS.toFixed 2 (gross e)) by (rewrite Ef; reflexivity).
  replace (milesStartInput f1) with (JS.toFixed 0 (milesStart e)) by (rewrite Ef; reflexivity).
  replace (milesEndInput f1) with (JS.toFixed 0 (milesEnd e)) by (rewrite Ef; reflexivity).
  replace (dollarsPerGalInput f1) with (dollarsPerGalInput (form st)) by (rewrite Ef; reflexivity).
  rewrite parseFloat_toFixed, !parseCommaNumber_toFixed0. auto.
Qed.

Lemma edit_then_update_sample :
  let st1 := Supa.editEntry 0 twoRecordState in
  let st3 := Supa.submit (Supa.step st1 Supa.EditSetupDone) in
  Supa.submit st1 = st1 /\
  exists e',
    entries st3 = <[0%nat := e']> (entries twoRecordState) /\
    editingIndex st3 = -1 /\ form st3 = Supa.resetFormFields /\
    date e' = "2025-08-25" /\ start e' = "9:00 AM" /\ end_ e' = "11:00 AM" /\ dbId e' = None /\
    (Forall (fun b => JS.falsy (bStart b) = false /\ JS.falsy (bEnd b) = false) [] ->
     breaks e' = []) /\
    shiftMinutes e' = Supa.calculateTimeDifferenceMinutes "9:00 AM" "11:00 AM" /\
    Spec.workingMinutesOk e' /\
    gross e' = Spec.roundTo 2 60 /\
    milesStart e' = Spec.roundTo 0 1000 /\
    milesEnd e' = Spec.roundTo 0 1094 /\
    pricePerGal e'
    = JS.orZero (JS.parseFloat (JS.removeFirst "$" (dollarsPerGalInput (form twoRecordState)))).
Proof.
  apply (edit_then_update twoRecordState 0 (recordOn "2025-08-25")); reflexivity.
Defined.

(** ** The service worker *)

Section ServiceWorkerFacts.

Context {Response : Type} (ok : Response -> bool).

Lemma delete_all (keys : list string) (caches : ServiceWorker.CacheStorage Response) :
  fold_left (fun remaining key => ServiceWorker.cachesDelete Response key remaining) keys caches
  = List.filter (fun kc => negb (existsb (String.eqb (fst kc)) keys)) caches.
Proof.
  revert caches. induction keys as [|key keys IH]; intros caches; cbn [fold_left].
  - symmetry. apply forallb_filter_id. now apply forallb_forall.
  - rewrite IH. unfold ServiceWorker.cachesDelete.
    induction caches as [|kc caches IHc]; [reflexivity|].
    cbn [List.filter existsb].
    destruct (String.eqb (fst kc) key); cbn [negb orb List.filter]; rewrite IHc;
      [reflexivity|].
    now destruct (existsb _ keys).
Qed.

(** After [activate] the caches left are those of this version, in their
    order. *)
Lemma activate_filter (caches : ServiceWorker.CacheStorage Response) :
  ServiceWorker.activate Response caches
  = List.filter (fun kc => String.eqb (fst kc) ServiceWorker.CACHE_NAME) caches.
Proof.
  unfold ServiceWorker.activate. rewrite delete_all.
  apply filter_ext_in. intros [key cache] Hin. cbn [fst].
  destruct (String.eqb_spec key ServiceWorker.CACHE_NAME) as [->|Hne].
  - apply negb_true_iff. apply not_true_is_false. intros H.
    apply existsb_exists in H as (k & Hk & E). apply String.eqb_eq in E. subst k.
    apply filter_In in Hk as [_ Hk]. now rewrite String.eqb_refl in Hk.
  - apply negb_false_iff. apply existsb_exists. exists key. split.
    + apply filter_In. split; [apply in_map_iff; now exists (key, cache)|].
      apply negb_true_iff. now apply String.eqb_neq.
    + apply String.eqb_refl.
Qed.

Lemma cachesOpen_has (name : string) (caches : ServiceWorker.CacheStorage Response) :
  ServiceWorker.cachesHas Response name (ServiceWorker.cachesOpen Response name caches) = true.
Proof.
  unfold ServiceWorker.cachesOpen.
  destruct (ServiceWorker.cachesHas Response name caches) eqn:E; [exact E|].
  unfold ServiceWorker.cachesHas. rewrite existsb_app. cbn [existsb fst].
  now rewrite String.eqb_refl, orb_true_r.
Qed.

(** The cache of this version, once changed, is the first one left by
    [activate]. *)
Lemma activate_withCache (change : ServiceWorker.Cache Response -> ServiceWorker.Cache Response)
    (caches : ServiceWorker.CacheStorage Response) :
  ServiceWorker.cachesHas Response ServiceWorker.CACHE_NAME caches = true ->
  exists cache rest,
    ServiceWorker.activate Response
      (ServiceWorker.withCache Response ServiceWorker.CACHE_NAME change caches)
    = (ServiceWorker.CACHE_NAME, change cache) :: rest.
Proof.
  rewrite activate_filter. unfold ServiceWorker.cachesHas.
  induction caches as [|[key cache] caches IH]; [discriminate|].
  cbn [existsb fst ServiceWorker.withCache].
  destruct (String.eqb_spec key ServiceWorker.CACHE_NAME) as [->|Hne].
  - intros _. cbn [List.filter fst]. rewrite String.eqb_refl. eauto.
  - cbn [orb]. intros H. cbn [List.filter fst].
    replace (String.eqb key ServiceWorker.CACHE_NAME) with false
      by (symmetry; now apply String.eqb_neq).
    now apply IH.
Qed.

Lemma fetchAll_inv (network : ServiceWorker.Network Response) (urls : list string)
    (responses : list (string * Response)) :
  ServiceWorker.fetchAll Response ok network urls = Some responses ->
  map fst responses = urls /\
  Forall (fun ur => network (fst ur) = Some (snd ur) /\ ok (snd ur) = true) responses.
Proof.
  revert responses. induction urls as [|url urls IH]; intros responses; cbn.
  - intros [= <-]. auto.
  - destruct (network url) as [r|] eqn:Hr; [|discriminate].
    destruct (ok r) eqn:Hok; [|discriminate].
    destruct (ServiceWorker.fetchAll Response ok network urls) as [rs|]; [|discriminate].
    intros [= <-]. destruct (IH rs eq_refl) as [Hm Hf].
    cbn. split; [now rewrite Hm|]. apply Forall_cons; auto.
Qed.

Lemma putAll_keeps (network : ServiceWorker.Network Response)
    (responses : list (string * Response)) (cache : ServiceWorker.Cache Response) (url : string) :
  Forall (fun ur => network (fst ur) = Some (snd ur) /\ ok (snd ur) = true) responses ->
  cache !! url = network url ->
  ServiceWorker.putAll Response responses cache !! url = network url.
Proof.
  unfold ServiceWorker.putAll. intros H. revert cache.
  induction H as [|[u r] rs [Hu _] _ IH]; intros cache Hc; [exact Hc|].
  cbn [fold_left fst snd] in *. apply IH.
  unfold ServiceWorker.Cache in *.
  destruct (decide (u = url)) as [->|Hne].
  - now rewrite lookup_insert_eq.
  - now rewrite lookup_insert_ne.
Qed.

Lemma putAll_lookup (network : ServiceWorker.Network Response)
    (responses : list (string * Response)) (cache : ServiceWorker.Cache Response) (url : string) :
  Forall (fun ur => network (fst ur) = Some (snd ur) /\ ok (snd ur) = true) responses ->
  In url (map fst responses) ->
  ServiceWorker.putAll Response responses cache !! url = network url.
Proof.
  intros H. revert cache.
  induction H as [|[u r] rs [Hu Hok] Hrs IH]; intros cache Hin; [destruct Hin|].
  cbn [map fst In] in Hin. cbn [fst snd] in Hu.
  destruct (decide (u = url)) as [->|Hne].
  - change (ServiceWorker.putAll Response ((url, r) :: rs) cache)
      with (ServiceWorker.putAll Response rs (<[url := r]> cache)).
    apply putAll_keeps; [exact Hrs|].
    unfold ServiceWorker.Cache in *. now rewrite lookup_insert_eq.
  - destruct Hin as [|Hin]; [contradiction|].
    change (ServiceWorker.putAll Response ((u, r) :: rs) cache)
      with (ServiceWorker.putAll Response rs (<[u := r]> cache)).
    now apply IH.
Qed.

(** The service worker, from [install] over [activate] to [fetch]: the
    application shell offline.  When the installation succeeds, every asset
    of the shell was fetched with an ok response; after the activation only
    caches of this version are left, and every GET of an asset is answered
    with the response fetched at the installation, whatever the network
    would give by then (the assets are not fetched again).  With the network
    down every GET is answered: from the cache, or with the cached
    [/index.html].  A request that is not a GET is not handled. *)
Theorem offline_shell (network : ServiceWorker.Network Response)
    (caches installed : ServiceWorker.CacheStorage Response) :
  ServiceWorker.install Response ok network caches = (installed, true) ->
  let active := ServiceWorker.activate Response installed in
  (forall key cache, In (key, cache) active -> key = ServiceWorker.CACHE_NAME) /\
  (forall asset,
     In asset ServiceWorker.ASSETS_TO_CACHE ->
     exists response,
       network asset = Some response /\ ok response = true /\
       forall later : ServiceWorker.Network Response,
         ServiceWorker.onFetch Response later active "GET" asset
         = ServiceWorker.RespondWith Response (Some response)) /\
  (forall url,
     exists response,
       ServiceWorker.onFetch Response (fun _ => None) active "GET" url
       = ServiceWorker.RespondWith Response (Some response)) /\
  (forall (later : ServiceWorker.Network Response) (method url : string),
     method <> "GET" ->
     ServiceWorker.onFetch Response later active method url
     = ServiceWorker.NotHandled Response).
Proof.
  unfold ServiceWorker.install. cbv zeta.
  destruct (ServiceWorker.fetchAll Response ok network ServiceWorker.ASSETS_TO_CACHE)
    as [responses|] eqn:Hfetch; [|discriminate].
  intros [= <-]. set (active := ServiceWorker.activate Response _).
  destruct (fetchAll_inv _ _ _ Hfetch) as [Hurls Hresp].
  destruct (activate_withCache (ServiceWorker.putAll Response responses)
              (ServiceWorker.cachesOpen Response ServiceWorker.CACHE_NAME caches)
              (cachesOpen_has _ _)) as (cache & rest & Hactive).
  fold active in Hactive.
  assert (Hasset : forall asset,
            In asset ServiceWorker.ASSETS_TO_CACHE ->
            exists response,
              network asset = Some response /\ ok response = true /\
              ServiceWorker.cachesMatch Response asset active = Some response).
  { intros asset Hin. rewrite <- Hurls in Hin.
    pose proof (putAll_lookup network responses cache asset Hresp Hin) as Hl.
    apply in_map_iff in Hin as ([u r] & <- & Hin).
    rewrite Forall_forall in Hresp. destruct (Hresp _ Hin) as [Hu Hok].
    cbn [fst snd] in *. exists r. rewrite Hu in Hl.
    rewrite Hactive. cbn [ServiceWorker.cachesMatch]. now rewrite Hl. }
  split; [|split; [|split]].
  - intros key cache' Hin. unfold active in Hin. rewrite activate_filter in Hin.
    apply filter_In in Hin as [_ Hk]. now apply String.eqb_eq in Hk.
  - intros asset Hin. destruct (Hasset asset Hin) as (r & Hn & Hok & Hm).
    exists r. repeat split; try assumption.
    intros later. unfold ServiceWorker.onFetch. cbn [String.eqb Ascii.eqb Bool.eqb negb andb].
    now rewrite Hm.
  - intros url. unfold ServiceWorker.onFetch. cbn [String.eqb Ascii.eqb Bool.eqb negb andb].
    destruct (ServiceWorker.cachesMatch Response url active) as [r|]; [eauto|].
    destruct (Hasset "/index.html") as (r & _ & _ & Hm); [cbn; auto|].
    exists r. now rewrite Hm.
  - intros later method url Hne. unfold ServiceWorker.onFetch.
    replace (String.eqb method "GET") with false by (symmetry; now apply String.eqb_neq).
    reflexivity.
Qed.

End ServiceWorkerFacts.

(** A network that answers every URL, the response being the URL itself,
    and a storage that holds the cache of an older version. *)
Lemma offline_shell_sample :
  let network : ServiceWorker.Network string := fun url => Some url in
  let installed :=
    fst (ServiceWorker.install string (fun _ => true) network [("dashtrack-cache-v0", ∅)]) in
  let active := ServiceWorker.activate string installed in
  (forall key cache, In (key, cache) active -> key = ServiceWorker.CACHE_NAME) /\
  (forall asset,
     In asset ServiceWorker.ASSETS_TO_CACHE ->
     exists response,
       network asset = Some response /\ (fun _ : string => true) response = true /\
       forall later : ServiceWorker.Network string,
         ServiceWorker.onFetch string later active "GET" asset
         = ServiceWorker.RespondWith string (Some response)) /\
  (forall url,
     exists response,
       ServiceWorker.onFetch string (fun _ => None) active "GET" url
       = ServiceWorker.RespondWith string (Some response)) /\
  (forall (later : ServiceWorker.Network string) (method url : string),
     method <> "GET" ->
     ServiceWorker.onFetch string later active method url
     = ServiceWorker.NotHandled string).
Proof.
  intros network installed.
  apply (offline_shell (fun _ => true) network [("dashtrack-cache-v0", ∅)] installed).
  reflexivity.
Defined.

(** ** Blank times *)

Lemma trim_blank (v : string) : JS.falsy (JS.trim v) = true <-> JS.allSpaces v = true.
Proof.
  split.
  - intros H. destruct (trim_split v) as (lead & trail & Hv & Hl & Ht).
    destruct (JS.trim v); [|discriminate].
    rewrite Hv, append_nil_l, allSpaces_app, Hl, Ht. reflexivity.
  - intros H. unfold JS.trim.
    pose proof (trimStart_spaces v "" H) as E. rewrite append_nil_r in E.
    rewrite E. reflexivity.
Qed.

Lemma parseTimeToMinutes_blank (v : string) :
  JS.allSpaces v = true -> Supa.parseTimeToMinutes v = None.
Proof.
  intros H. unfold Supa.parseTimeToMinutes.
  destruct (JS.falsy v); [reflexivity|].
  apply trim_blank in H. destruct (JS.trim v); [reflexivity|discriminate].
Qed.

Lemma duration_of_blank (a b : string) :
  JS.allSpaces a = true \/ JS.allSpaces b = true ->
  Supa.calculateTimeDifferenceMinutes a b = 0.
Proof.
  intros H. unfold Supa.calculateTimeDifferenceMinutes.
  destruct (JS.falsy a || JS.falsy b); [reflexivity|].
  destruct H as [H|H]; rewrite (parseTimeToMinutes_blank _ H);
    [reflexivity|now destruct (Supa.parseTimeToMinutes a)].
Qed.

Lemma submit_refuses (st : State) :
  Supa.validateTimeInput (startTimeInput (form st)) = false \/
  Supa.validateTimeInput (endTimeInput (form st)) = false ->
  Supa.submit st = st.
Proof.
  intros H. unfold Supa.submit.
  destruct (isSettingUpEdit st); [reflexivity|].
  destruct H as [-> | ->]; cbn [negb orb]; [reflexivity|].
  now rewrite orb_true_r.
Qed.

(** [validateTimeInput] and the submit handler (Supabase variant): what the
    validation lets through.  A time input validates when it is blank or
    parses as a time.  When one of the two does not validate the submit
    changes nothing.  A blank start or end passes the validation: in add
    mode the shift is recorded, with a duration of 0 minutes and an hourly
    rate of 0. *)
Theorem submit_validates_times :
  (forall v : string,
     Supa.validateTimeInput v = true <->
     JS.allSpaces v = true \/ exists x, Supa.parseTimeToMinutes v = Some x) /\
  (forall st : State,
     Supa.validateTimeInput (startTimeInput (form st)) = false \/
     Supa.validateTimeInput (endTimeInput (form st)) = false ->
     Supa.submit st = st) /\
  (forall st : State,
     isSettingUpEdit st = false -> editingIndex st < 0 ->
     Supa.validateTimeInput (startTimeInput (form st)) = true ->
     Supa.validateTimeInput (endTimeInput (form st)) = true ->
     JS.allSpaces (startTimeInput (form st)) = true \/
     JS.allSpaces (endTimeInput (form st)) = true ->
     exists e,
       entries (Supa.submit st) = (entries st ++ [e])%list /\
       date e = dateInput (form st) /\
       shiftMinutes e = 0 /\ workingMinutes e = 0 /\ hourly e = 0%Q) /\
  Supa.validateTimeInput "" = true /\ Supa.validateTimeInput "  " = true /\
  Supa.validateTimeInput "9:00" = false /\ Supa.validateTimeInput "9:00 am" = true.
Proof.
  split; [|split; [|split; [|repeat split; reflexivity]]].
  - intros v. unfold Supa.validateTimeInput.
    destruct (JS.falsy (JS.trim v)) eqn:E.
    + apply trim_blank in E. tauto.
    + assert (Hn : JS.allSpaces v <> true) by (rewrite <- trim_blank; congruence).
      destruct (Supa.parseTimeToMinutes v) as [x|].
      * split; [intros _; right; eauto|reflexivity].
      * split; [discriminate|intros [H|[x H]]; [contradiction|discriminate]].
  - exact submit_refuses.
  - intros st Hs Hi Hv1 Hv2 Hblank. unfold Supa.submit.
    rewrite Hs, Hv1, Hv2. cbn [negb orb].
    replace (editingIndex st >=? 0) with false
      by (symmetry; rewrite Z.geb_leb; apply Z.leb_gt; lia).
    eexists. cbn [Supa.resetForm entries]. split; [reflexivity|].
    split; [reflexivity|].
    assert (E : Supa.calculateTimeDifferenceMinutes (startTimeInput (form st))
                  (endTimeInput (form st)) = 0) by now apply duration_of_blank.
    pose proof (getTotalBreakMinutes_nonneg (breaksContainer (form st))) as Hb.
    cbn [Supa.submitEntry shiftMinutes workingMinutes hourly form]. rewrite E.
    split; [reflexivity|].
    assert (W : Z.max (0 - Supa.getTotalBreakMinutes (breaksContainer (form st))) 0 = 0)
      by lia.
    rewrite W. auto.
Qed.

Lemma submit_validates_times_sample :
  exists e,
    entries (Supa.submit twoRecordState) = (entries twoRecordState ++ [e])%list /\
    date e = dateInput (form twoRecordState) /\
    shiftMinutes e = 0 /\ workingMinutes e = 0 /\ hourly e = 0%Q.
Proof.
  apply (proj1 (proj2 (proj2 submit_validates_times)) twoRecordState);
    try reflexivity. now left.
Defined.


(** ** Breaks *)

Lemma breakFold_shift (rows : list (string * string)) (acc : Z) :
  fold_left
    (fun total row =>
       let '(start, end_) := row in
       if negb (JS.falsy start) && negb (JS.falsy end_)
       then total + Supa.calculateTimeDifferenceMinutes start end_
       else total)
    rows acc
  = acc + Supa.getTotalBreakMinutes rows.
Proof.
  unfold Supa.getTotalBreakMinutes. revert acc.
  induction rows as [|[a b] rows IH]; intros acc; cbn [fold_left]; [lia|].
  destruct (negb (JS.falsy a) && negb (JS.falsy b)); [|apply IH].
  rewrite (IH (acc + _)), (IH (0 + _)). lia.
Qed.

Lemma getTotalBreakMinutes_cons (row : string * string) (rows : list (string * string)) :
  Supa.getTotalBreakMinutes (row :: rows)
  = (if negb (JS.falsy (fst row)) && negb (JS.falsy (snd row))
     then Supa.calculateTimeDifferenceMinutes (fst row) (snd row) else 0)
    + Supa.getTotalBreakMinutes rows.
Proof.
  destruct row as [a b]. unfold Supa.getTotalBreakMinutes at 1. cbn [fold_left fst snd].
  rewrite breakFold_shift. destruct (negb (JS.falsy a) && negb (JS.falsy b)); lia.
Qed.

(** [getTotalBreakMinutes] (Supabase variant): the breaks add up row by
    row.  A row counts with the duration between its two times, taken a day
    later when the end is before the start, and with nothing when one of its
    inputs is empty or does not parse; so the total is at least 0 and below
    24 hours for each row.  Nothing looks at whether breaks overlap or lie
    within the shift: the total of two runs of rows is the sum of the two
    totals, a row entered twice counts twice, and the order of the rows does
    not matter. *)
Theorem break_minutes_add_up :
  (forall rows1 rows2,
     Supa.getTotalBreakMinutes (rows1 ++ rows2)%list
     = Supa.getTotalBreakMinutes rows1 + Supa.getTotalBreakMinutes rows2) /\
  (forall rows,
     0 <= Supa.getTotalBreakMinutes rows <= 1439 * Z.of_nat (length rows)) /\
  (forall a b rows,
     JS.falsy a = true \/ JS.falsy b = true \/
     Supa.parseTimeToMinutes a = None \/ Supa.parseTimeToMinutes b = None ->
     Supa.getTotalBreakMinutes ((a, b) :: rows) = Supa.getTotalBreakMinutes rows) /\
  (forall rows1 rows2,
     Permutation rows1 rows2 ->
     Supa.getTotalBreakMinutes rows1 = Supa.getTotalBreakMinutes rows2) /\
  Supa.getTotalBreakMinutes [("12:00 PM", "12:30 PM"); ("12:00 PM", "12:30 PM")] = 60 /\
  Supa.getTotalBreakMinutes [("11:50 PM", "12:10 AM"); ("1:00 PM", "")] = 20.
Proof.
  split; [|split; [|split; [|split; [|split; reflexivity]]]].
  - intros rows1 rows2. unfold Supa.getTotalBreakMinutes at 1.
    rewrite fold_left_app, breakFold_shift. reflexivity.
  - induction rows as [|row rows IH]; [cbn; lia|].
    rewrite getTotalBreakMinutes_cons.
    pose proof (calculateTimeDifferenceMinutes_range (fst row) (snd row)).
    cbn [length]. destruct (_ && _); lia.
  - intros a b rows H. rewrite getTotalBreakMinutes_cons. cbn [fst snd].
    destruct H as [H|[H|H]]; rewrite ?H; cbn [negb andb]; rewrite ?andb_false_r; [lia..|].
    destruct (negb (JS.falsy a) && negb (JS.falsy b)); [|lia].
    unfold Supa.calculateTimeDifferenceMinutes.
    destruct (JS.falsy a || JS.falsy b); [lia|].
    destruct H as [->| ->]; [lia|]. destruct (Supa.parseTimeToMinutes a); lia.
  - induction 1 as [|row l l' _ IH|r1 r2 l|l l' l'' _ IH1 _ IH2].
    + reflexivity.
    + rewrite !getTotalBreakMinutes_cons. lia.
    + rewrite !getTotalBreakMinutes_cons. lia.
    + congruence.
Qed.

Lemma break_minutes_sample :
  Supa.getTotalBreakMinutes [("1:00 PM", ""); ("12:00 PM", "12:30 PM")]
  = Supa.getTotalBreakMinutes [("12:00 PM", "12:30 PM")].
Proof.
  apply (proj1 (proj2 (proj2 break_minutes_add_up)) "1:00 PM" "" [("12:00 PM", "12:30 PM")]).
  right. left. reflexivity.
Defined.


(** ** The Delete Shift button *)

(** [editEntry] and the handler of the Delete Shift button (Supabase
    variant): which record the button deletes.  With one record opened for
    editing the button deletes that record and the form goes back to add
    mode.  When a second record is opened before the form has been
    submitted or reset, the form shows the second record and the update
    goes to it, but the button is the one made for the first: it deletes the
    first record.  (The event [DeleteEdited] of the page in use is this
    click after one record has been opened.) *)
Theorem delete_button_keeps_its_first_index (st : State) (i j : nat) (ei ej : Entry) :
  entries st !! i = Some ei ->
  entries st !! j = Some ej ->
  let fresh := {| Supa.page := st; Supa.deleteBtn := None |} in
  let once := Supa.editClick i fresh in
  let twice := Supa.editClick j once in
  entries (Supa.page (Supa.deleteClick once)) = delete i (entries st) /\
  Supa.page (Supa.deleteClick once) = Supa.step (Supa.page once) Supa.DeleteEdited /\
  editingIndex (Supa.page (Supa.deleteClick once)) = -1 /\
  Supa.deleteBtn (Supa.deleteClick once) = None /\
  editingIndex (Supa.page twice) = Z.of_nat j /\
  dateInput (form (Supa.page twice)) = date ej /\
  startTimeInput (form (Supa.page twice)) = start ej /\
  Supa.deleteBtn twice = Some i /\
  entries (Supa.page (Supa.deleteClick twice)) = delete i (entries st) /\
  (i <> j -> entries (Supa.page (Supa.deleteClick twice)) !! (if (i <? j)%nat then (j - 1)%nat else j) = Some ej).
Proof.
  intros Hi Hj fresh once twice.
  assert (E1 : once = {| Supa.page := Supa.editEntry i st; Supa.deleteBtn := Some i |}).
  { unfold once, Supa.editClick, fresh. cbn [Supa.page Supa.deleteBtn]. now rewrite Hi. }
  assert (Hent : forall k s, entries (Supa.editEntry k s) = entries s).
  { intros k s. unfold Supa.editEntry. now destruct (entries s !! k). }
  assert (E2 : twice = {| Supa.page := Supa.editEntry j (Supa.editEntry i st);
                          Supa.deleteBtn := Some i |}).
  { unfold twice, Supa.editClick. rewrite E1. cbn [Supa.page Supa.deleteBtn].
    now rewrite Hent, Hj. }
  assert (E3 : Supa.editEntry j (Supa.editEntry i st)
               = Supa.editEntry j (Supa.editEntry i st)) by reflexivity.
  unfold Supa.editEntry at 1 in E3. rewrite Hent, Hj in E3.
  rewrite E1, E2. unfold Supa.deleteClick. cbn [Supa.page Supa.deleteBtn Supa.resetForm entries editingIndex].
  rewrite !Hent.
  split; [reflexivity|].
  split.
  { unfold Supa.editEntry. rewrite Hi. cbn [Supa.step entries editingIndex isSettingUpEdit form].
    now rewrite Nat2Z.id. }
  split; [reflexivity|]. split; [reflexivity|].
  rewrite <- E3. cbn [editingIndex form].
  split; [reflexivity|]. split; [reflexivity|]. split; [reflexivity|].
  split; [reflexivity|]. split; [reflexivity|].
  intros Hne. destruct (Nat.ltb_spec i j) as [Hlt|Hge].
  - rewrite list_lookup_delete_ge by lia. replace (S (j - 1)) with j by lia. exact Hj.
  - rewrite list_lookup_delete_lt by lia. exact Hj.
Qed.

Lemma delete_button_sample :
  let fresh := {| Supa.page := twoRecordState; Supa.deleteBtn := None |} in
  let twice := Supa.editClick 1 (Supa.editClick 0 fresh) in
  dateInput (form (Supa.page twice)) = "2025-08-26" /\
  entries (Supa.page (Supa.deleteClick twice)) = [recordOn "2025-08-26"].
Proof.
  intros fresh twice.
  destruct (delete_button_keeps_its_first_index twoRecordState 0 1
              (recordOn "2025-08-25") (recordOn "2025-08-26") eq_refl eq_refl)
    as (_ & _ & _ & _ & _ & Hd & _ & _ & He & _).
  split; [exact Hd|exact He].
Defined.


(** ** A restore that fails on the way *)





(** ** Durations between time inputs (IndexedDB variant) *)

(** [calculateTimeDifferenceMinutes] and [getTotalBreakMinutes] (IndexedDB
    variant) on the values of time inputs.  From [HH:MM] to [HH:MM] the
    duration is the difference of the two minutes of the day modulo 24
    hours: a number from 0 to 1439, 0 between equal times.  An input left
    empty gives 0.  The breaks are a whole number of minutes, zero or
    more.  A text that is not made of numbers around a colon gives no
    number (NaN). *)
Theorem idb_durations_of_time_inputs :
  (forall h1 m1 h2 m2 : Z,
     0 <= h1 < 24 -> 0 <= m1 < 60 -> 0 <= h2 < 24 -> 0 <= m2 < 60 ->
     Idb.calculateTimeDifferenceMinutes (Spec.clock h1 m1) (Spec.clock h2 m2)
     = Some (inject_Z ((h2 * 60 + m2 - (h1 * 60 + m1)) mod 1440))) /\
  (forall a b : string,
     a = "" \/ b = "" -> Idb.calculateTimeDifferenceMinutes a b = Some 0%Q) /\
  (forall rows : list (string * string),
     Forall (fun row => Spec.timeInputValue (fst row) /\ Spec.timeInputValue (snd row)) rows ->
     exists total, 0 <= total /\ Idb.getTotalBreakMinutes rows = Some (inject_Z total)) /\
  Idb.calculateTimeDifferenceMinutes "23:00" "01:00" = Some (inject_Z 120) /\
  Idb.calculateTimeDifferenceMinutes "9:00 AM" "5:00 PM" = None.
Proof.
  split; [|split; [|split; [|split; reflexivity]]].
  - intros h1 m1 h2 m2 H1 H2 H3 H4. rewrite idb_difference_of_clocks by assumption.
    do 2 f_equal. unfold Spec.rollover.
    destruct (Z.ltb_spec (h2 * 60 + m2 - (h1 * 60 + m1)) 0).
    + apply Z.mod_unique with (-1); lia.
    + apply Z.mod_unique with 0; lia.
  - intros a b [-> | ->]; unfold Idb.calculateTimeDifferenceMinutes;
      [reflexivity|now rewrite orb_true_r].
  - intros rows H. unfold Idb.getTotalBreakMinutes.
    apply (idb_breakFold rows 0); [lia|exact H].
Qed.

Lemma idb_durations_sample :
  Idb.calculateTimeDifferenceMinutes (Spec.clock 23 0) (Spec.clock 1 0)
  = Some (inject_Z ((1 * 60 + 0 - (23 * 60 + 0)) mod 1440)).
Proof. apply (proj1 idb_durations_of_time_inputs 23 0 1 0); lia. Defined.


(** ** The week of the summary and the time zone *)

Lemma weekDay_before (n : Z) (d : Z) :
  1 <= d <= 6 -> Cal.weekDay n = d -> Cal.weekDay (n - 1) = d - 1.
Proof.
  unfold Cal.weekDay. intros Hd H.
  pose proof (Z.div_mod (n + 4) 7 ltac:(lia)) as E. rewrite H in E.
  symmetry. apply Z.mod_unique with ((n + 4) / 7); lia.
Qed.

Lemma weekDay_before_sunday (n : Z) : Cal.weekDay n = 0 -> Cal.weekDay (n - 1) = 6.
Proof.
  unfold Cal.weekDay. intros H.
  pose proof (Z.div_mod (n + 4) 7 ltac:(lia)) as E. rewrite H in E.
  symmetry. apply Z.mod_unique with ((n + 4) / 7 - 1); lia.
Qed.

Lemma supa_bucket_of_date (tz n : Z) :
  0 <= n < 36525 ->
  0 <= Spec.localDay tz (n * Cal.msPerDay) < 36525 ->
  Supa.weekBucket tz (JSDate.parse (Spec.isoDate n))
  = (Some (Spec.weekOfYear (Spec.saturdayOf (Spec.localDay tz (n * Cal.msPerDay)))),
     Some (Cal.yearOf (Spec.localDay tz (n * Cal.msPerDay)))).
Proof.
  intros Hn Hk. unfold Supa.weekBucket, Supa.getWeekNumber.
  rewrite parse_isoDate by assumption. cbn [option_map].
  now rewrite supa_week_closed.
Qed.

Lemma idb_bucket_of_date (tz n : Z) :
  0 <= n < 36525 ->
  0 <= Spec.localDay tz (n * Cal.msPerDay) < 36525 ->
  Idb.weekBucket tz (JSDate.parse (Spec.isoDate n))
  = (Some (Spec.weekOfYear (Spec.thursdayOf (Spec.localDay tz (n * Cal.msPerDay)))),
     Some (Cal.yearOf (Spec.localDay tz (n * Cal.msPerDay)))).
Proof.
  intros Hn Hk. unfold Idb.weekBucket, Idb.getWeekNumber.
  rewrite parse_isoDate by assumption. cbn [option_map].
  now rewrite idb_week_closed.
Qed.

Lemma saturday_next_week (n : Z) :
  0 <= n < 36525 ->
  (Spec.weekOfYear (Spec.saturdayOf n) =? Spec.weekOfYear (Spec.saturdayOf n + 7)) = false.
Proof.
  intros Hn. rewrite saturdayOf_weeks. apply anchorWeekOk_next, saturday_weeks_ok.
  pose proof (Z.div_le_mono 4 (n + 4) 7). pose proof (Z.div_le_mono (n + 4) 36528 7).
  change (4 / 7) with 0 in *. change (36528 / 7) with 5218 in *. lia.
Qed.

Lemma thursday_next_week (n : Z) :
  0 <= n < 36525 ->
  (Spec.weekOfYear (Spec.thursdayOf n) =? Spec.weekOfYear (Spec.thursdayOf n + 7)) = false.
Proof.
  intros Hn. rewrite thursdayOf_weeks. apply anchorWeekOk_next, thursday_weeks_ok.
  pose proof (Z.div_le_mono 3 (n + 3) 7). pose proof (Z.div_le_mono (n + 3) 36527 7).
  change (3 / 7) with 0 in *. change (36527 / 7) with 5218 in *. lia.
Qed.

(** [updateSummaries] with [getWeekNumber] (both variants), in a time zone
    at a fixed offset from UTC and for the days of the century from
    1970-01-01: the week of a record depends on the time zone.  The date of
    a record is read as midnight UTC and its week is taken in local time.
    At UTC and east of it the bucket of a record is that of its date.  West
    of UTC it is that of the day before: the week of the summary then runs
    over the dates from Monday to Sunday (Supabase variant) or from Tuesday
    to Monday (IndexedDB variant), and a shift dated today is left out of
    the week figure when today is a Sunday (a Monday for the IndexedDB
    variant). *)
Theorem summary_week_depends_on_the_time_zone :
  (forall tz n : Z,
     0 <= tz < 1440 -> 0 <= n < 36525 ->
     Supa.weekBucket tz (JSDate.parse (Spec.isoDate n))
     = (Some (Spec.weekOfYear (Spec.saturdayOf n)), Some (Cal.yearOf n)) /\
     Idb.weekBucket tz (JSDate.parse (Spec.isoDate n))
     = (Some (Spec.weekOfYear (Spec.thursdayOf n)), Some (Cal.yearOf n))) /\
  (forall tz n : Z,
     -1440 <= tz < 0 -> 1 <= n < 36525 ->
     Supa.weekBucket tz (JSDate.parse (Spec.isoDate n))
     = (Some (Spec.weekOfYear (Spec.saturdayOf (n - 1))), Some (Cal.yearOf (n - 1))) /\
     Idb.weekBucket tz (JSDate.parse (Spec.isoDate n))
     = (Some (Spec.weekOfYear (Spec.thursdayOf (n - 1))), Some (Cal.yearOf (n - 1)))) /\
  (forall tz n now : Z,
     -1440 <= tz < 0 -> 1 <= n < 36525 ->
     Spec.localDay tz now = n -> Cal.weekDay n = 0 ->
     Supa.sameBucket (Supa.weekBucket tz (JSDate.parse (Spec.isoDate n)))
       (Supa.weekBucket tz (Some now)) = false) /\
  (forall tz n now : Z,
     -1440 <= tz < 0 -> 1 <= n < 36525 ->
     Spec.localDay tz now = n -> Cal.weekDay n = 1 ->
     Idb.sameBucket (Idb.weekBucket tz (JSDate.parse (Spec.isoDate n)))
       (Idb.weekBucket tz (Some now)) = false) /\
  Cal.weekDay 20324 = 0 /\ Spec.isoDate 20324 = "2025-08-24" /\
  weekSummaryEl
    (Supa.updateSummaries (-420) [recordOn "2025-08-24"] false (20324 * 86400000 + 68400000))
  = "$0.00" /\
  weekSummaryEl
    (Supa.updateSummaries 0 [recordOn "2025-08-24"] false (20324 * 86400000 + 43200000))
  = "$50.00".
Proof.
  split; [|split; [|split; [|split; [|repeat split; vm_compute; reflexivity]]]].
  - intros tz n Htz Hn. destruct (localDay_of_midnight tz n) as (E & _). specialize (E Htz).
    rewrite supa_bucket_of_date, idb_bucket_of_date by (rewrite ?E; lia).
    now rewrite E.
  - intros tz n Htz Hn. destruct (localDay_of_midnight tz n) as (_ & E). specialize (E Htz).
    rewrite supa_bucket_of_date, idb_bucket_of_date by (rewrite ?E; lia).
    now rewrite E.
  - intros tz n now Htz Hn Hnow Hday.
    destruct (localDay_of_midnight tz n) as (_ & E). specialize (E Htz).
    rewrite supa_bucket_of_date by (rewrite ?E; lia). rewrite E.
    unfold Supa.weekBucket, Supa.getWeekNumber. cbn [option_map].
    rewrite supa_week_closed by (rewrite Hnow; lia). rewrite Hnow.
    unfold Supa.sameBucket. cbn [fst snd Supa.strictEq].
    assert (Es : Spec.saturdayOf n = Spec.saturdayOf (n - 1) + 7).
    { unfold Spec.saturdayOf, Spec.sundayOf.
      rewrite Hday, (weekDay_before_sunday n Hday). lia. }
    rewrite Es, saturday_next_week by lia. reflexivity.
  - intros tz n now Htz Hn Hnow Hday.
    destruct (localDay_of_midnight tz n) as (_ & E). specialize (E Htz).
    rewrite idb_bucket_of_date by (rewrite ?E; lia). rewrite E.
    unfold Idb.weekBucket, Idb.getWeekNumber. cbn [option_map].
    rewrite idb_week_closed by (rewrite Hnow; lia). rewrite Hnow.
    unfold Idb.sameBucket. cbn [fst snd Idb.strictEq].
    assert (Es : Spec.thursdayOf n = Spec.thursdayOf (n - 1) + 7).
    { unfold Spec.thursdayOf, Spec.mondayOf.
      rewrite Hday, (weekDay_before n 1 ltac:(lia) Hday).
      change ((1 + 6) mod 7) with 0. change ((1 - 1 + 6) mod 7) with 6. lia. }
    rewrite Es, thursday_next_week by lia. reflexivity.
Qed.

(** Sunday 2025-08-24, at noon seven hours behind UTC. *)
Lemma summary_week_sample :
  Supa.sameBucket (Supa.weekBucket (-420) (JSDate.parse (Spec.isoDate 20324)))
    (Supa.weekBucket (-420) (Some (20324 * 86400000 + 68400000))) = false.
Proof.
  apply (proj1 (proj2 (proj2 summary_week_depends_on_the_time_zone))
           (-420) 20324 (20324 * 86400000 + 68400000)); try reflexivity; lia.
Defined.

(** ** Records with 24-hour times *)

Lemma clock_refused (h m : Z) :
  0 <= h < 24 -> 0 <= m < 60 ->
  Supa.parseTimeToMinutes (Spec.clock h m) = None /\
  Supa.validateTimeInput (Spec.clock h m) = false /\
  Supa.formatTimeInput (Spec.clock h m) = Spec.clock h m.
Proof.
  intros Hh Hm.
  assert (H : Spec.forRange (Z.to_nat 1440) 0 clockRefusedOk = true)
    by (vm_compute; reflexivity).
  apply (forRange_each _ _ (h * 60 + m)) in H; [|rewrite Z2Nat.id; lia].
  unfold clockRefusedOk in H.
  replace ((h * 60 + m) / 60) with h in H by (apply Z.div_unique with m; lia).
  replace ((h * 60 + m) mod 60) with m in H by (apply Z.mod_unique with h; lia).
  apply andb_prop in H as [[H1 H2]%andb_prop H3].
  apply negb_true_iff in H2. apply String.eqb_eq in H3.
  destruct (Supa.parseTimeToMinutes (Spec.clock h m)); [discriminate|auto].
Qed.

Lemma duration_unparsed (a b : string) :
  Supa.parseTimeToMinutes a = None \/ Supa.parseTimeToMinutes b = None ->
  Supa.calculateTimeDifferenceMinutes a b = 0.
Proof.
  intros H. unfold Supa.calculateTimeDifferenceMinutes.
  destruct (JS.falsy a || JS.falsy b); [reflexivity|].
  destruct H as [-> | ->]; [reflexivity|].
  now destruct (Supa.parseTimeToMinutes a).
Qed.

(** The Supabase variant and the records of the earlier variants, which
    keep the values of time inputs ([HH:MM] on 24 hours) and which
    [loadEntries] takes over from localStorage.  Such a time does not parse
    and does not validate, and the formatter leaves it as it is.  So a
    record with such a start or end cannot be updated as it is: opened for
    editing, it shows no shift duration, and the submit changes nothing
    until the times have been typed again. *)
Theorem records_with_24_hour_times :
  (forall h m : Z,
     0 <= h < 24 -> 0 <= m < 60 ->
     Supa.parseTimeToMinutes (Spec.clock h m) = None /\
     Supa.validateTimeInput (Spec.clock h m) = false /\
     Supa.formatTimeInput (Spec.clock h m) = Spec.clock h m) /\
  (forall (st : State) (i : nat) (e : Entry),
     entries st !! i = Some e ->
     Spec.timeInputValue (start e) -> Spec.timeInputValue (end_ e) ->
     start e <> "" \/ end_ e <> "" ->
     let opened := Supa.step (Supa.editEntry i st) Supa.EditSetupDone in
     shiftDurationEl (form opened) = dash /\
     Supa.submit opened = opened) /\
  Spec.clock 9 0 = "09:00" /\ Supa.validateTimeInput "17:30" = false.
Proof.
  split; [exact clock_refused|]. split; [|split; reflexivity].
  intros st i e He Hs Hend Hne opened.
  assert (Eo : opened = Supa.step (Supa.editEntry i st) Supa.EditSetupDone) by reflexivity.
  unfold Supa.editEntry in Eo. rewrite He in Eo.
  cbn [Supa.step entries editingIndex isSettingUpEdit form] in Eo.
  assert (Hparse : Supa.parseTimeToMinutes (start e) = None \/
                   Supa.parseTimeToMinutes (end_ e) = None).
  { destruct Hs as [Hs|(h & m & Hh & Hm & Hs)].
    - right. destruct Hend as [Hend|(h & m & Hh & Hm & Hend)];
        [rewrite Hend; reflexivity|].
      rewrite Hend. now apply clock_refused.
    - left. rewrite Hs. now apply clock_refused. }
  assert (Hval : Supa.validateTimeInput (start e) = false \/
                 Supa.validateTimeInput (end_ e) = false).
  { destruct Hs as [Hs|(h & m & Hh & Hm & Hs)].
    - right. destruct Hend as [Hend|(h & m & Hh & Hm & Hend)];
        [destruct Hne; congruence|].
      rewrite Hend. now apply clock_refused.
    - left. rewrite Hs. now apply clock_refused. }
  split.
  - rewrite Eo. cbn [form Supa.recalculate shiftDurationEl startTimeInput endTimeInput].
    replace (Supa.calculateTimeDifferenceMinutes (start e) (end_ e)) with 0; [reflexivity|].
    symmetry. now apply duration_unparsed.
  - apply submit_refuses. rewrite Eo. exact Hval.
Qed.

(** A record of the IndexedDB variant: from 09:00 to 17:00. *)
Lemma records_with_24_hour_times_sample :
  Supa.parseTimeToMinutes (Spec.clock 9 0) = None /\
  Supa.validateTimeInput (Spec.clock 9 0) = false /\
  Supa.formatTimeInput (Spec.clock 9 0) = Spec.clock 9 0.
Proof. apply (proj1 records_with_24_hour_times 9 0); lia. Defined.
